(** * Kripto klasifikator: a shallow embedding of the scoring engine

    The development follows the Python sources

    - [classifier/models.py]        enums and the three metric records,
    - [classifier/baza_prevar.py]   the registry of known scams,
    - [classifier/analizatorji.py]  the technical, economic, social and
                                    fraud analyzers,
    - [classifier/klasifikator.py]  aggregation, risk tier, category, the
                                    fixed report for known scams, batches,
    - [classifier/api_klient.py]    the retry loop, the search and the
                                    assembly of the payload.

    Modelling conventions.

    - Python floats are rationals ([Q]) with exact arithmetic; every
      threshold comparison of the source is a comparison in [Q].
    - Python ints that are ranks or counters are [Z].
    - A JSON field that may be absent or null is an [option]; the source's
      [a or b] chains are the functions [ali_*] below: a value is skipped
      when it is [None] or zero.
    - Strings are [string]; [lower]/[upper] act on ASCII letters.
    - The data provider and the clock are parameters of the section: the
      provider threads an abstract world state, the clock is the function
      that gives the whole days elapsed since a genesis date string. *)

From Stdlib Require Import ZArith QArith Qabs Qround String Ascii List Bool Lia Lqa.
From Stdlib Require Import DecimalString Sorted.
Import ListNotations.
Open Scope string_scope.
Open Scope Q_scope.

Set Implicit Arguments.

(* ------------------------------------------------------------------ *)
(** * Python primitives *)

(** [x < y] on floats, as a boolean. *)
Definition Qlt_bool (x y : Q) : bool := negb (Qle_bool y x).

Notation "x <? y" := (Qlt_bool x y) : Q_scope.
Notation "x >? y" := (Qlt_bool y x) (at level 70) : Q_scope.
Notation "x <=? y" := (Qle_bool x y) : Q_scope.
Notation "x >=? y" := (Qle_bool y x) (at level 70) : Q_scope.

(** Python's [max(a, b)]: [b] only when it is strictly larger. *)
Definition max_ (a b : Q) : Q := if a <? b then b else a.

(** Python's [min(a, b)]: [b] only when it is strictly smaller. *)
Definition min_ (a b : Q) : Q := if b <? a then b else a.

(** Truthiness of numbers: zero is false. *)
Definition resnicno_Z (v : Z) : bool := negb (v =? 0)%Z.
Definition resnicno_Q (v : Q) : bool := negb (Qeq_bool v 0).

(** [x or y] where both operands may be [None]. *)
Definition ali (A : Type) (resnicno : A -> bool) (x y : option A) : option A :=
  match x with
  | Some v => if resnicno v then Some v else y
  | None => y
  end.

(** [x or d] with a final default. *)
Definition ali_privzeto (A : Type) (resnicno : A -> bool) (x : option A) (d : A) : A :=
  match x with
  | Some v => if resnicno v then v else d
  | None => d
  end.

Definition ali_Z := ali resnicno_Z.
Definition ali_Q := ali resnicno_Q.
Definition ali_privzeto_Z := ali_privzeto resnicno_Z.
Definition ali_privzeto_Q := ali_privzeto resnicno_Q.

(** [str.lower()] and [str.upper()] on ASCII letters. *)
Definition mala_crka (c : ascii) : ascii :=
  let n := nat_of_ascii c in
  if (65 <=? n)%nat && (n <=? 90)%nat then ascii_of_nat (n + 32) else c.

Definition velika_crka (c : ascii) : ascii :=
  let n := nat_of_ascii c in
  if (97 <=? n)%nat && (n <=? 122)%nat then ascii_of_nat (n - 32) else c.

Fixpoint preslikaj (f : ascii -> ascii) (s : string) : string :=
  match s with
  | EmptyString => EmptyString
  | String c r => String (f c) (preslikaj f r)
  end.

Definition lower (s : string) : string := preslikaj mala_crka s.
Definition upper (s : string) : string := preslikaj velika_crka s.

(** [s.replace(a, b)] for one-character [a] and [b]. *)
Definition replace (a b : ascii) (s : string) : string :=
  preslikaj (fun c => if Ascii.eqb c a then b else c) s.

(** [vzorec in s]: substring test. *)
Fixpoint vsebuje (vzorec s : string) : bool :=
  if prefix vzorec s then true
  else match s with
       | EmptyString => false
       | String _ r => vsebuje vzorec r
       end.

(** Truthiness of a string. *)
Definition neprazen (s : string) : bool :=
  match s with EmptyString => false | _ => true end.

(** [round(x, n)]: round half to even at [n] decimals. *)
Definition zaokrozi_celo (y : Q) : Z :=
  let f := Qfloor y in
  let r := y - inject_Z f in
  if r <? 0.5 then f
  else if r >? 0.5 then (f + 1)%Z
  else if Z.even f then f else (f + 1)%Z.

Definition round (x : Q) (n : nat) : Q :=
  let m := inject_Z (10 ^ Z.of_nat n) in
  inject_Z (zaokrozi_celo (x * m)) / m.

(* ------------------------------------------------------------------ *)
(** * models.py: enums *)

Inductive StopnjaTveganja :=
  | ZELO_NIZKO | NIZKO | SREDNJE | VISOKO | ZELO_VISOKO | KRITICNO.

Definition StopnjaTveganja_value (s : StopnjaTveganja) : string :=
  match s with
  | ZELO_NIZKO => "Very Low Risk"
  | NIZKO => "Low Risk"
  | SREDNJE => "Moderate Risk"
  | VISOKO => "High Risk"
  | ZELO_VISOKO => "Very High Risk"
  | KRITICNO => "Critical Risk - Likely Scam"
  end.

Inductive TipPrevare :=
  | PONZIJEVA_SHEMA | RUG_PULL | PUMP_AND_DUMP | ALGORITMICNA_NAPAKA
  | SUMLJIVA_PONZI | TVEGANJE_BORZE | HONEYPOT | NEZNANO.

Definition TipPrevare_value (t : TipPrevare) : string :=
  match t with
  | PONZIJEVA_SHEMA => "Ponzi Scheme"
  | RUG_PULL => "Rug Pull"
  | PUMP_AND_DUMP => "Pump and Dump"
  | ALGORITMICNA_NAPAKA => "Algorithmic Failure"
  | SUMLJIVA_PONZI => "Suspected Ponzi"
  | TVEGANJE_BORZE => "Exchange Token Risk"
  | HONEYPOT => "Honeypot"
  | NEZNANO => "Unknown/Not Classified"
  end.

Definition vsi_tipi : list TipPrevare :=
  [PONZIJEVA_SHEMA; RUG_PULL; PUMP_AND_DUMP; ALGORITMICNA_NAPAKA;
   SUMLJIVA_PONZI; TVEGANJE_BORZE; HONEYPOT; NEZNANO].

(** [TipPrevare(niz)]: lookup of an enum member by value; [None] stands
    for the [ValueError] of a failed lookup. *)
Definition TipPrevare_iz_vrednosti (niz : string) : option TipPrevare :=
  find (fun t => String.eqb (TipPrevare_value t) niz) vsi_tipi.

Inductive KategorijaProjekta :=
  | LAYER_1 | KVALITETEN_TOKEN | PROBLEMATICEN | NEKATEGORIZIRAN.

Definition KategorijaProjekta_value (k : KategorijaProjekta) : string :=
  match k with
  | LAYER_1 => "Layer 1 - Own Blockchain"
  | KVALITETEN_TOKEN => "Quality Token - No Own Chain"
  | PROBLEMATICEN => "Problematic/Scam Project"
  | NEKATEGORIZIRAN => "Uncategorized"
  end.

(* ------------------------------------------------------------------ *)
(** * models.py: metric records *)

Record TehnicneMetrike := {
  dostopnost_kode : Q;
  kvaliteta_arhitekture : Q;
  decentralizacija : Q;
  varnostni_mehanizmi : Q;
  status_revizije : Q;
  tveganje_pogodbe : Q
}.

Definition izracunaj_oceno_teh (m : TehnicneMetrike) : Q :=
  let ocena :=
    dostopnost_kode m * 0.15 +
    kvaliteta_arhitekture m * 0.18 +
    decentralizacija m * 0.22 +
    varnostni_mehanizmi m * 0.22 +
    status_revizije m * 0.13 +
    tveganje_pogodbe m * 0.10 in
  ocena * 10.

Record EkonomskeMetrike := {
  pravicnost_distribucije : Q;
  mehanizem_inflacije : Q;
  vesting_urnik : Q;
  koncentracija_lastnistva : Q;
  globina_likvidnosti : Q;
  indikatorji_manipulacije : Q;
  vzdrznost_tokenomike : Q
}.

Definition izracunaj_oceno_eko (m : EkonomskeMetrike) : Q :=
  let ocena :=
    pravicnost_distribucije m * 0.18 +
    mehanizem_inflacije m * 0.12 +
    vesting_urnik m * 0.15 +
    koncentracija_lastnistva m * 0.20 +
    globina_likvidnosti m * 0.15 +
    indikatorji_manipulacije m * 0.12 +
    vzdrznost_tokenomike m * 0.08 in
  ocena * 10.

Record SocialneMetrike := {
  transparentnost_ekipe : Q;
  izkusenost_ekipe : Q;
  kvaliteta_dokumentacije : Q;
  angaziranost_skupnosti : Q;
  pristop_marketinga : Q;
  prisotnost_na_omrezjih : Q;
  zdravje_skupnosti : Q
}.

Definition izracunaj_oceno_soc (m : SocialneMetrike) : Q :=
  let ocena :=
    transparentnost_ekipe m * 0.22 +
    izkusenost_ekipe m * 0.18 +
    kvaliteta_dokumentacije m * 0.18 +
    angaziranost_skupnosti m * 0.15 +
    pristop_marketinga m * 0.10 +
    prisotnost_na_omrezjih m * 0.08 +
    zdravje_skupnosti m * 0.09 in
  ocena * 10.

(* ------------------------------------------------------------------ *)
(** * baza_prevar.py: the registry of known scams *)

(** One entry of [known_scam_coins]; every key may be missing. *)
Record ZapisPrevare := {
  zp_name : option string;
  zp_symbol : option string;
  zp_scam_type : option string;
  zp_red_flags : option (list string);
  zp_score : option Q;
  zp_grade : option string;
  zp_description : option string;
  zp_collapse_date : option string;
  zp_estimated_losses : option string
}.

(** models.py: [IndikatorjiPrevare]. *)
Record IndikatorjiPrevare := {
  je_znana_prevara : bool;
  tip_prevare : TipPrevare;
  verjetnost_prevare : Q;
  rdeci_zastavice : list string;
  opozorila : list string;
  podatki_znane_prevare : option ZapisPrevare
}.

(** The dataclass defaults of [IndikatorjiPrevare()]. *)
Definition IndikatorjiPrevare_privzeto : IndikatorjiPrevare :=
  {| je_znana_prevara := false;
     tip_prevare := NEZNANO;
     verjetnost_prevare := 0.0;
     rdeci_zastavice := [];
     opozorila := [];
     podatki_znane_prevare := None |}.

(** [dict.get(key, default)] on an optional field. *)
Definition get (A : Type) (x : option A) (d : A) : A :=
  match x with Some v => v | None => d end.

Module UpravljalecBazePrevar.

(** [self.znane_prevare]: a dict in insertion order. *)
Definition t := list (string * ZapisPrevare).

(** [kljuc in self.znane_prevare] followed by [self.znane_prevare[kljuc]]. *)
Fixpoint poisci_kljuc (baza : t) (kljuc : string) : option ZapisPrevare :=
  match baza with
  | [] => None
  | (k, v) :: r => if String.eqb k kljuc then Some v else poisci_kljuc r kljuc
  end.

(** The first loop: the three spellings of the identifier, in order. *)
Fixpoint poisci_variante (baza : t) (kljuci : list string) : option ZapisPrevare :=
  match kljuci with
  | [] => None
  | kljuc :: r =>
      match poisci_kljuc baza kljuc with
      | Some v => Some v
      | None => poisci_variante baza r
      end
  end.

(** The second loop: match on the entry's name or symbol. *)
Fixpoint poisci_po_imenu (baza : t) (id_kovanca : string) : option ZapisPrevare :=
  match baza with
  | [] => None
  | (_, podatki) :: r =>
      let ime := lower (get (zp_name podatki) "") in
      let simbol := lower (get (zp_symbol podatki) "") in
      if String.eqb ime (lower id_kovanca) || String.eqb simbol (lower id_kovanca)
      then Some podatki
      else poisci_po_imenu r id_kovanca
  end.

(** [je_znana_prevara]: [Some podatki] is the pair [(True, podatki)],
    [None] the pair [(False, None)]. *)
Definition je_znana_prevara (baza : t) (id_kovanca : string) : option ZapisPrevare :=
  let normaliziran := replace "_" "-" (replace " " "-" (lower id_kovanca)) in
  match poisci_variante baza [normaliziran; lower id_kovanca; id_kovanca] with
  | Some v => Some v
  | None => poisci_po_imenu baza id_kovanca
  end.

End UpravljalecBazePrevar.

(* ------------------------------------------------------------------ *)
(** * The payload returned by the data provider

    [podatki = {'basic_info': ..., 'market_data': ..., 'coin_id': ...}]
    with the fields the analyzers read. *)

(** [podatki['market_data']]: the row of the markets endpoint. *)
Record TrzniPodatki := {
  md_market_cap_rank : option Z;
  md_market_cap : option Q;
  md_total_volume : option Q;
  md_max_supply : option Q;
  md_circulating_supply : option Q;
  md_ath_change_percentage : option Q;
  md_price_change_percentage_7d_in_currency : option Q;
  md_price_change_percentage_30d_in_currency : option Q
}.

(** [podatki['basic_info']['market_data']]; the nested [{'usd': ...}]
    dictionaries are flattened to their [usd] entry. *)
Record TrzniInfo := {
  bi_market_cap_rank : option Z;
  bi_market_cap_usd : option Q;
  bi_total_volume_usd : option Q;
  bi_max_supply : option Q;
  bi_circulating_supply : option Q;
  bi_ath_change_percentage_usd : option Q;
  bi_price_change_percentage_7d : option Q;
  bi_price_change_percentage_30d : option Q
}.

Record RazvojniPodatki := {
  stars : option Z;
  forks : option Z;
  commit_count_4_weeks : option Z
}.

Record SkupnostPodatki := {
  twitter_followers : option Z;
  reddit_subscribers : option Z;
  telegram_channel_user_count : option Z;
  reddit_accounts_active_48h : option Q
}.

(** A link field that the provider gives as a list or as one string. *)
Inductive UrlPolje :=
  | Seznam (l : list string)
  | Niz (s : string).

Record Povezave := {
  repos_url_github : list string;
  blockchain_site : list string;
  homepage : list string;
  whitepaper : string;
  chat_url : UrlPolje;
  official_forum_url : UrlPolje
}.

Record OsnovniPodatki := {
  name : option string;
  symbol : option string;
  genesis_date : string;
  categories : list string;
  description_en : string;
  sentiment_votes_up_percentage : option Q;
  developer_data : RazvojniPodatki;
  community_data : SkupnostPodatki;
  links : Povezave;
  bi_market_data : TrzniInfo
}.

Record Podatki := {
  basic_info : OsnovniPodatki;
  market_data : TrzniPodatki;
  coin_id : string
}.

(** Payloads with nothing in them, the starting point of examples. *)
Definition prazni_trzni_info : TrzniInfo :=
  {| bi_market_cap_rank := None; bi_market_cap_usd := None;
     bi_total_volume_usd := None; bi_max_supply := None;
     bi_circulating_supply := None; bi_ath_change_percentage_usd := None;
     bi_price_change_percentage_7d := None;
     bi_price_change_percentage_30d := None |}.

Definition prazne_povezave : Povezave :=
  {| repos_url_github := []; blockchain_site := []; homepage := [];
     whitepaper := ""; chat_url := Seznam []; official_forum_url := Seznam [] |}.

Definition prazni_osnovni : OsnovniPodatki :=
  {| name := None; symbol := None; genesis_date := ""; categories := [];
     description_en := ""; sentiment_votes_up_percentage := None;
     developer_data := {| stars := None; forks := None; commit_count_4_weeks := None |};
     community_data := {| twitter_followers := None; reddit_subscribers := None;
                          telegram_channel_user_count := None;
                          reddit_accounts_active_48h := None |};
     links := prazne_povezave;
     bi_market_data := prazni_trzni_info |}.

(* ------------------------------------------------------------------ *)
(** * analizatorji.py: [AnalizatorMetrik] *)

Definition neprazen_seznam (A : Type) (l : list A) : bool :=
  match l with [] => false | _ => true end.

(** [bool(l[0]) if l else False] on a list of strings. *)
Definition prvi_resnicen (l : list string) : bool :=
  match l with [] => false | h :: _ => neprazen h end.

Section Klasifikacija.

(** The clock: [(datetime.now() - datetime.fromisoformat(d)).days], [None]
    when parsing the date string raises. *)
Variable dni_od_geneze : string -> option Z.

Definition _dobi_rang (podatki : Podatki) : Z :=
  let trzni := market_data podatki in
  let trzni_info := bi_market_data (basic_info podatki) in
  ali_privzeto_Z (ali_Z (md_market_cap_rank trzni) (bi_market_cap_rank trzni_info)) 9999%Z.

Definition _dobi_trzno_kap (podatki : Podatki) : Q :=
  let trzni := market_data podatki in
  let trzni_info := bi_market_data (basic_info podatki) in
  ali_privzeto_Q (ali_Q (md_market_cap trzni) (bi_market_cap_usd trzni_info)) 0.

Definition _dobi_volumen (podatki : Podatki) : Q :=
  let trzni := market_data podatki in
  let trzni_info := bi_market_data (basic_info podatki) in
  ali_privzeto_Q (ali_Q (md_total_volume trzni) (bi_total_volume_usd trzni_info)) 0.

Definition _izracunaj_starost (datum_geneze : string) : Q :=
  if negb (neprazen datum_geneze) then 0
  else match dni_od_geneze datum_geneze with
       | Some dni => inject_Z dni / 365
       | None => 0
       end.

(** ** Technical analysis *)

(** The age used by [analiziraj_tehnicne] (source lines 68-84). *)
Definition starost_let_tehnicne (podatki : Podatki) : Q :=
  let rang := _dobi_rang podatki in
  let starost_let := _izracunaj_starost (genesis_date (basic_info podatki)) in
  if Qeq_bool starost_let 0 then
    if (rang <=? 10)%Z then 8.0
    else if (rang <=? 20)%Z then 6.0
    else if (rang <=? 50)%Z then 4.0
    else if (rang <=? 100)%Z then 3.0
    else if (rang <=? 200)%Z then 2.0
    else 1.0
  else starost_let.

Definition ocena_kode (povezave : Povezave) : Q :=
  let github_repoji := repos_url_github povezave in
  if neprazen_seznam github_repoji && (0 <? Z.of_nat (length github_repoji))%Z then 8.5
  else if neprazen_seznam (blockchain_site povezave)
          && existsb neprazen (blockchain_site povezave) then 6.0
  else 4.0.

Definition ocena_arhitekture (razvojni : RazvojniPodatki) (rang : Z) (starost_let : Q) : Q :=
  let zvezdice := ali_privzeto_Z (stars razvojni) 0%Z in
  let forki := ali_privzeto_Z (forks razvojni) 0%Z in
  let commiti := ali_privzeto_Z (commit_count_4_weeks razvojni) 0%Z in
  if (zvezdice >? 50000)%Z && (forki >? 20000)%Z then 9.5
  else if (zvezdice >? 30000)%Z && (forki >? 10000)%Z then 9.0
  else if (zvezdice >? 15000)%Z && (forki >? 5000)%Z then 8.5
  else if (zvezdice >? 5000)%Z then 8.0
  else if (zvezdice >? 1000)%Z then 7.5
  else if (zvezdice >? 500)%Z || (commiti >? 50)%Z then 7.0
  else if (zvezdice >? 100)%Z || (commiti >? 20)%Z then 6.0
  else if (zvezdice >? 0)%Z || (commiti >? 0)%Z then 5.0
  else
    if (rang <=? 10)%Z && (starost_let >? 5) then 9.0
    else if (rang <=? 20)%Z && (starost_let >? 4) then 8.5
    else if (rang <=? 30)%Z && (starost_let >? 3) then 8.0
    else if (rang <=? 50)%Z && (starost_let >? 2) then 7.5
    else if (rang <=? 100)%Z && (starost_let >? 1) then 7.0
    else if (rang <=? 200)%Z then 6.5
    else if (rang <=? 500)%Z then 5.5
    else 4.0.

Definition ocena_decentralizacije (rang : Z) (starost_let : Q) : Q :=
  if (starost_let >? 10) && (rang <=? 5)%Z then 9.5
  else if (starost_let >? 6) && (rang <=? 15)%Z then 9.0
  else if (starost_let >? 4) && (rang <=? 30)%Z then 8.5
  else if (starost_let >? 3) && (rang <=? 50)%Z then 8.0
  else if (starost_let >? 2) && (rang <=? 100)%Z then 7.5
  else if (starost_let >? 2) then 7.0
  else if (starost_let >? 1) then 6.5
  else if (rang <=? 100)%Z then 6.0
  else 5.0.

Definition ocena_varnosti (rang : Z) : Q :=
  if (rang <=? 5)%Z then 9.5
  else if (rang <=? 10)%Z then 9.0
  else if (rang <=? 20)%Z then 8.5
  else if (rang <=? 50)%Z then 8.0
  else if (rang <=? 100)%Z then 7.5
  else if (rang <=? 200)%Z then 7.0
  else if (rang <=? 500)%Z then 6.0
  else if (rang <=? 1000)%Z then 5.0
  else 4.0.

Definition ocena_revizije (rang : Z) (starost_let : Q) : Q :=
  if (rang <=? 10)%Z && (starost_let >? 5) then 9.5
  else if (rang <=? 20)%Z && (starost_let >? 3) then 9.0
  else if (rang <=? 50)%Z && (starost_let >? 2) then 8.0
  else if (rang <=? 100)%Z && (starost_let >? 1) then 7.5
  else if (rang <=? 200)%Z then 7.0
  else if (rang <=? 500)%Z then 6.0
  else 5.0.

Definition je_token (kategorije : list string) : bool :=
  existsb (fun kat => vsebuje "token" (lower kat)
                      || vsebuje "erc" (lower kat)
                      || vsebuje "bep" (lower kat)) kategorije.

Definition ocena_pogodbe (kategorije : list string) (rang : Z) (starost_let : Q) : Q :=
  if negb (je_token kategorije) then 8.0
  else if (rang <=? 50)%Z && (starost_let >? 3) then 8.0
  else if (rang <=? 100)%Z && (starost_let >? 2) then 7.5
  else if (rang <=? 200)%Z && (starost_let >? 1) then 7.0
  else 6.0.

Definition analiziraj_tehnicne (podatki : Podatki) : TehnicneMetrike :=
  let osnovni := basic_info podatki in
  let razvojni := developer_data osnovni in
  let povezave := links osnovni in
  let rang := _dobi_rang podatki in
  let starost_let := starost_let_tehnicne podatki in
  {| dostopnost_kode := ocena_kode povezave;
     kvaliteta_arhitekture := ocena_arhitekture razvojni rang starost_let;
     decentralizacija := ocena_decentralizacije rang starost_let;
     varnostni_mehanizmi := ocena_varnosti rang;
     status_revizije := ocena_revizije rang starost_let;
     tveganje_pogodbe := ocena_pogodbe (categories osnovni) rang starost_let |}.

(** ** Economic analysis *)

(** The age used by [analiziraj_ekonomske] (source lines 237-249). *)
Definition starost_let_ekonomske (podatki : Podatki) : Q :=
  let rang := _dobi_rang podatki in
  let starost_let := _izracunaj_starost (genesis_date (basic_info podatki)) in
  if Qeq_bool starost_let 0 then
    if (rang <=? 10)%Z then 8.0
    else if (rang <=? 20)%Z then 6.0
    else if (rang <=? 50)%Z then 4.0
    else if (rang <=? 100)%Z then 3.0
    else 2.0
  else starost_let.

Definition ocena_distribucije (volumen trzna_kap : Q) (rang : Z) (starost_let : Q) : Q :=
  let razmerje_volumna := if trzna_kap >? 0 then volumen / trzna_kap * 100 else 0 in
  let ocena_distribucije :=
    if razmerje_volumna >? 15 then 9.5
    else if razmerje_volumna >? 8 then 9.0
    else if razmerje_volumna >? 4 then 8.5
    else if razmerje_volumna >? 2 then 8.0
    else if razmerje_volumna >? 1 then 7.5
    else if razmerje_volumna >? 0.5 then 7.0
    else if razmerje_volumna >? 0.1 then 6.0
    else 5.0 in
  if (rang <=? 10)%Z && (starost_let >? 5) then max_ ocena_distribucije 9.0
  else if (rang <=? 30)%Z && (starost_let >? 3) then max_ ocena_distribucije 8.5
  else if (rang <=? 50)%Z then max_ ocena_distribucije 8.0
  else if (rang <=? 100)%Z then max_ ocena_distribucije 7.5
  else ocena_distribucije.

Definition ocena_inflacije (trzni : TrzniPodatki) (trzni_info : TrzniInfo) : Q :=
  let max_zaloga := ali_Q (bi_max_supply trzni_info) (md_max_supply trzni) in
  let v_obtoku :=
    ali_privzeto_Q (ali_Q (bi_circulating_supply trzni_info) (md_circulating_supply trzni)) 0 in
  match max_zaloga with
  | Some max_zaloga =>
      if resnicno_Q max_zaloga && resnicno_Q v_obtoku && (max_zaloga >? 0) then
        let razmerje_zaloge := v_obtoku / max_zaloga in
        if razmerje_zaloge >? 0.9 then 9.0
        else if razmerje_zaloge >? 0.75 then 8.0
        else if razmerje_zaloge >? 0.5 then 7.0
        else if razmerje_zaloge >? 0.3 then 6.0
        else 5.0
      else 6.5
  | None => 6.5
  end.

Definition ocena_vestinga (starost_let : Q) : Q :=
  if starost_let >? 10 then 9.5
  else if starost_let >? 7 then 9.0
  else if starost_let >? 5 then 8.5
  else if starost_let >? 3 then 8.0
  else if starost_let >? 2 then 7.5
  else if starost_let >? 1 then 7.0
  else 6.0.

Definition ocena_koncentracije (trzni : TrzniPodatki) (trzni_info : TrzniInfo)
                               (rang : Z) (starost_let : Q) : Q :=
  let ath_sprememba :=
    ali_privzeto_Q (ali_Q (bi_ath_change_percentage_usd trzni_info)
                          (md_ath_change_percentage trzni)) (-50) in
  let ocena_koncentracije :=
    if ath_sprememba >? -20 then 9.0
    else if ath_sprememba >? -40 then 8.5
    else if ath_sprememba >? -60 then 8.0
    else if ath_sprememba >? -75 then 7.5
    else if ath_sprememba >? -85 then 7.0
    else if ath_sprememba >? -92 then 6.0
    else 5.0 in
  if (rang <=? 10)%Z && (starost_let >? 5) then max_ ocena_koncentracije 8.5
  else if (rang <=? 30)%Z && (starost_let >? 3) then max_ ocena_koncentracije 8.0
  else if (rang <=? 50)%Z then max_ ocena_koncentracije 7.5
  else if (rang <=? 100)%Z then max_ ocena_koncentracije 7.0
  else ocena_koncentracije.

Definition ocena_likvidnosti (volumen : Q) : Q :=
  if volumen >? 2000000000 then 9.5
  else if volumen >? 1000000000 then 9.0
  else if volumen >? 500000000 then 8.5
  else if volumen >? 200000000 then 8.0
  else if volumen >? 100000000 then 7.5
  else if volumen >? 50000000 then 7.0
  else if volumen >? 10000000 then 6.5
  else if volumen >? 1000000 then 6.0
  else if volumen >? 100000 then 5.0
  else 4.0.

Definition ocena_manipulacije (trzni : TrzniPodatki) (trzni_info : TrzniInfo) : Q :=
  let sprememba_7d :=
    ali_privzeto_Q (ali_Q (md_price_change_percentage_7d_in_currency trzni)
                          (bi_price_change_percentage_7d trzni_info)) 0 in
  let sprememba_30d :=
    ali_privzeto_Q (ali_Q (md_price_change_percentage_30d_in_currency trzni)
                          (bi_price_change_percentage_30d trzni_info)) 0 in
  let volatilnost := (Qabs sprememba_7d + Qabs sprememba_30d) / 2 in
  if volatilnost <? 5 then 9.0
  else if volatilnost <? 10 then 8.5
  else if volatilnost <? 20 then 8.0
  else if volatilnost <? 35 then 7.0
  else if volatilnost <? 50 then 6.0
  else 5.0.

Definition ocena_vzdrznosti (rang : Z) (starost_let : Q) : Q :=
  if (rang <=? 10)%Z && (starost_let >? 5) then 9.5
  else if (rang <=? 30)%Z && (starost_let >? 3) then 9.0
  else if (rang <=? 50)%Z && (starost_let >? 2) then 8.5
  else if (rang <=? 100)%Z then 8.0
  else if (rang <=? 200)%Z then 7.5
  else 7.0.

Definition analiziraj_ekonomske (podatki : Podatki) : EkonomskeMetrike :=
  let osnovni := basic_info podatki in
  let trzni := market_data podatki in
  let trzni_info := bi_market_data osnovni in
  let rang := _dobi_rang podatki in
  let trzna_kap := _dobi_trzno_kap podatki in
  let volumen := _dobi_volumen podatki in
  let starost_let := starost_let_ekonomske podatki in
  {| pravicnost_distribucije := ocena_distribucije volumen trzna_kap rang starost_let;
     mehanizem_inflacije := ocena_inflacije trzni trzni_info;
     vesting_urnik := ocena_vestinga starost_let;
     koncentracija_lastnistva := ocena_koncentracije trzni trzni_info rang starost_let;
     globina_likvidnosti := ocena_likvidnosti volumen;
     indikatorji_manipulacije := ocena_manipulacije trzni trzni_info;
     vzdrznost_tokenomike := ocena_vzdrznosti rang starost_let |}.

(** ** Social analysis *)

(** The age used by [analiziraj_socialne] (source lines 428-440). *)
Definition starost_let_socialne (podatki : Podatki) : Q :=
  let rang := _dobi_rang podatki in
  let starost_let := _izracunaj_starost (genesis_date (basic_info podatki)) in
  if Qeq_bool starost_let 0 then
    if (rang <=? 10)%Z then 8.0
    else if (rang <=? 20)%Z then 6.0
    else if (rang <=? 50)%Z then 4.0
    else if (rang <=? 100)%Z then 3.0
    else 2.0
  else starost_let.

(** [bool(u[0]) if u else False] for a list, [bool(u)] otherwise. *)
Definition ima_url (u : UrlPolje) : bool :=
  match u with
  | Seznam l => prvi_resnicen l
  | Niz s => neprazen s
  end.

Definition ima_whitepaper (povezave : Povezave) : bool :=
  neprazen (whitepaper povezave).

Definition stevilo_kanalov (povezave : Povezave) : Z :=
  let ima_domaco := prvi_resnicen (homepage povezave) in
  let ima_chat := ima_url (chat_url povezave) in
  let ima_forum := ima_url (official_forum_url povezave) in
  (Z.b2z ima_domaco + Z.b2z (ima_whitepaper povezave) + Z.b2z ima_chat + Z.b2z ima_forum)%Z.

Definition ocena_transparentnosti (povezave : Povezave) (rang : Z) (starost_let : Q) : Q :=
  let stevilo_kanalov := stevilo_kanalov povezave in
  let ocena_transparentnosti :=
    if (stevilo_kanalov >=? 4)%Z then 9.0
    else if (stevilo_kanalov >=? 3)%Z then 8.5
    else if (stevilo_kanalov >=? 2)%Z then 7.5
    else if (stevilo_kanalov >=? 1)%Z then 6.0
    else 4.0 in
  if (rang <=? 30)%Z && (starost_let >? 3) then max_ ocena_transparentnosti 8.5
  else ocena_transparentnosti.

Definition ocena_izkusenj (rang : Z) (starost_let : Q) : Q :=
  if (rang <=? 10)%Z && (starost_let >? 5) then 9.5
  else if (rang <=? 20)%Z && (starost_let >? 4) then 9.0
  else if (rang <=? 30)%Z && (starost_let >? 3) then 8.5
  else if (rang <=? 50)%Z && (starost_let >? 2) then 8.0
  else if (rang <=? 100)%Z then 7.5
  else if (rang <=? 200)%Z then 7.0
  else 6.0.

Definition ocena_angaziranosti (skupnost : SkupnostPodatki) (rang : Z) : Q :=
  let twitter := ali_privzeto_Z (twitter_followers skupnost) 0%Z in
  let reddit := ali_privzeto_Z (reddit_subscribers skupnost) 0%Z in
  let telegram := ali_privzeto_Z (telegram_channel_user_count skupnost) 0%Z in
  let skupaj_skupnost := (twitter + reddit + telegram)%Z in
  if (skupaj_skupnost >? 5000000)%Z then 9.5
  else if (skupaj_skupnost >? 2000000)%Z then 9.0
  else if (skupaj_skupnost >? 1000000)%Z then 8.5
  else if (skupaj_skupnost >? 500000)%Z then 8.0
  else if (skupaj_skupnost >? 100000)%Z then 7.5
  else if (skupaj_skupnost >? 50000)%Z then 7.0
  else if (skupaj_skupnost >? 10000)%Z then 6.0
  else
    if (rang <=? 10)%Z then 9.0
    else if (rang <=? 30)%Z then 8.5
    else if (rang <=? 50)%Z then 8.0
    else if (rang <=? 100)%Z then 7.5
    else 6.5.

Definition ocena_dokumentacije (osnovni : OsnovniPodatki) : Q :=
  let ima_whitepaper := ima_whitepaper (links osnovni) in
  let ima_opis := neprazen (description_en osnovni) in
  let dolzina_opisa := String.length (description_en osnovni) in
  if ima_whitepaper && (1000 <? dolzina_opisa)%nat then 9.0
  else if ima_whitepaper && (500 <? dolzina_opisa)%nat then 8.5
  else if (1000 <? dolzina_opisa)%nat then 8.0
  else if (500 <? dolzina_opisa)%nat then 7.5
  else if (200 <? dolzina_opisa)%nat then 7.0
  else if ima_opis then 6.0
  else 5.0.

Definition ocena_marketinga (osnovni : OsnovniPodatki) : Q :=
  let sentiment := ali_privzeto_Q (sentiment_votes_up_percentage osnovni) 50 in
  if sentiment >? 80 then 9.0
  else if sentiment >? 65 then 8.0
  else if sentiment >? 50 then 7.0
  else if sentiment >? 40 then 6.0
  else 5.0.

Definition ocena_prisotnosti (skupnost : SkupnostPodatki) (rang : Z) : Q :=
  let twitter := ali_privzeto_Z (twitter_followers skupnost) 0%Z in
  let reddit := ali_privzeto_Z (reddit_subscribers skupnost) 0%Z in
  if (twitter >? 1000000)%Z && (reddit >? 100000)%Z then 9.5
  else if (twitter >? 500000)%Z || (reddit >? 100000)%Z then 9.0
  else if (twitter >? 200000)%Z || (reddit >? 50000)%Z then 8.5
  else if (twitter >? 100000)%Z || (reddit >? 20000)%Z then 8.0
  else if (twitter >? 50000)%Z || (reddit >? 10000)%Z then 7.5
  else if (twitter >? 10000)%Z || (reddit >? 5000)%Z then 7.0
  else
    if (rang <=? 30)%Z then 8.0
    else if (rang <=? 100)%Z then 7.5
    else 6.5.

Definition ocena_zdravja (skupnost : SkupnostPodatki) (rang : Z) : Q :=
  let reddit_aktivnost := ali_privzeto_Q (reddit_accounts_active_48h skupnost) 0 in
  if reddit_aktivnost >? 10000 then 9.0
  else if reddit_aktivnost >? 5000 then 8.5
  else if reddit_aktivnost >? 2000 then 8.0
  else if reddit_aktivnost >? 1000 then 7.5
  else if reddit_aktivnost >? 500 then 7.0
  else if reddit_aktivnost >? 100 then 6.5
  else
    if (rang <=? 20)%Z then 8.5
    else if (rang <=? 50)%Z then 8.0
    else if (rang <=? 100)%Z then 7.5
    else 7.0.

Definition analiziraj_socialne (podatki : Podatki) : SocialneMetrike :=
  let osnovni := basic_info podatki in
  let skupnost := community_data osnovni in
  let povezave := links osnovni in
  let rang := _dobi_rang podatki in
  let starost_let := starost_let_socialne podatki in
  {| transparentnost_ekipe := ocena_transparentnosti povezave rang starost_let;
     izkusenost_ekipe := ocena_izkusenj rang starost_let;
     kvaliteta_dokumentacije := ocena_dokumentacije osnovni;
     angaziranost_skupnosti := ocena_angaziranosti skupnost rang;
     pristop_marketinga := ocena_marketinga osnovni;
     prisotnost_na_omrezjih := ocena_prisotnosti skupnost rang;
     zdravje_skupnosti := ocena_zdravja skupnost rang |}.

(** ** Fraud analysis *)

Definition sumljiva_imena : list string :=
  ["safe"; "moon"; "elon"; "doge"; "shiba"; "inu"; "baby"; "mini"; "floki";
   "100x"; "1000x"; "rocket"; "gem"].

Definition rdece_fraze : list string :=
  ["guaranteed return"; "risk free"; "100x"; "1000x"; "next bitcoin";
   "get rich"; "passive income"; "dont miss"; "don't miss"; "limited time"].

(** The mutable state of the dynamic analysis: the running point total
    and the two message lists of the indicator object. *)
Record Stanje := {
  tocke_prevare : Z;
  st_opozorila : list string;
  st_rdeci_zastavice : list string
}.

(** Body of [for vzorec in sumljiva_imena]. *)
Definition korak_imena (ime : string) (st : Stanje) (vzorec : string) : Stanje :=
  if vsebuje vzorec ime then
    {| tocke_prevare := (tocke_prevare st + 5)%Z;
       st_opozorila := st_opozorila st ++ ["Ime vsebuje hype besedo: '" ++ vzorec ++ "'"];
       st_rdeci_zastavice := st_rdeci_zastavice st |}
  else st.

(** Body of [for fraza in rdece_fraze]. *)
Definition korak_fraze (besedilo : string) (st : Stanje) (fraza : string) : Stanje :=
  if vsebuje fraza besedilo then
    {| tocke_prevare := (tocke_prevare st + 10)%Z;
       st_opozorila := st_opozorila st;
       st_rdeci_zastavice :=
         st_rdeci_zastavice st ++ ["Opis vsebuje rdeco zastavo: '" ++ fraza ++ "'"] |}
  else st.

Definition dodaj_tocke (st : Stanje) (n : Z) : Stanje :=
  {| tocke_prevare := (tocke_prevare st + n)%Z;
     st_opozorila := st_opozorila st;
     st_rdeci_zastavice := st_rdeci_zastavice st |}.

Definition dodaj_tocke_in_zastavo (st : Stanje) (n : Z) (zastava : string) : Stanje :=
  {| tocke_prevare := (tocke_prevare st + n)%Z;
     st_opozorila := st_opozorila st;
     st_rdeci_zastavice := st_rdeci_zastavice st ++ [zastava] |}.

(** [ath_sprememba] as the fraud analysis reads it (source line 678). *)
Definition ath_sprememba_prevare (podatki : Podatki) : Q :=
  ali_privzeto_Q (bi_ath_change_percentage_usd (bi_market_data (basic_info podatki))) (-50).

Definition besedilo_prevare (podatki : Podatki) : string :=
  lower (description_en (basic_info podatki)).

(** Source lines 655-701: the state after all point rules have run. *)
Definition zberi_tocke (podatki : Podatki) : Stanje :=
  let osnovni := basic_info podatki in
  let rang := _dobi_rang podatki in
  let trzna_kap := _dobi_trzno_kap podatki in
  let volumen := _dobi_volumen podatki in
  let st := {| tocke_prevare := 0; st_opozorila := []; st_rdeci_zastavice := [] |} in
  let besedilo := besedilo_prevare podatki in
  let ime := lower (get (name osnovni) "") in
  let st := fold_left (korak_imena ime) sumljiva_imena st in
  let st := fold_left (korak_fraze besedilo) rdece_fraze st in
  let ath_sprememba := ath_sprememba_prevare podatki in
  let st :=
    if (rang >? 200)%Z then
      if (trzna_kap <? 1000000) && (trzna_kap >? 0) then dodaj_tocke st 15
      else if (trzna_kap <? 10000000) && (trzna_kap >? 0) then dodaj_tocke st 8
      else st
    else st in
  let st :=
    if (rang >? 100)%Z then
      if ath_sprememba <? -99 then dodaj_tocke_in_zastavo st 25 "Cena padla >99% od ATH"
      else if ath_sprememba <? -95 then dodaj_tocke st 15
      else st
    else st in
  let st :=
    if (rang >? 100)%Z then
      if (volumen <? 1000) && (trzna_kap >? 0) then
        dodaj_tocke_in_zastavo st 20 "Ekstremno nizek volumen trgovanja"
      else if (volumen <? 10000) && (trzna_kap >? 0) then dodaj_tocke st 10
      else st
    else st in
  st.

(** Source lines 649-715: the dynamic heuristic. *)
Definition dinamicna_analiza (podatki : Podatki) : IndikatorjiPrevare :=
  let st := zberi_tocke podatki in
  let volumen := _dobi_volumen podatki in
  let besedilo := besedilo_prevare podatki in
  let ath_sprememba := ath_sprememba_prevare podatki in
  let verjetnost := min_ (inject_Z (tocke_prevare st) / 100) 0.95 in
  {| je_znana_prevara := false;
     tip_prevare :=
       if verjetnost >? 0.6 then
         if (ath_sprememba <? -99) && (volumen <? 10000) then RUG_PULL
         else if vsebuje "passive income" besedilo || vsebuje "guaranteed" besedilo
              then SUMLJIVA_PONZI
         else PUMP_AND_DUMP
       else NEZNANO;
     verjetnost_prevare := verjetnost;
     rdeci_zastavice := st_rdeci_zastavice st;
     opozorila := st_opozorila st;
     podatki_znane_prevare := None |}.

Variable baza : UpravljalecBazePrevar.t.

Definition analiziraj_prevare (podatki : Podatki) (ime_kovanca : string) : IndikatorjiPrevare :=
  match UpravljalecBazePrevar.je_znana_prevara baza ime_kovanca with
  | Some podatki_prevare =>
      let tip_str := replace "_" " " (upper (get (zp_scam_type podatki_prevare) "unknown")) in
      {| je_znana_prevara := true;
         tip_prevare := get (TipPrevare_iz_vrednosti tip_str) NEZNANO;
         verjetnost_prevare := 1.0;
         rdeci_zastavice := [] ++ get (zp_red_flags podatki_prevare) [];
         opozorila := [];
         podatki_znane_prevare := Some podatki_prevare |}
  | None =>
      let id_kovanca := coin_id podatki in
      match UpravljalecBazePrevar.je_znana_prevara baza id_kovanca with
      | Some podatki_prevare =>
          {| je_znana_prevara := true;
             tip_prevare := NEZNANO;
             verjetnost_prevare := 1.0;
             rdeci_zastavice := [] ++ get (zp_red_flags podatki_prevare) [];
             opozorila := [];
             podatki_znane_prevare := Some podatki_prevare |}
      | None => dinamicna_analiza podatki
      end
  end.

(* ------------------------------------------------------------------ *)
(** * klasifikator.py: [KriptoKlasifikator] *)

(** Values stored in the result dictionaries. *)
Inductive Vrednost :=
  | VNone
  | VBool (b : bool)
  | VStevilo (q : Q)
  | VNiz (s : string)
  | VSeznam (l : list string)
  | VMetrike (l : list (string * Q)).

(** A result dictionary, keys in insertion order. *)
Definition Slovar := list (string * Vrednost).

(** [r.get(kljuc)]. *)
Fixpoint slovar_get (r : Slovar) (kljuc : string) : option Vrednost :=
  match r with
  | [] => None
  | (k, v) :: ostalo => if String.eqb k kljuc then Some v else slovar_get ostalo kljuc
  end.

Definition VNiz_opt (x : option string) : Vrednost :=
  match x with Some s => VNiz s | None => VNone end.

(** What a call gives back: a returned value or a raised exception with
    its message [str(e)]. *)
Inductive Izid (A : Type) :=
  | Vrnjeno (v : A)
  | Izjema (sporocilo : string).
Arguments Izjema {A} sporocilo.

(** The data provider [CoinGeckoKlient.pridobi_podatke_kovanca] acting on
    the outside world; [Vrnjeno None] is an empty answer. The clock
    [cas] is [datetime.now().isoformat()]. *)
Variable Svet : Type.
Variable pridobi_podatke_kovanca : string -> Svet -> Izid (option Podatki) * Svet.
Variable cas : Svet -> string.

Definition UTEZ_TEHNICNE : Q := 0.40.
Definition UTEZ_EKONOMSKE : Q := 0.35.
Definition UTEZ_SOCIALNE : Q := 0.25.

Definition v_slovar_teh (m : TehnicneMetrike) : list (string * Q) :=
  [("dostopnost_kode", dostopnost_kode m);
   ("kvaliteta_arhitekture", kvaliteta_arhitekture m);
   ("decentralizacija", decentralizacija m);
   ("varnostni_mehanizmi", varnostni_mehanizmi m);
   ("status_revizije", status_revizije m);
   ("tveganje_pogodbe", tveganje_pogodbe m)].

Definition v_slovar_eko (m : EkonomskeMetrike) : list (string * Q) :=
  [("pravicnost_distribucije", pravicnost_distribucije m);
   ("mehanizem_inflacije", mehanizem_inflacije m);
   ("vesting_urnik", vesting_urnik m);
   ("koncentracija_lastnistva", koncentracija_lastnistva m);
   ("globina_likvidnosti", globina_likvidnosti m);
   ("indikatorji_manipulacije", indikatorji_manipulacije m);
   ("vzdrznost_tokenomike", vzdrznost_tokenomike m)].

Definition v_slovar_soc (m : SocialneMetrike) : list (string * Q) :=
  [("transparentnost_ekipe", transparentnost_ekipe m);
   ("izkusenost_ekipe", izkusenost_ekipe m);
   ("kvaliteta_dokumentacije", kvaliteta_dokumentacije m);
   ("angaziranost_skupnosti", angaziranost_skupnosti m);
   ("pristop_marketinga", pristop_marketinga m);
   ("prisotnost_na_omrezjih", prisotnost_na_omrezjih m);
   ("zdravje_skupnosti", zdravje_skupnosti m)].

Definition _ustvari_porocilo_prevare (ime simbol : string) (indikatorji : IndikatorjiPrevare)
                                     (svet : Svet) : Izid Slovar :=
  match podatki_znane_prevare indikatorji with
  | None => Izjema "'NoneType' object has no attribute 'get'"
  | Some podatki_prevare =>
      Vrnjeno
        [("ime", VNiz ime);
         ("simbol", VNiz simbol);
         ("koncna_ocena", VStevilo (get (zp_score podatki_prevare) 0));
         ("ocena_crka", VNiz (get (zp_grade podatki_prevare) "F"));
         ("stopnja_tveganja", VNiz "CRITICAL");
         ("kategorija", VNiz "KNOWN_SCAM");
         ("je_potrjena_prevara", VBool true);
         ("tip_prevare", VNiz (get (zp_scam_type podatki_prevare) "Unknown"));
         ("rdeci_zastavice", VSeznam (get (zp_red_flags podatki_prevare) []));
         ("opis_prevare", VNiz (get (zp_description podatki_prevare) ""));
         ("datum_propada", VNiz_opt (zp_collapse_date podatki_prevare));
         ("ocenjene_izgube", VNiz_opt (zp_estimated_losses podatki_prevare));
         ("opozorila", VSeznam ["OPOZORILO: Ta projekt je potrjena prevara. Izogibajte se!"]);
         ("cas_analize", VNiz (cas svet))]
  end.

Definition _doloci_stopnjo (ocena : Q) (indikatorji : IndikatorjiPrevare) : StopnjaTveganja :=
  if je_znana_prevara indikatorji || (verjetnost_prevare indikatorji >? 0.8) then KRITICNO
  else if ocena >=? 85 then ZELO_NIZKO
  else if ocena >=? 70 then NIZKO
  else if ocena >=? 55 then SREDNJE
  else if ocena >=? 40 then VISOKO
  else if ocena >=? 25 then ZELO_VISOKO
  else KRITICNO.

Definition vzorci_layer1 : list string :=
  ["layer 1"; "layer 0"; "layer-1"; "layer-0"; "smart contract platform";
   "proof of stake"; "proof of work"].

Definition vzorci_omrezja : list string :=
  ["blockchain"; "protocol"; "infrastructure"; "ecosystem"].

(** [any(v1 in kat.lower() or v2 in kat.lower() or ... for kat in kategorije)]. *)
Definition kategorija_ustreza (vzorci : list string) (kategorije : list string) : bool :=
  existsb (fun kat => existsb (fun vzorec => vsebuje vzorec (lower kat)) vzorci) kategorije.

Definition je_layer1 (kategorije : list string) : bool :=
  kategorija_ustreza vzorci_layer1 kategorije.

Definition ima_omrezje (kategorije : list string) : bool :=
  kategorija_ustreza vzorci_omrezja kategorije.

(** The rank as [_doloci_kategorijo] reads it (default 10000). *)
Definition rang_kategorije (podatki : Podatki) : Z :=
  let trzni := market_data podatki in
  let trzni_info := bi_market_data (basic_info podatki) in
  ali_privzeto_Z (ali_Z (md_market_cap_rank trzni) (bi_market_cap_rank trzni_info)) 10000%Z.

Definition _doloci_kategorijo (podatki : Podatki) (ocena : Q) : KategorijaProjekta :=
  let kategorije := categories (basic_info podatki) in
  let rang := rang_kategorije podatki in
  if je_layer1 kategorije then LAYER_1
  else if ima_omrezje kategorije && (rang <=? 100)%Z && (ocena >=? 55) then LAYER_1
  else if ocena >=? 50 then KVALITETEN_TOKEN
  else PROBLEMATICEN.

Definition _doloci_crko (ocena : Q) : string :=
  if ocena >=? 93 then "A+"
  else if ocena >=? 85 then "A"
  else if ocena >=? 80 then "A-"
  else if ocena >=? 75 then "B+"
  else if ocena >=? 70 then "B"
  else if ocena >=? 65 then "B-"
  else if ocena >=? 60 then "C+"
  else if ocena >=? 55 then "C"
  else if ocena >=? 50 then "C-"
  else if ocena >=? 45 then "D+"
  else if ocena >=? 40 then "D"
  else if ocena >=? 35 then "D-"
  else "F".

(** One [if x >= visoko: prednosti.append(p) elif x < nizko: slabosti.append(s)]. *)
Definition presodi (x visoko nizko : Q) (p s : string)
                   (ps : list string * list string) : list string * list string :=
  if x >=? visoko then ((fst ps ++ [p])%list, snd ps)
  else if x <? nizko then (fst ps, (snd ps ++ [s])%list)
  else ps.

Definition _analiziraj_prednosti_slabosti
    (teh : TehnicneMetrike) (eko : EkonomskeMetrike) (soc : SocialneMetrike)
    (ind : IndikatorjiPrevare) : list string * list string :=
  let ps := ([], []) in
  let ps := presodi (dostopnost_kode teh) 8 5 "Odprta koda" "Omejena dostopnost kode" ps in
  let ps := presodi (kvaliteta_arhitekture teh) 8 5
              "Mocna razvojna aktivnost" "Pomanjkljiva razvojna aktivnost" ps in
  let ps := presodi (decentralizacija teh) 8 5
              "Visoka stopnja decentralizacije" "Vprasljiva decentralizacija" ps in
  let ps := presodi (varnostni_mehanizmi teh) 8.5 5
              "Odlicni varnostni mehanizmi" "Pomanjkljivi varnostni mehanizmi" ps in
  let ps := presodi (globina_likvidnosti eko) 8.5 5 "Odlicna likvidnost" "Nizka likvidnost" ps in
  let ps := presodi (vzdrznost_tokenomike eko) 8 5
              "Vzdrzna tokenomika" "Vprasljiva tokenomika" ps in
  let ps := presodi (koncentracija_lastnistva eko) 8 5
              "Dobra distribucija lastnistva" "Visoka koncentracija lastnistva" ps in
  let ps := presodi (indikatorji_manipulacije eko) 8 4
              "Nizka volatilnost" "Visoka volatilnost - mozna manipulacija" ps in
  let ps := presodi (angaziranost_skupnosti soc) 8 5
              "Velika in aktivna skupnost" "Majhna skupnost" ps in
  let ps := presodi (transparentnost_ekipe soc) 8 5
              "Transparentna ekipa" "Netransparentna ekipa" ps in
  let ps := presodi (kvaliteta_dokumentacije soc) 8 5
              "Obsezna dokumentacija" "Pomanjkljiva dokumentacija" ps in
  let ps :=
    if verjetnost_prevare ind >? 0.5 then
      (fst ps, (snd ps ++ ["Visoka verjetnost prevare"])%list)
    else if verjetnost_prevare ind >? 0.3 then
      (fst ps, (snd ps ++ ["Nekateri indikatorji prevare"])%list)
    else if verjetnost_prevare ind <? 0.1 then
      ((fst ps ++ ["Nizka verjetnost prevare"])%list, snd ps)
    else ps in
  (firstn 7 (fst ps), firstn 7 (snd ps)).

(** Source lines 88-107: the final score [koncna] before it is reported. *)
Definition koncna_ocena (podatki : Podatki) (indikatorji : IndikatorjiPrevare) : Q :=
  let tehnicne := analiziraj_tehnicne podatki in
  let ekonomske := analiziraj_ekonomske podatki in
  let socialne := analiziraj_socialne podatki in
  let ocena_teh := izracunaj_oceno_teh tehnicne in
  let ocena_eko := izracunaj_oceno_eko ekonomske in
  let ocena_soc := izracunaj_oceno_soc socialne in
  let koncna :=
    ocena_teh * UTEZ_TEHNICNE + ocena_eko * UTEZ_EKONOMSKE + ocena_soc * UTEZ_SOCIALNE in
  if verjetnost_prevare indikatorji >? 0 then
    let faktor_kazni := 1 - verjetnost_prevare indikatorji * 0.5 in
    koncna * faktor_kazni
  else koncna.

(** Source lines 109-142: tier, category, grade and the returned dictionary. *)
Definition sestavi_porocilo (ime simbol : string) (podatki : Podatki)
                            (indikatorji : IndikatorjiPrevare) (svet : Svet) : Slovar :=
  let tehnicne := analiziraj_tehnicne podatki in
  let ekonomske := analiziraj_ekonomske podatki in
  let socialne := analiziraj_socialne podatki in
  let koncna := koncna_ocena podatki indikatorji in
  let stopnja := _doloci_stopnjo koncna indikatorji in
  let kategorija := _doloci_kategorijo podatki koncna in
  let crka := _doloci_crko koncna in
  let ps := _analiziraj_prednosti_slabosti tehnicne ekonomske socialne indikatorji in
  [("ime", VNiz ime);
   ("simbol", VNiz simbol);
   ("koncna_ocena", VStevilo (round koncna 2));
   ("ocena_crka", VNiz crka);
   ("stopnja_tveganja", VNiz (StopnjaTveganja_value stopnja));
   ("kategorija", VNiz (KategorijaProjekta_value kategorija));
   ("tehnicna_ocena", VStevilo (round (izracunaj_oceno_teh tehnicne) 2));
   ("ekonomska_ocena", VStevilo (round (izracunaj_oceno_eko ekonomske) 2));
   ("socialna_ocena", VStevilo (round (izracunaj_oceno_soc socialne) 2));
   ("tehnicne_metrike", VMetrike (v_slovar_teh tehnicne));
   ("ekonomske_metrike", VMetrike (v_slovar_eko ekonomske));
   ("socialne_metrike", VMetrike (v_slovar_soc socialne));
   ("verjetnost_prevare", VStevilo (round (verjetnost_prevare indikatorji * 100) 1));
   ("opozorila", VSeznam (opozorila indikatorji));
   ("rdeci_zastavice", VSeznam (rdeci_zastavice indikatorji));
   ("prednosti", VSeznam (fst ps));
   ("slabosti", VSeznam (snd ps));
   ("cas_analize", VNiz (cas svet))].

(** The indicator object built at source lines 62-66. *)
Definition indikatorji_znane_prevare (podatki_prevare : ZapisPrevare) : IndikatorjiPrevare :=
  {| je_znana_prevara := true;
     tip_prevare := NEZNANO;
     verjetnost_prevare := 1.0;
     rdeci_zastavice := [] ++ get (zp_red_flags podatki_prevare) [];
     opozorila := [];
     podatki_znane_prevare := Some podatki_prevare |}.

Definition klasificiraj (identifikator : string) (svet : Svet) : Izid Slovar * Svet :=
  match UpravljalecBazePrevar.je_znana_prevara baza identifikator with
  | Some podatki_prevare =>
      let ime := get (zp_name podatki_prevare) identifikator in
      let simbol := upper (get (zp_symbol podatki_prevare) "???") in
      let indikatorji := indikatorji_znane_prevare podatki_prevare in
      (_ustvari_porocilo_prevare ime simbol indikatorji svet, svet)
  | None =>
      match pridobi_podatke_kovanca identifikator svet with
      | (Izjema e, svet) => (Izjema e, svet)
      | (Vrnjeno None, svet) =>
          (Izjema ("Kovanec '" ++ identifikator ++ "' ni najden na CoinGecko"), svet)
      | (Vrnjeno (Some podatki), svet) =>
          let ime := get (name (basic_info podatki)) identifikator in
          let simbol := upper (get (symbol (basic_info podatki)) "???") in
          let indikatorji := analiziraj_prevare podatki ime in
          if je_znana_prevara indikatorji then
            (_ustvari_porocilo_prevare ime simbol indikatorji svet, svet)
          else
            (Vrnjeno (sestavi_porocilo ime simbol podatki indikatorji svet), svet)
      end
  end.

(** The record appended in the [except] branch of the batch loop. *)
Definition zapis_napake (ident sporocilo : string) : Slovar :=
  [("ime", VNiz ident); ("napaka", VNiz sporocilo)].

(** Body of [for ident in identifikatorji]: [try] the classification and
    append either its result or the error record. *)
Definition korak_batch (st : list Slovar * Svet) (ident : string) : list Slovar * Svet :=
  match klasificiraj ident (snd st) with
  | (Vrnjeno rezultat, svet) => ((fst st ++ [rezultat])%list, svet)
  | (Izjema e, svet) => ((fst st ++ [zapis_napake ident e])%list, svet)
  end.

Definition batch_analiziraj (identifikatorji : list string) (svet : Svet) : list Slovar * Svet :=
  fold_left korak_batch identifikatorji ([], svet).

(* ------------------------------------------------------------------ *)
(** * Vocabulary of the specification *)

(** A sub-score is on the scale when it lies between 0 and 10. *)
Definition na_lestvici (x : Q) : Prop := 0 <= x <= 10.

(** An axis score or a final score is a percentage. *)
Definition odstotek (x : Q) : Prop := 0 <= x <= 100.

(** Some category label contains one of the patterns, case-insensitively. *)
Definition ima_oznako (vzorci kategorije : list string) : Prop :=
  exists kat vzorec,
    In kat kategorije /\ In vzorec vzorci /\ vsebuje vzorec (lower kat) = true.

(** The entry a batch holds for one identifier, given how its
    classification ended. *)
Definition zapis_izida (ident : string) (izid : Izid Slovar) : Slovar :=
  match izid with
  | Vrnjeno rezultat => rezultat
  | Izjema e => zapis_napake ident e
  end.

(** How many patterns of a list occur in a string. *)
Definition stevilo_najdenih (vzorci : list string) (s : string) : Z :=
  Z.of_nat (length (filter (fun vzorec => vsebuje vzorec s) vzorci)).

(** The point total in the words of the specification: +5 per hype token
    in the name, +10 per suspicious phrase in the description, for
    rank > 200 +15 if 0 < market cap < 1M else +8 if market cap < 10M, for
    rank > 100 +25 if the ATH change is below -99 else +15 if below -95,
    for rank > 100 +20 if volume < 1000 else +10 if volume < 10000. *)
Definition tocke_po_specifikaciji (podatki : Podatki) : Z :=
  let rang := _dobi_rang podatki in
  let trzna_kap := _dobi_trzno_kap podatki in
  let volumen := _dobi_volumen podatki in
  let ath := ath_sprememba_prevare podatki in
  let tocke_imena :=
    (5 * stevilo_najdenih sumljiva_imena (lower (get (name (basic_info podatki)) "")))%Z in
  let tocke_opisa :=
    (10 * stevilo_najdenih rdece_fraze (besedilo_prevare podatki))%Z in
  let tocke_kapitalizacije :=
    if (200 <? rang)%Z then
      if (0 <? trzna_kap) && (trzna_kap <? 1000000) then 15%Z
      else if trzna_kap <? 10000000 then 8%Z else 0%Z
    else 0%Z in
  let tocke_padca :=
    if (100 <? rang)%Z then
      if ath <? -99 then 25%Z else if ath <? -95 then 15%Z else 0%Z
    else 0%Z in
  let tocke_volumna :=
    if (100 <? rang)%Z then
      if volumen <? 1000 then 20%Z else if volumen <? 10000 then 10%Z else 0%Z
    else 0%Z in
  (tocke_imena + tocke_opisa + tocke_kapitalizacije + tocke_padca + tocke_volumna)%Z.

(** The same total with the guards the code has: both market-cap bands
    and both volume bands count only for a positive market cap. *)
Definition tocke_popravljene (podatki : Podatki) : Z :=
  let rang := _dobi_rang podatki in
  let trzna_kap := _dobi_trzno_kap podatki in
  let volumen := _dobi_volumen podatki in
  let ath := ath_sprememba_prevare podatki in
  let tocke_imena :=
    (5 * stevilo_najdenih sumljiva_imena (lower (get (name (basic_info podatki)) "")))%Z in
  let tocke_opisa :=
    (10 * stevilo_najdenih rdece_fraze (besedilo_prevare podatki))%Z in
  let tocke_kapitalizacije :=
    if (200 <? rang)%Z then
      if (0 <? trzna_kap) && (trzna_kap <? 1000000) then 15%Z
      else if (0 <? trzna_kap) && (trzna_kap <? 10000000) then 8%Z else 0%Z
    else 0%Z in
  let tocke_padca :=
    if (100 <? rang)%Z then
      if ath <? -99 then 25%Z else if ath <? -95 then 15%Z else 0%Z
    else 0%Z in
  let tocke_volumna :=
    if (100 <? rang)%Z then
      if (0 <? trzna_kap) && (volumen <? 1000) then 20%Z
      else if (0 <? trzna_kap) && (volumen <? 10000) then 10%Z else 0%Z
    else 0%Z in
  (tocke_imena + tocke_opisa + tocke_kapitalizacije + tocke_padca + tocke_volumna)%Z.

(** The age bands in the words of the specification. *)
Definition starost_po_rangu (rang : Z) : Q :=
  if (rang <=? 10)%Z then 8
  else if (rang <=? 20)%Z then 6
  else if (rang <=? 50)%Z then 4
  else if (rang <=? 100)%Z then 3
  else if (rang <=? 200)%Z then 2
  else 1.


(* ------------------------------------------------------------------ *)
(** * Example inputs *)

(** A payload with the given rank, market cap and volume in the markets
    row and everything else absent. *)
Definition podatki_trzni (rang : Z) (trzna_kap volumen : option Q) : Podatki :=
  {| basic_info := prazni_osnovni;
     market_data :=
       {| md_market_cap_rank := Some rang; md_market_cap := trzna_kap;
          md_total_volume := volumen;
          md_max_supply := None; md_circulating_supply := None;
          md_ath_change_percentage := None;
          md_price_change_percentage_7d_in_currency := None;
          md_price_change_percentage_30d_in_currency := None |};
     coin_id := "primer" |}.

(** Rank 5000 and no market cap or volume reported. *)
Definition podatki_brez_kapitalizacije : Podatki := podatki_trzni 5000 None None.

(** Ranks 300 and 15 without a genesis date. *)
Definition podatki_rang_300 : Podatki := podatki_trzni 300 None None.
Definition podatki_rang_15 : Podatki := podatki_trzni 15 None None.

(** Two payloads that differ in the 24h volume only. *)
Definition podatki_volumen_50_tisoc : Podatki :=
  podatki_trzni 40 (Some 900000000) (Some 50000).
Definition podatki_volumen_3_milijarde : Podatki :=
  podatki_trzni 40 (Some 900000000) (Some 3000000000).

(** Scenario C of the specification. *)
Definition podatki_scenarij_C : Podatki :=
  {| basic_info :=
       {| name := Some "Yield Vault"; symbol := Some "yv"; genesis_date := "";
          categories := [];
          description_en := "A Guaranteed Return of 3% per day for every holder";
          sentiment_votes_up_percentage := None;
          developer_data := developer_data prazni_osnovni;
          community_data := community_data prazni_osnovni;
          links := prazne_povezave;
          bi_market_data :=
            {| bi_market_cap_rank := None; bi_market_cap_usd := None;
               bi_total_volume_usd := None; bi_max_supply := None;
               bi_circulating_supply := None;
               bi_ath_change_percentage_usd := Some (-99.5);
               bi_price_change_percentage_7d := None;
               bi_price_change_percentage_30d := None |} |};
     market_data := market_data (podatki_trzni 5000 (Some 50000) (Some 200));
     coin_id := "yield-vault" |}.

(** An established layer-1 project. *)
Definition podatki_bitcoin : Podatki :=
  {| basic_info :=
       {| name := Some "Bitcoin"; symbol := Some "btc"; genesis_date := "2009-01-03";
          categories := ["Layer 1 (L1)"; "Proof of Work (PoW)"];
          description_en := "Bitcoin is the first successful internet money.";
          sentiment_votes_up_percentage := Some 82;
          developer_data :=
            {| stars := Some 73000%Z; forks := Some 36000%Z;
               commit_count_4_weeks := Some 108%Z |};
          community_data :=
            {| twitter_followers := Some 6500000%Z; reddit_subscribers := Some 5800000%Z;
               telegram_channel_user_count := None;
               reddit_accounts_active_48h := Some 12000 |};
          links :=
            {| repos_url_github := ["https://github.com/bitcoin/bitcoin"];
               blockchain_site := ["https://mempool.space/"];
               homepage := ["http://www.bitcoin.org"];
               whitepaper := "https://bitcoin.org/bitcoin.pdf";
               chat_url := Seznam [""];
               official_forum_url := Seznam ["https://bitcointalk.org/"] |};
          bi_market_data := prazni_trzni_info |};
     market_data :=
       {| md_market_cap_rank := Some 1%Z; md_market_cap := Some 1200000000000;
          md_total_volume := Some 30000000000;
          md_max_supply := Some 21000000; md_circulating_supply := Some 19800000;
          md_ath_change_percentage := Some (-12.5);
          md_price_change_percentage_7d_in_currency := Some 2.5;
          md_price_change_percentage_30d_in_currency := Some (-4) |};
     coin_id := "bitcoin" |}.

(** A registry with one entry. *)
Definition baza_primer : UpravljalecBazePrevar.t :=
  [("safemoon",
    {| zp_name := Some "SafeMoon"; zp_symbol := Some "sfm";
       zp_scam_type := Some "rug_pull";
       zp_red_flags := Some ["Liquidity drained by the developers"];
       zp_score := Some 5; zp_grade := Some "F";
       zp_description := Some "Token whose liquidity pool was emptied";
       zp_collapse_date := Some "2023-12"; zp_estimated_losses := None |})].

(** A clock that knows one genesis date. *)
Definition ura_primer (datum : string) : option Z :=
  if String.eqb datum "2009-01-03" then Some 6300%Z else None.

(** A provider that knows one coin; the world counts the requests. *)
Definition ponudnik_primer (identifikator : string) (svet : nat)
    : Izid (option Podatki) * nat :=
  if String.eqb identifikator "bitcoin" then (Vrnjeno (Some podatki_bitcoin), S svet)
  else if String.eqb identifikator "yield-vault" then
    (Vrnjeno (Some podatki_scenarij_C), S svet)
  else (Izjema ("Kovanec '" ++ identifikator ++ "' ni najden"), S svet).

Definition cas_primer (svet : nat) : string := "2026-01-01T00:00:00".

(* ------------------------------------------------------------------ *)
(** * baza_prevar.py: the remaining registry operations *)

(** [d[kljuc] = vrednost] on a dict in insertion order: an existing key
    keeps its place, a new key goes to the end. *)
Fixpoint slovar_nastavi (A : Type) (d : list (string * A)) (kljuc : string) (vrednost : A)
    : list (string * A) :=
  match d with
  | [] => [(kljuc, vrednost)]
  | (k, x) :: r =>
      if String.eqb k kljuc then (k, vrednost) :: r
      else (k, x) :: slovar_nastavi r kljuc vrednost
  end.

(** [dodaj_prevaro]: the new content of [self.znane_prevare]; writing the
    file back ([_shrani_bazo]) is outside the model. *)
Definition dodaj_prevaro (baza : UpravljalecBazePrevar.t) (id_kovanca : string)
                         (podatki_prevare : ZapisPrevare) : UpravljalecBazePrevar.t :=
  slovar_nastavi baza (lower id_kovanca) podatki_prevare.

(** One entry of [market_cap_thresholds]. *)
Record RazredKapitalizacije := {
  max_usd : option Q;
  risk_multiplier : option Q
}.

(** The sort key [x[1].get('max_usd', float('inf')) or float('inf')];
    [None] stands for infinity. *)
Definition kljuc_razreda (info : RazredKapitalizacije) : option Q :=
  match max_usd info with
  | Some v => if resnicno_Q v then Some v else None
  | None => None
  end.

(** [a <= b] on sort keys. *)
Definition kljuc_leb (a b : option Q) : bool :=
  match a, b with
  | _, None => true
  | None, Some _ => false
  | Some x, Some y => x <=? y
  end.

(** [sorted(..., key=...)]: a stable sort, here by insertion from the right. *)
Fixpoint vstavi_razred (x : string * RazredKapitalizacije)
                       (l : list (string * RazredKapitalizacije))
    : list (string * RazredKapitalizacije) :=
  match l with
  | [] => [x]
  | y :: r =>
      if kljuc_leb (kljuc_razreda (snd x)) (kljuc_razreda (snd y)) then x :: l
      else y :: vstavi_razred x r
  end.

Definition sorted_razredi (pragovi : list (string * RazredKapitalizacije))
    : list (string * RazredKapitalizacije) :=
  fold_right vstavi_razred [] pragovi.

(** The test [max_usd is None or trzna_kap <= max_usd]. *)
Definition razred_sprejme (trzna_kap : Q) (info : RazredKapitalizacije) : bool :=
  match max_usd info with
  | None => true
  | Some m => trzna_kap <=? m
  end.

Definition dobi_mnozitelj_tveganja (pragovi_trzne_kap : list (string * RazredKapitalizacije))
                                   (trzna_kap : Q) : Q :=
  if negb (resnicno_Q trzna_kap) || negb (neprazen_seznam pragovi_trzne_kap) then 1.2
  else
    match find (fun x => razred_sprejme trzna_kap (snd x)) (sorted_razredi pragovi_trzne_kap) with
    | Some (_, info) => get (risk_multiplier info) 1.0
    | None => 1.0
    end.

(* ------------------------------------------------------------------ *)
(** * api_klient.py: [CoinGeckoKlient]

    The network is part of the world: one request of an endpoint gives an
    answer and a new world. Waiting between requests and the printed
    progress lines are not modelled. *)

(** What one [self.seja.get] followed by [raise_for_status] can give. *)
Inductive Odziv (A : Type) :=
  | Status429
  | Status404
  | StatusOk (telo : A)
  | HTTPError (sporocilo : string)
  | RequestException (sporocilo : string).
Arguments Status429 {A}.
Arguments Status404 {A}.
Arguments HTTPError {A} sporocilo.
Arguments RequestException {A} sporocilo.

(** The body of the coin endpoint: an empty dictionary, or a dictionary
    that may hold the key [error] beside the coin's fields. *)
Inductive PodrobnostiJSON :=
  | PraznSlovar
  | SlovarKovanca (ima_error : bool) (osnovni : OsnovniPodatki).

(** One entry of the [coins] list of the search endpoint. *)
Record Kovanec := {
  k_id : string;
  k_symbol : option string;
  k_name : option string
}.

(** [str(n)] for a natural number. *)
Definition str_nat (n : nat) : string := NilEmpty.string_of_uint (Nat.to_uint n).

(** Sequencing of calls that may raise and that change the world. *)
Definition vezi (A B : Type) (m : Svet -> Izid A * Svet) (f : A -> Svet -> Izid B * Svet)
    : Svet -> Izid B * Svet :=
  fun svet =>
    match m svet with
    | (Vrnjeno a, svet) => f a svet
    | (Izjema e, svet) => (Izjema e, svet)
    end.

Definition vrni (A : Type) (a : A) : Svet -> Izid A * Svet := fun svet => (Vrnjeno a, svet).
Definition vrzi {A : Type} (e : string) : Svet -> Izid A * Svet :=
  fun svet => (Izjema e, svet).

Notation "x <- m ;; k" := (vezi m (fun x => k))
  (at level 61, m at next level, right associativity).

Section ApiKlient.

Variable _max_ponovitev : nat.
Variable zahteva_podrobnosti : string -> Svet -> Odziv PodrobnostiJSON * Svet.
Variable zahteva_iskanje : string -> Svet -> Odziv (list Kovanec) * Svet.
Variable zahteva_trg : string -> Svet -> Odziv (list TrzniPodatki) * Svet.

(** The loop [for poskus in range(self._max_ponovitev)] with [preostalo]
    attempts left; [poskus < self._max_ponovitev - 1] holds when another
    attempt is left after this one. *)
Fixpoint zanka_zahteve (A : Type) (zahteva : Svet -> Odziv A * Svet) (preostalo : nat)
                       (svet : Svet) : Izid (option A) * Svet :=
  match preostalo with
  | O =>
      (Izjema ("Ni uspelo dobiti podatkov po " ++ str_nat _max_ponovitev
               ++ " poskusih (rate limit)"), svet)
  | S naprej =>
      match zahteva svet with
      | (Status429, svet) => zanka_zahteve zahteva naprej svet
      | (Status404, svet) => (Vrnjeno None, svet)
      | (StatusOk telo, svet) => (Vrnjeno (Some telo), svet)
      | (HTTPError e, svet) =>
          match naprej with
          | O => (Izjema ("HTTP napaka po " ++ str_nat _max_ponovitev
                          ++ " poskusih: " ++ e), svet)
          | S _ => zanka_zahteve zahteva naprej svet
          end
      | (RequestException e, svet) =>
          match naprej with
          | O => (Izjema ("Napaka pri zahtevi po " ++ str_nat _max_ponovitev
                          ++ " poskusih: " ++ e), svet)
          | S _ => zanka_zahteve zahteva naprej svet
          end
      end
  end.

Definition _izvedi_zahtevo (A : Type) (zahteva : Svet -> Odziv A * Svet)
    : Svet -> Izid (option A) * Svet :=
  zanka_zahteve zahteva _max_ponovitev.

(** [poizvedba.lower() in [simbol, ime, id_kov]]. *)
Definition tocno_ujemanje (poizvedba : string) (kovanec : Kovanec) : bool :=
  let simbol := lower (get (k_symbol kovanec) "") in
  let ime := lower (get (k_name kovanec) "") in
  let id_kov := lower (k_id kovanec) in
  existsb (String.eqb (lower poizvedba)) [simbol; ime; id_kov].

(** The choice made on the [coins] list: the first exact match, else the
    first entry. *)
Definition izberi_kovanec (poizvedba : string) (kovanci : list Kovanec) : option string :=
  match kovanci with
  | [] => None
  | najden :: _ =>
      match find (tocno_ujemanje poizvedba) kovanci with
      | Some kovanec => Some (k_id kovanec)
      | None => Some (k_id najden)
      end
  end.

Definition poisci_kovanec (poizvedba : string) : Svet -> Izid (option string) * Svet :=
  podatki <- _izvedi_zahtevo (zahteva_iskanje poizvedba) ;;
  match podatki with
  | None => vrni None
  | Some kovanci => vrni (izberi_kovanec poizvedba kovanci)
  end.

Definition _dobi_podrobnosti (id_kovanca : string)
    : Svet -> Izid (option PodrobnostiJSON) * Svet :=
  _izvedi_zahtevo (zahteva_podrobnosti id_kovanca).

(** The markets row of a coin: the first element of the answer, [{}] when
    there is none. *)
Definition prazni_trzni : TrzniPodatki :=
  {| md_market_cap_rank := None; md_market_cap := None; md_total_volume := None;
     md_max_supply := None; md_circulating_supply := None;
     md_ath_change_percentage := None;
     md_price_change_percentage_7d_in_currency := None;
     md_price_change_percentage_30d_in_currency := None |}.

Definition _dobi_trzne_podatke (id_kovanca : string) : Svet -> Izid TrzniPodatki * Svet :=
  podatki <- _izvedi_zahtevo (zahteva_trg id_kovanca) ;;
  match podatki with
  | Some (prvi :: _) => vrni prvi
  | _ => vrni prazni_trzni
  end.

(** [not podatki_kovanca]. *)
Definition ni_podatkov (podatki_kovanca : option PodrobnostiJSON) : bool :=
  match podatki_kovanca with
  | None | Some PraznSlovar => true
  | Some (SlovarKovanca _ _) => false
  end.

(** ['error' in podatki_kovanca]. *)
Definition ima_kljuc_error (podatki_kovanca : option PodrobnostiJSON) : bool :=
  match podatki_kovanca with
  | Some (SlovarKovanca ima_error _) => ima_error
  | _ => false
  end.

(** Source lines 144-161 of [pridobi_podatke_kovanca]: the market row, the
    check of the rank and the returned payload. *)
Definition sestavi_podatke (identifikator id_kovanca : string)
                           (podatki_kovanca : option PodrobnostiJSON)
    : Svet -> Izid Podatki * Svet :=
  match podatki_kovanca with
  | None | Some PraznSlovar => vrzi ("Ni podatkov za kovanec '" ++ identifikator ++ "'")
  | Some (SlovarKovanca _ osnovni) =>
      trzni_podatki <- _dobi_trzne_podatke id_kovanca ;;
      let trzni_info := bi_market_data osnovni in
      let rang := ali_Z (md_market_cap_rank trzni_podatki) (bi_market_cap_rank trzni_info) in
      match rang with
      | Some r =>
          if resnicno_Z r then
            vrni {| basic_info := osnovni; market_data := trzni_podatki;
                    coin_id := id_kovanca |}
          else vrzi ("Manjka market cap rank za '" ++ identifikator ++ "' - nepopolni podatki")
      | None =>
          vrzi ("Manjka market cap rank za '" ++ identifikator ++ "' - nepopolni podatki")
      end
  end.

Definition CoinGeckoKlient_pridobi_podatke_kovanca (identifikator : string)
    : Svet -> Izid Podatki * Svet :=
  let id_kovanca := replace " " "-" (lower identifikator) in
  podatki_kovanca <- _dobi_podrobnosti id_kovanca ;;
  if ni_podatkov podatki_kovanca || ima_kljuc_error podatki_kovanca then
    najden <- poisci_kovanec identifikator ;;
    match najden with
    | None => vrzi ("Kovanec '" ++ identifikator ++ "' ni najden")
    | Some id_kovanca =>
        if negb (neprazen id_kovanca) then vrzi ("Kovanec '" ++ identifikator ++ "' ni najden")
        else
          podatki_kovanca <- _dobi_podrobnosti id_kovanca ;;
          sestavi_podatke identifikator id_kovanca podatki_kovanca
    end
  else sestavi_podatke identifikator id_kovanca podatki_kovanca.


End ApiKlient.

(* ------------------------------------------------------------------ *)
(** * Further vocabulary *)

(** The payload with the rank of the markets row replaced. *)
Definition z_rangom (podatki : Podatki) (rang : Z) : Podatki :=
  {| basic_info := basic_info podatki;
     market_data :=
       {| md_market_cap_rank := Some rang;
          md_market_cap := md_market_cap (market_data podatki);
          md_total_volume := md_total_volume (market_data podatki);
          md_max_supply := md_max_supply (market_data podatki);
          md_circulating_supply := md_circulating_supply (market_data podatki);
          md_ath_change_percentage := md_ath_change_percentage (market_data podatki);
          md_price_change_percentage_7d_in_currency :=
            md_price_change_percentage_7d_in_currency (market_data podatki);
          md_price_change_percentage_30d_in_currency :=
            md_price_change_percentage_30d_in_currency (market_data podatki) |};
     coin_id := coin_id podatki |}.

(** The registry key tried first by [je_znana_prevara]. *)
Definition normaliziran (id_kovanca : string) : string :=
  replace "_" "-" (replace " " "-" (lower id_kovanca)).

(** The risk tier that goes with a letter grade when no fraud override
    applies and the score is at least 25. *)
Definition stopnja_crke (crka : string) : StopnjaTveganja :=
  if existsb (String.eqb crka) ["A+"; "A"] then ZELO_NIZKO
  else if existsb (String.eqb crka) ["A-"; "B+"; "B"] then NIZKO
  else if existsb (String.eqb crka) ["B-"; "C+"; "C"] then SREDNJE
  else if existsb (String.eqb crka) ["C-"; "D+"; "D"] then VISOKO
  else ZELO_VISOKO.

(** The world after [k] requests of one endpoint. *)
Fixpoint po_zahtevah (A : Type) (zahteva : Svet -> Odziv A * Svet) (k : nat) (svet : Svet)
    : Svet :=
  match k with
  | O => svet
  | S k' => po_zahtevah zahteva k' (snd (zahteva svet))
  end.

(** An answer after which the loop tries again, if attempts are left. *)
Definition ponovljiv (A : Type) (o : Odziv A) : bool :=
  match o with
  | Status429 | HTTPError _ | RequestException _ => true
  | _ => false
  end.

(** The weaknesses that the thresholds leave reachable. *)
Definition dosegljive_slabosti : list string :=
  ["Omejena dostopnost kode"; "Pomanjkljiva razvojna aktivnost";
   "Pomanjkljivi varnostni mehanizmi"; "Nizka likvidnost"; "Netransparentna ekipa";
   "Visoka verjetnost prevare"; "Nekateri indikatorji prevare"].

(** The second character of a string, if it has one. *)
Definition drugi_znak (s : string) : option ascii :=
  match s with
  | String _ (String c _) => Some c
  | _ => None
  end.

(** ASCII lower-case letters. *)
Definition je_mala_crka (c : ascii) : bool :=
  let n := nat_of_ascii c in (97 <=? n)%nat && (n <=? 122)%nat.

(** At most [n] weaknesses collected so far, all of them reachable ones. *)
Definition slabosti_v_redu (n : nat) (ps : list string * list string) : Prop :=
  (forall x, In x (snd ps) -> In x dosegljive_slabosti) /\ (length (snd ps) <= n)%nat.

(** ** Further example inputs *)

(** Answers of the three endpoints against a world that counts the
    requests: the coin endpoint knows the id "bitcoin", the search always
    lists two coins, the markets endpoint has a row for "bitcoin". *)
Definition zahteva_podrobnosti_primer (id_kovanca : string) (svet : nat)
    : Odziv PodrobnostiJSON * nat :=
  if String.eqb id_kovanca "bitcoin"
  then (StatusOk (SlovarKovanca false (basic_info podatki_bitcoin)), S svet)
  else (Status404, S svet).

Definition kovanci_primer : list Kovanec :=
  [{| k_id := "bitcoin-cash"; k_symbol := Some "bch"; k_name := Some "Bitcoin Cash" |};
   {| k_id := "bitcoin"; k_symbol := Some "btc"; k_name := Some "Bitcoin" |}].

Definition zahteva_iskanje_primer (poizvedba : string) (svet : nat)
    : Odziv (list Kovanec) * nat :=
  (StatusOk kovanci_primer, S svet).

Definition zahteva_trg_primer (id_kovanca : string) (svet : nat)
    : Odziv (list TrzniPodatki) * nat :=
  if String.eqb id_kovanca "bitcoin" then (StatusOk [market_data podatki_bitcoin], S svet)
  else (StatusOk [], S svet).

(** An endpoint that answers 429 twice before it succeeds. *)
Definition zahteva_nestabilna (svet : nat) : Odziv string * nat :=
  if (svet <? 2)%nat then (Status429, S svet) else (StatusOk "telo", S svet).

(** Three market-cap classes, not in the order of their thresholds. *)
Definition pragovi_primer : list (string * RazredKapitalizacije) :=
  [("micro", {| max_usd := Some 1000000; risk_multiplier := Some 2 |});
   ("large", {| max_usd := None; risk_multiplier := Some 1 |});
   ("small", {| max_usd := Some 100000000; risk_multiplier := Some 1.5 |})].

(** A record to add to the registry. *)
Definition zapis_primer : ZapisPrevare :=
  {| zp_name := Some "Squid Game"; zp_symbol := Some "squid";
     zp_scam_type := Some "honeypot"; zp_red_flags := None;
     zp_score := None; zp_grade := None; zp_description := None;
     zp_collapse_date := None; zp_estimated_losses := None |}.

(* ------------------------------------------------------------------ *)
(** * Properties *)

Unset Implicit Arguments.

(** ** Comparisons *)

Lemma Qlt_bool_iff (x y : Q) : (x <? y) = true <-> x < y.
Proof.
  unfold Qlt_bool. rewrite negb_true_iff. split; intro H.
  - apply Qnot_le_lt. intro L. apply Qle_bool_iff in L. congruence.
  - destruct (Qle_bool y x) eqn:E; [|reflexivity].
    apply Qle_bool_iff in E. exfalso. exact (Qlt_not_le _ _ H E).
Qed.

Lemma Qlt_bool_niff (x y : Q) : (x <? y) = false <-> y <= x.
Proof.
  unfold Qlt_bool. rewrite negb_false_iff. apply Qle_bool_iff.
Qed.

Lemma Qle_bool_niff (x y : Q) : (x <=? y) = false <-> y < x.
Proof.
  rewrite <- Qlt_bool_iff. unfold Qlt_bool.
  destruct (Qle_bool x y); simpl; split; congruence.
Qed.

(** Turn every boolean comparison in the context into a proposition. *)
Ltac v_prop :=
  repeat match goal with
  | H : (_ && _) = true |- _ => apply andb_true_iff in H; destruct H
  | H : (_ || _) = false |- _ => apply orb_false_iff in H; destruct H
  | H : negb _ = true |- _ => apply negb_true_iff in H
  | H : negb _ = false |- _ => apply negb_false_iff in H
  | H : Qlt_bool _ _ = true |- _ => apply Qlt_bool_iff in H
  | H : Qlt_bool _ _ = false |- _ => apply Qlt_bool_niff in H
  | H : Qle_bool _ _ = true |- _ => apply Qle_bool_iff in H
  | H : Qle_bool _ _ = false |- _ => apply Qle_bool_niff in H
  | H : Qeq_bool _ _ = true |- _ => apply Qeq_bool_iff in H
  | H : (_ <=? _)%Z = true |- _ => apply Z.leb_le in H
  | H : (_ <=? _)%Z = false |- _ => apply Z.leb_gt in H
  | H : (_ <? _)%Z = true |- _ => apply Z.ltb_lt in H
  | H : (_ <? _)%Z = false |- _ => apply Z.ltb_ge in H
  | H : (_ >? _)%Z = true |- _ => rewrite Z.gtb_ltb in H
  | H : (_ >? _)%Z = false |- _ => rewrite Z.gtb_ltb in H
  | H : (_ >=? _)%Z = true |- _ => rewrite Z.geb_leb in H
  | H : (_ >=? _)%Z = false |- _ => rewrite Z.geb_leb in H
  end.

(** Case analysis on every test of a threshold ladder. *)
Ltac po_vejah :=
  repeat match goal with
  | |- context [if ?c then _ else _] => destruct c
  | |- context [match ?c with Some _ => _ | None => _ end] => destruct c
  end.

(** The same, remembering which way each test went. *)
Ltac po_vejah_z_enacbami :=
  repeat match goal with
  | |- context [if ?c then _ else _] => let E := fresh "E" in destruct c eqn:E
  end.

(** ** Every sub-score is one of the ladder constants *)

Ltac lestvica := cbv zeta; unfold max_; po_vejah; unfold na_lestvici; split; lra.

Lemma ocena_kode_meje povezave : na_lestvici (ocena_kode povezave).
Proof. unfold ocena_kode. lestvica. Qed.

Lemma ocena_arhitekture_meje razvojni rang starost :
  na_lestvici (ocena_arhitekture razvojni rang starost).
Proof. unfold ocena_arhitekture. lestvica. Qed.

Lemma ocena_decentralizacije_meje rang starost :
  na_lestvici (ocena_decentralizacije rang starost).
Proof. unfold ocena_decentralizacije. lestvica. Qed.

Lemma ocena_varnosti_meje rang : na_lestvici (ocena_varnosti rang).
Proof. unfold ocena_varnosti. lestvica. Qed.

Lemma ocena_revizije_meje rang starost : na_lestvici (ocena_revizije rang starost).
Proof. unfold ocena_revizije. lestvica. Qed.

Lemma ocena_pogodbe_meje kategorije rang starost :
  na_lestvici (ocena_pogodbe kategorije rang starost).
Proof. unfold ocena_pogodbe. lestvica. Qed.

Lemma ocena_distribucije_meje volumen trzna_kap rang starost :
  na_lestvici (ocena_distribucije volumen trzna_kap rang starost).
Proof. unfold ocena_distribucije. lestvica. Qed.

Lemma ocena_inflacije_meje trzni trzni_info : na_lestvici (ocena_inflacije trzni trzni_info).
Proof. unfold ocena_inflacije. lestvica. Qed.

Lemma ocena_vestinga_meje starost : na_lestvici (ocena_vestinga starost).
Proof. unfold ocena_vestinga. lestvica. Qed.

Lemma ocena_koncentracije_meje trzni trzni_info rang starost :
  na_lestvici (ocena_koncentracije trzni trzni_info rang starost).
Proof. unfold ocena_koncentracije. lestvica. Qed.

Lemma ocena_likvidnosti_meje volumen : na_lestvici (ocena_likvidnosti volumen).
Proof. unfold ocena_likvidnosti. lestvica. Qed.

Lemma ocena_manipulacije_meje trzni trzni_info :
  na_lestvici (ocena_manipulacije trzni trzni_info).
Proof. unfold ocena_manipulacije. lestvica. Qed.

Lemma ocena_vzdrznosti_meje rang starost : na_lestvici (ocena_vzdrznosti rang starost).
Proof. unfold ocena_vzdrznosti. lestvica. Qed.

Lemma ocena_transparentnosti_meje povezave rang starost :
  na_lestvici (ocena_transparentnosti povezave rang starost).
Proof. unfold ocena_transparentnosti. lestvica. Qed.

Lemma ocena_izkusenj_meje rang starost : na_lestvici (ocena_izkusenj rang starost).
Proof. unfold ocena_izkusenj. lestvica. Qed.

Lemma ocena_angaziranosti_meje skupnost rang :
  na_lestvici (ocena_angaziranosti skupnost rang).
Proof. unfold ocena_angaziranosti. lestvica. Qed.

Lemma ocena_dokumentacije_meje osnovni : na_lestvici (ocena_dokumentacije osnovni).
Proof. unfold ocena_dokumentacije. lestvica. Qed.

Lemma ocena_marketinga_meje osnovni : na_lestvici (ocena_marketinga osnovni).
Proof. unfold ocena_marketinga. lestvica. Qed.

Lemma ocena_prisotnosti_meje skupnost rang : na_lestvici (ocena_prisotnosti skupnost rang).
Proof. unfold ocena_prisotnosti. lestvica. Qed.

Lemma ocena_zdravja_meje skupnost rang : na_lestvici (ocena_zdravja skupnost rang).
Proof. unfold ocena_zdravja. lestvica. Qed.

Create HintDb lestvice.
#[local] Hint Resolve ocena_kode_meje ocena_arhitekture_meje ocena_decentralizacije_meje
  ocena_varnosti_meje ocena_revizije_meje ocena_pogodbe_meje
  ocena_distribucije_meje ocena_inflacije_meje ocena_vestinga_meje
  ocena_koncentracije_meje ocena_likvidnosti_meje ocena_manipulacije_meje
  ocena_vzdrznosti_meje ocena_transparentnosti_meje ocena_izkusenj_meje
  ocena_dokumentacije_meje ocena_angaziranosti_meje ocena_marketinga_meje
  ocena_prisotnosti_meje ocena_zdravja_meje : lestvice.

Ltac vse_na_lestvici :=
  repeat (apply Forall_cons; [solve [auto with lestvice]|]); apply Forall_nil.

Lemma analiziraj_tehnicne_meje podatki :
  Forall na_lestvici (map snd (v_slovar_teh (analiziraj_tehnicne podatki))).
Proof. unfold analiziraj_tehnicne, v_slovar_teh; simpl. vse_na_lestvici. Qed.

Lemma analiziraj_ekonomske_meje podatki :
  Forall na_lestvici (map snd (v_slovar_eko (analiziraj_ekonomske podatki))).
Proof. unfold analiziraj_ekonomske, v_slovar_eko; simpl. vse_na_lestvici. Qed.

Lemma analiziraj_socialne_meje podatki :
  Forall na_lestvici (map snd (v_slovar_soc (analiziraj_socialne podatki))).
Proof. unfold analiziraj_socialne, v_slovar_soc; simpl. vse_na_lestvici. Qed.

(** ** Axis scores: the weights of each axis sum to one *)

Ltac iz_Forall :=
  repeat match goal with
  | H : Forall _ (_ :: _) |- _ => inversion H; clear H; subst
  | H : Forall _ [] |- _ => clear H
  end.

Lemma izracunaj_oceno_teh_meje m :
  Forall na_lestvici (map snd (v_slovar_teh m)) -> odstotek (izracunaj_oceno_teh m).
Proof.
  unfold v_slovar_teh, izracunaj_oceno_teh, odstotek, na_lestvici; simpl; intro H.
  iz_Forall. lra.
Qed.

Lemma izracunaj_oceno_eko_meje m :
  Forall na_lestvici (map snd (v_slovar_eko m)) -> odstotek (izracunaj_oceno_eko m).
Proof.
  unfold v_slovar_eko, izracunaj_oceno_eko, odstotek, na_lestvici; simpl; intro H.
  iz_Forall. lra.
Qed.

Lemma izracunaj_oceno_soc_meje m :
  Forall na_lestvici (map snd (v_slovar_soc m)) -> odstotek (izracunaj_oceno_soc m).
Proof.
  unfold v_slovar_soc, izracunaj_oceno_soc, odstotek, na_lestvici; simpl; intro H.
  iz_Forall. lra.
Qed.

(** ** The point total and the probability *)

Lemma fold_korak_imena_tocke ime vzorci st :
  (tocke_prevare st <= tocke_prevare (fold_left (korak_imena ime) vzorci st))%Z.
Proof.
  revert st. induction vzorci as [|v r IH]; intro st; simpl; [lia|].
  eapply Z.le_trans; [|apply IH].
  unfold korak_imena. destruct (vsebuje v ime); simpl; lia.
Qed.

Lemma fold_korak_fraze_tocke besedilo fraze st :
  (tocke_prevare st <= tocke_prevare (fold_left (korak_fraze besedilo) fraze st))%Z.
Proof.
  revert st. induction fraze as [|v r IH]; intro st; simpl; [lia|].
  eapply Z.le_trans; [|apply IH].
  unfold korak_fraze. destruct (vsebuje v besedilo); simpl; lia.
Qed.

Lemma zberi_tocke_nenegativne podatki : (0 <= tocke_prevare (zberi_tocke podatki))%Z.
Proof.
  unfold zberi_tocke. cbv zeta.
  set (st0 := {| tocke_prevare := 0; st_opozorila := []; st_rdeci_zastavice := [] |}).
  set (st1 := fold_left _ sumljiva_imena st0).
  set (st2 := fold_left _ rdece_fraze st1).
  assert (H1 : (0 <= tocke_prevare st1)%Z)
    by (apply (fold_korak_imena_tocke _ sumljiva_imena st0)).
  assert (H2 : (tocke_prevare st1 <= tocke_prevare st2)%Z)
    by (apply fold_korak_fraze_tocke).
  po_vejah; simpl; lia.
Qed.

Lemma min_meje a b : min_ a b <= a /\ min_ a b <= b.
Proof.
  unfold min_. destruct (b <? a) eqn:E; v_prop; split; lra.
Qed.

Lemma min_izbira a b : min_ a b = a \/ min_ a b = b.
Proof. unfold min_. destruct (b <? a); auto. Qed.

Lemma dinamicna_verjetnost_meje podatki :
  0 <= verjetnost_prevare (dinamicna_analiza podatki) <= 0.95.
Proof.
  unfold dinamicna_analiza; simpl.
  pose proof (zberi_tocke_nenegativne podatki) as Hn.
  set (t := tocke_prevare (zberi_tocke podatki)) in *.
  assert (Hq : 0 <= inject_Z t / 100).
  { apply Qle_shift_div_l; [lra|]. rewrite Qmult_0_l.
    change 0 with (inject_Z 0). rewrite <- Zle_Qle. exact Hn. }
  split.
  - destruct (min_izbira (inject_Z t / 100) 0.95) as [E|E]; rewrite E; lra.
  - apply min_meje.
Qed.

Lemma analiziraj_prevare_verjetnost_meje podatki ime :
  0 <= verjetnost_prevare (analiziraj_prevare podatki ime) <= 1.
Proof.
  unfold analiziraj_prevare.
  destruct (UpravljalecBazePrevar.je_znana_prevara baza ime); [simpl; lra|].
  destruct (UpravljalecBazePrevar.je_znana_prevara baza (coin_id podatki)); [simpl; lra|].
  pose proof (dinamicna_verjetnost_meje podatki). lra.
Qed.

(** ** The final score *)

Lemma koncna_ocena_meje podatki indikatorji :
  0 <= verjetnost_prevare indikatorji <= 1 ->
  odstotek (koncna_ocena podatki indikatorji).
Proof.
  intro Hv. unfold koncna_ocena, UTEZ_TEHNICNE, UTEZ_EKONOMSKE, UTEZ_SOCIALNE. cbv zeta.
  pose proof (izracunaj_oceno_teh_meje _ (analiziraj_tehnicne_meje podatki)) as Ht.
  pose proof (izracunaj_oceno_eko_meje _ (analiziraj_ekonomske_meje podatki)) as He.
  pose proof (izracunaj_oceno_soc_meje _ (analiziraj_socialne_meje podatki)) as Hs.
  unfold odstotek in *.
  set (T := izracunaj_oceno_teh _) in *.
  set (E := izracunaj_oceno_eko _) in *.
  set (S := izracunaj_oceno_soc _) in *.
  set (v := verjetnost_prevare indikatorji) in *.
  set (raw := T * 0.40 + E * 0.35 + S * 0.25).
  assert (Hraw : 0 <= raw <= 100) by (unfold raw; lra).
  destruct (v >? 0); [|exact Hraw].
  assert (Hf : 0 <= 1 - v * 0.5 <= 1) by lra.
  split.
  - apply Qmult_le_0_compat; lra.
  - apply Qle_trans with (raw * 1); [|lra].
    rewrite !(Qmult_comm raw). apply Qmult_le_compat_r; lra.
Qed.

(** ** Rounding keeps a value between integer bounds *)

Lemma zaokrozi_celo_meje (a b : Z) (y : Q) :
  inject_Z a <= y <= inject_Z b -> (a <= zaokrozi_celo y <= b)%Z.
Proof.
  intros [Ha Hb]. unfold zaokrozi_celo. cbv zeta.
  pose proof (Qfloor_le y) as Hf.
  assert (Haf : (a <= Qfloor y)%Z).
  { rewrite <- (Qfloor_Z a). apply Qfloor_resp_le. exact Ha. }
  assert (Hfb : (Qfloor y <= b)%Z).
  { rewrite Zle_Qle. lra. }
  assert (Hup : 0.5 <= y - inject_Z (Qfloor y) -> (Qfloor y + 1 <= b)%Z).
  { intro Hr. assert (Hlt : inject_Z (Qfloor y) < inject_Z b) by lra.
    rewrite <- Zlt_Qlt in Hlt. lia. }
  destruct (y - inject_Z (Qfloor y) <? 0.5) eqn:E1; v_prop; [lia|].
  destruct (0.5 <? y - inject_Z (Qfloor y)) eqn:E2; v_prop; [specialize (Hup E1); lia|].
  destruct (Z.even (Qfloor y)); [lia|specialize (Hup E1); lia].
Qed.

Lemma round_odstotek (x : Q) : odstotek x -> odstotek (round x 2).
Proof.
  unfold odstotek, round. intros [H0 H1].
  change (inject_Z (10 ^ Z.of_nat 2)) with (inject_Z 100).
  assert (Hm : inject_Z 100 == 100) by reflexivity.
  assert (Hz : (0 <= zaokrozi_celo (x * inject_Z 100) <= 10000)%Z).
  { apply zaokrozi_celo_meje. rewrite Hm.
    change (inject_Z 0) with 0. change (inject_Z 10000) with 10000. lra. }
  destruct Hz as [Hz0 Hz1].
  rewrite Zle_Qle in Hz0, Hz1.
  change (inject_Z 0) with 0 in Hz0. change (inject_Z 10000) with 10000 in Hz1.
  set (z := inject_Z (zaokrozi_celo (x * inject_Z 100))) in *.
  rewrite Hm. split.
  - apply Qle_shift_div_l; lra.
  - apply Qle_shift_div_r; lra.
Qed.

(** ** The paths through [klasificiraj] *)

Lemma klasificiraj_zadetek identifikator svet podatki_prevare :
  UpravljalecBazePrevar.je_znana_prevara baza identifikator = Some podatki_prevare ->
  klasificiraj identifikator svet =
    (_ustvari_porocilo_prevare (get (zp_name podatki_prevare) identifikator)
       (upper (get (zp_symbol podatki_prevare) "???"))
       (indikatorji_znane_prevare podatki_prevare) svet, svet).
Proof. intro H. unfold klasificiraj. rewrite H. reflexivity. Qed.

Lemma klasificiraj_analiza identifikator svet podatki svet' :
  UpravljalecBazePrevar.je_znana_prevara baza identifikator = None ->
  pridobi_podatke_kovanca identifikator svet = (Vrnjeno (Some podatki), svet') ->
  je_znana_prevara
    (analiziraj_prevare podatki (get (name (basic_info podatki)) identifikator)) = false ->
  klasificiraj identifikator svet =
    (Vrnjeno (sestavi_porocilo
                (get (name (basic_info podatki)) identifikator)
                (upper (get (symbol (basic_info podatki)) "???"))
                podatki
                (analiziraj_prevare podatki (get (name (basic_info podatki)) identifikator))
                svet'), svet').
Proof.
  intros Hb Hp Hz. unfold klasificiraj. rewrite Hb, Hp. cbv zeta. rewrite Hz. reflexivity.
Qed.

Lemma analiziraj_prevare_dinamicna podatki ime :
  UpravljalecBazePrevar.je_znana_prevara baza ime = None ->
  UpravljalecBazePrevar.je_znana_prevara baza (coin_id podatki) = None ->
  analiziraj_prevare podatki ime = dinamicna_analiza podatki.
Proof. intros H1 H2. unfold analiziraj_prevare. rewrite H1, H2. reflexivity. Qed.

Lemma analiziraj_prevare_znana podatki ime :
  je_znana_prevara (analiziraj_prevare podatki ime) = true <->
  UpravljalecBazePrevar.je_znana_prevara baza ime <> None \/
  UpravljalecBazePrevar.je_znana_prevara baza (coin_id podatki) <> None.
Proof.
  unfold analiziraj_prevare.
  destruct (UpravljalecBazePrevar.je_znana_prevara baza ime) eqn:E1; simpl.
  - split; [left; discriminate | reflexivity].
  - destruct (UpravljalecBazePrevar.je_znana_prevara baza (coin_id podatki)) eqn:E2; simpl.
    + split; [right; discriminate | reflexivity].
    + split; [discriminate | intros [H|H]; congruence].
Qed.

(** ** C1: the final score *)

(** C1. For a classification that is not a registry hit the final score
    [koncna] is 0.40 * technical axis + 0.35 * economic axis + 0.25 *
    social axis, each axis being ten times the weighted sum of its
    sub-scores; it is multiplied by 1 - 0.5 * probability when the fraud
    probability is strictly positive and left as it is when the probability
    is 0. The report carries this value rounded to two decimals. *)
Theorem C1_koncna_ocena identifikator svet podatki svet' :
  UpravljalecBazePrevar.je_znana_prevara baza identifikator = None ->
  pridobi_podatke_kovanca identifikator svet = (Vrnjeno (Some podatki), svet') ->
  je_znana_prevara
    (analiziraj_prevare podatki (get (name (basic_info podatki)) identifikator)) = false ->
  exists (rezultat : Slovar) (koncna : Q),
    klasificiraj identifikator svet = (Vrnjeno rezultat, svet') /\
    slovar_get rezultat "koncna_ocena" = Some (VStevilo (round koncna 2)) /\
    let indikatorji :=
      analiziraj_prevare podatki (get (name (basic_info podatki)) identifikator) in
    let verjetnost := verjetnost_prevare indikatorji in
    let teh := analiziraj_tehnicne podatki in
    let eko := analiziraj_ekonomske podatki in
    let soc := analiziraj_socialne podatki in
    let tehnicna_os :=
      (0.15 * dostopnost_kode teh + 0.18 * kvaliteta_arhitekture teh
       + 0.22 * decentralizacija teh + 0.22 * varnostni_mehanizmi teh
       + 0.13 * status_revizije teh + 0.10 * tveganje_pogodbe teh) * 10 in
    let ekonomska_os :=
      (0.18 * pravicnost_distribucije eko + 0.12 * mehanizem_inflacije eko
       + 0.15 * vesting_urnik eko + 0.20 * koncentracija_lastnistva eko
       + 0.15 * globina_likvidnosti eko + 0.12 * indikatorji_manipulacije eko
       + 0.08 * vzdrznost_tokenomike eko) * 10 in
    let socialna_os :=
      (0.22 * transparentnost_ekipe soc + 0.18 * izkusenost_ekipe soc
       + 0.18 * kvaliteta_dokumentacije soc + 0.15 * angaziranost_skupnosti soc
       + 0.10 * pristop_marketinga soc + 0.08 * prisotnost_na_omrezjih soc
       + 0.09 * zdravje_skupnosti soc) * 10 in
    let utezena_vsota := 0.40 * tehnicna_os + 0.35 * ekonomska_os + 0.25 * socialna_os in
    koncna = koncna_ocena podatki indikatorji /\
    (0 < verjetnost -> koncna == utezena_vsota * (1 - 0.5 * verjetnost)) /\
    (verjetnost == 0 -> koncna == utezena_vsota).
Proof.
  intros Hb Hp Hz.
  eexists. exists (koncna_ocena podatki
             (analiziraj_prevare podatki (get (name (basic_info podatki)) identifikator))).
  split; [exact (klasificiraj_analiza _ _ _ _ Hb Hp Hz)|].
  split; [reflexivity|].
  cbv zeta. split; [reflexivity|].
  unfold koncna_ocena, izracunaj_oceno_teh, izracunaj_oceno_eko, izracunaj_oceno_soc,
         UTEZ_TEHNICNE, UTEZ_EKONOMSKE, UTEZ_SOCIALNE. cbv zeta.
  set (v := verjetnost_prevare _).
  split; intro Hv.
  - destruct (v >? 0) eqn:E; v_prop; [ring | lra].
  - destruct (v >? 0) eqn:E; v_prop; [lra | ring].
Qed.

(** ** C4: the risk tier *)

Lemma sestavi_porocilo_stopnja ime simbol podatki indikatorji svet :
  slovar_get (sestavi_porocilo ime simbol podatki indikatorji svet) "stopnja_tveganja" =
  Some (VNiz (StopnjaTveganja_value
                (_doloci_stopnjo (koncna_ocena podatki indikatorji) indikatorji))).
Proof. reflexivity. Qed.

(** C4. The risk tier is CRITICAL whenever the project is a known scam or
    the fraud probability exceeds 0.8, whatever the score; otherwise it
    depends on the final score alone: at least 85 VERY_LOW, at least 70
    LOW, at least 55 MODERATE, at least 40 HIGH, at least 25 VERY_HIGH,
    below 25 CRITICAL. The report of a computed classification renders the
    tier so determined. *)
Theorem C4_stopnja_tveganja (ocena : Q) (indikatorji : IndikatorjiPrevare) :
  (je_znana_prevara indikatorji = true \/ 0.8 < verjetnost_prevare indikatorji ->
   _doloci_stopnjo ocena indikatorji = KRITICNO) /\
  (je_znana_prevara indikatorji = false -> verjetnost_prevare indikatorji <= 0.8 ->
   (85 <= ocena -> _doloci_stopnjo ocena indikatorji = ZELO_NIZKO) /\
   (70 <= ocena < 85 -> _doloci_stopnjo ocena indikatorji = NIZKO) /\
   (55 <= ocena < 70 -> _doloci_stopnjo ocena indikatorji = SREDNJE) /\
   (40 <= ocena < 55 -> _doloci_stopnjo ocena indikatorji = VISOKO) /\
   (25 <= ocena < 40 -> _doloci_stopnjo ocena indikatorji = ZELO_VISOKO) /\
   (ocena < 25 -> _doloci_stopnjo ocena indikatorji = KRITICNO)) /\
  (forall ime simbol podatki svet,
     slovar_get (sestavi_porocilo ime simbol podatki indikatorji svet) "stopnja_tveganja" =
     Some (VNiz (StopnjaTveganja_value
                   (_doloci_stopnjo (koncna_ocena podatki indikatorji) indikatorji)))).
Proof.
  split; [|split].
  - intros [H|H]; unfold _doloci_stopnjo.
    + rewrite H. reflexivity.
    + apply Qlt_bool_iff in H. rewrite H, orb_true_r. reflexivity.
  - intros Hz Hv. unfold _doloci_stopnjo. rewrite Hz.
    apply Qlt_bool_niff in Hv. rewrite Hv. simpl.
    repeat split; intros; po_vejah_z_enacbami; v_prop; try reflexivity; lra.
  - intros. apply sestavi_porocilo_stopnja.
Qed.

(** ** C6: every score stays in its range *)

(** C6. For every payload every sub-metric score of the three analyzers
    lies in [0,10], every axis score lies in [0,100], and the final score,
    both as computed and as reported after rounding, lies in [0,100]. *)
Theorem C6_ocene_v_mejah (podatki : Podatki) (ime_kovanca : string) :
  Forall na_lestvici (map snd (v_slovar_teh (analiziraj_tehnicne podatki))) /\
  Forall na_lestvici (map snd (v_slovar_eko (analiziraj_ekonomske podatki))) /\
  Forall na_lestvici (map snd (v_slovar_soc (analiziraj_socialne podatki))) /\
  odstotek (izracunaj_oceno_teh (analiziraj_tehnicne podatki)) /\
  odstotek (izracunaj_oceno_eko (analiziraj_ekonomske podatki)) /\
  odstotek (izracunaj_oceno_soc (analiziraj_socialne podatki)) /\
  odstotek (koncna_ocena podatki (analiziraj_prevare podatki ime_kovanca)) /\
  odstotek (round (koncna_ocena podatki (analiziraj_prevare podatki ime_kovanca)) 2).
Proof.
  pose proof (analiziraj_tehnicne_meje podatki) as Ht.
  pose proof (analiziraj_ekonomske_meje podatki) as He.
  pose proof (analiziraj_socialne_meje podatki) as Hs.
  pose proof (koncna_ocena_meje podatki _
                (analiziraj_prevare_verjetnost_meje podatki ime_kovanca)) as Hk.
  repeat split; try assumption.
  - apply (izracunaj_oceno_teh_meje _ Ht).
  - apply (izracunaj_oceno_teh_meje _ Ht).
  - apply (izracunaj_oceno_eko_meje _ He).
  - apply (izracunaj_oceno_eko_meje _ He).
  - apply (izracunaj_oceno_soc_meje _ Hs).
  - apply (izracunaj_oceno_soc_meje _ Hs).
  - apply Hk.
  - apply Hk.
  - apply (round_odstotek _ Hk).
  - apply (round_odstotek _ Hk).
Qed.

(** ** C7: the project category *)

Lemma kategorija_ustreza_iff vzorci kategorije :
  kategorija_ustreza vzorci kategorije = true <-> ima_oznako vzorci kategorije.
Proof.
  unfold kategorija_ustreza, ima_oznako. rewrite existsb_exists. split.
  - intros [kat [Hk H]]. apply existsb_exists in H. destruct H as [v [Hv H]].
    exists kat, v. auto.
  - intros [kat [v [Hk [Hv H]]]]. exists kat. split; [exact Hk|].
    apply existsb_exists. exists v. auto.
Qed.

(** C7. The category is LAYER_1 if a category label matches one of the
    layer-1 patterns; otherwise LAYER_1 if an infrastructure-like label is
    present, the rank is at most 100 and the final score at least 55;
    otherwise QUALITY_TOKEN if the final score is at least 50; otherwise
    PROBLEMATIC. The report of a computed classification renders the
    category so determined. *)
Theorem C7_kategorija (podatki : Podatki) (ocena : Q) :
  let kategorije := categories (basic_info podatki) in
  let infrastruktura :=
    ima_oznako vzorci_omrezja kategorije /\
    (rang_kategorije podatki <= 100)%Z /\ 55 <= ocena in
  (ima_oznako vzorci_layer1 kategorije -> _doloci_kategorijo podatki ocena = LAYER_1) /\
  (~ ima_oznako vzorci_layer1 kategorije -> infrastruktura ->
   _doloci_kategorijo podatki ocena = LAYER_1) /\
  (~ ima_oznako vzorci_layer1 kategorije -> ~ infrastruktura -> 50 <= ocena ->
   _doloci_kategorijo podatki ocena = KVALITETEN_TOKEN) /\
  (~ ima_oznako vzorci_layer1 kategorije -> ~ infrastruktura -> ocena < 50 ->
   _doloci_kategorijo podatki ocena = PROBLEMATICEN) /\
  (forall ime simbol indikatorji svet,
     slovar_get (sestavi_porocilo ime simbol podatki indikatorji svet) "kategorija" =
     Some (VNiz (KategorijaProjekta_value
                   (_doloci_kategorijo podatki (koncna_ocena podatki indikatorji))))).
Proof.
  cbv zeta.
  assert (Hporocilo : forall ime simbol indikatorji svet,
     slovar_get (sestavi_porocilo ime simbol podatki indikatorji svet) "kategorija" =
     Some (VNiz (KategorijaProjekta_value
                   (_doloci_kategorijo podatki (koncna_ocena podatki indikatorji)))))
    by reflexivity.
  revert Hporocilo. generalize (sestavi_porocilo). intros sp Hporocilo.
  unfold _doloci_kategorijo, je_layer1, ima_omrezje in *. cbv zeta in *.
  pose proof (kategorija_ustreza_iff vzorci_layer1 (categories (basic_info podatki))) as HL.
  pose proof (kategorija_ustreza_iff vzorci_omrezja (categories (basic_info podatki))) as HO.
  destruct (kategorija_ustreza vzorci_layer1 _) eqn:EL.
  { assert (YL : ima_oznako vzorci_layer1 (categories (basic_info podatki)))
      by (apply HL; reflexivity).
    repeat split; intros; try reflexivity; try apply Hporocilo; exfalso; tauto. }
  assert (NL : ~ ima_oznako vzorci_layer1 (categories (basic_info podatki)))
    by (intro H; apply HL in H; discriminate).
  split; [tauto|].
  destruct (kategorija_ustreza vzorci_omrezja _ && (rang_kategorije podatki <=? 100)%Z
            && (ocena >=? 55)) eqn:EI.
  - assert (HI : ima_oznako vzorci_omrezja (categories (basic_info podatki)) /\
                 (rang_kategorije podatki <= 100)%Z /\ 55 <= ocena).
    { v_prop. split; [apply HO; assumption|]. split; assumption. }
    repeat split; intros; try reflexivity; try apply Hporocilo; exfalso; tauto.
  - assert (HI : ~ (ima_oznako vzorci_omrezja (categories (basic_info podatki)) /\
                    (rang_kategorije podatki <= 100)%Z /\ 55 <= ocena)).
    { intros [H1 [H2 H3]]. apply HO in H1. apply Z.leb_le in H2.
      apply Qle_bool_iff in H3. rewrite H1, H2, H3 in EI. discriminate. }
    repeat split; intros; try reflexivity; try apply Hporocilo; try (exfalso; tauto);
      po_vejah_z_enacbami; v_prop; try reflexivity; lra.
Qed.

(** ** C8: liquidity depth is monotone in the volume *)

Lemma ocena_likvidnosti_monotona (v1 v2 : Q) :
  v1 <= v2 -> ocena_likvidnosti v1 <= ocena_likvidnosti v2.
Proof.
  intro H. unfold ocena_likvidnosti.
  repeat match goal with
  | |- context [?a >? ?b] =>
      let E := fresh "E" in destruct (a >? b) eqn:E; v_prop
  end; lra.
Qed.

(** C8. Of two payloads, the one with the strictly larger 24h volume has a
    liquidity_depth sub-score at least as large as the other; nothing
    else in the payload matters to that sub-score. *)
Theorem C8_likvidnost_monotona (podatki1 podatki2 : Podatki) :
  _dobi_volumen podatki1 < _dobi_volumen podatki2 ->
  globina_likvidnosti (analiziraj_ekonomske podatki1) <=
  globina_likvidnosti (analiziraj_ekonomske podatki2).
Proof.
  intro H. unfold analiziraj_ekonomske; simpl.
  apply ocena_likvidnosti_monotona. lra.
Qed.

(** ** C9: a batch keeps going after a failure *)

Lemma korak_batch_zapis st ident :
  korak_batch st ident =
  ((fst st ++ [zapis_izida ident (fst (klasificiraj ident (snd st)))])%list,
   snd (klasificiraj ident (snd st))).
Proof.
  unfold korak_batch. destruct (klasificiraj ident (snd st)) as [[r|e] s']; reflexivity.
Qed.

Lemma fold_korak_batch identifikatorji zbrano svet :
  fold_left korak_batch identifikatorji (zbrano, svet) =
  ((zbrano ++ fst (batch_analiziraj identifikatorji svet))%list,
   snd (batch_analiziraj identifikatorji svet)).
Proof.
  unfold batch_analiziraj.
  revert zbrano svet. induction identifikatorji as [|ident ostali IH]; intros zbrano svet.
  - simpl. rewrite app_nil_r. reflexivity.
  - simpl. rewrite !korak_batch_zapis. simpl.
    rewrite IH. rewrite (IH [_]). simpl. rewrite <- app_assoc. reflexivity.
Qed.

Lemma batch_analiziraj_cons ident ostali svet :
  batch_analiziraj (ident :: ostali) svet =
  (zapis_izida ident (fst (klasificiraj ident svet))
     :: fst (batch_analiziraj ostali (snd (klasificiraj ident svet))),
   snd (batch_analiziraj ostali (snd (klasificiraj ident svet)))).
Proof.
  unfold batch_analiziraj at 1. simpl. rewrite korak_batch_zapis. simpl.
  rewrite fold_korak_batch. reflexivity.
Qed.

Lemma batch_analiziraj_app prvi drugi svet :
  batch_analiziraj (prvi ++ drugi) svet =
  ((fst (batch_analiziraj prvi svet)
      ++ fst (batch_analiziraj drugi (snd (batch_analiziraj prvi svet))))%list,
   snd (batch_analiziraj drugi (snd (batch_analiziraj prvi svet)))).
Proof.
  unfold batch_analiziraj at 1. rewrite fold_left_app.
  fold (batch_analiziraj prvi svet).
  destruct (batch_analiziraj prvi svet) as [r1 s1].
  rewrite fold_korak_batch. reflexivity.
Qed.

Lemma batch_analiziraj_dolzina identifikatorji svet :
  length (fst (batch_analiziraj identifikatorji svet)) = length identifikatorji.
Proof.
  revert svet. induction identifikatorji as [|ident ostali IH]; intro svet.
  - reflexivity.
  - rewrite batch_analiziraj_cons. simpl. rewrite IH. reflexivity.
Qed.

(** C9. When the classification of one identifier of a batch fails, the
    result list holds, at that identifier's position, an error record with
    the identifier and the cause; the results of the identifiers before it
    are kept and the identifiers after it are processed as usual. The
    result list always has one entry per identifier. *)
Theorem C9_batch_napake (pred po : list string) (ident : string) (svet : Svet) :
  (forall e svet2,
     klasificiraj ident (snd (batch_analiziraj pred svet)) = (Izjema e, svet2) ->
     batch_analiziraj (pred ++ ident :: po) svet =
       ((fst (batch_analiziraj pred svet)
           ++ zapis_napake ident e :: fst (batch_analiziraj po svet2))%list,
        snd (batch_analiziraj po svet2)) /\
     slovar_get (zapis_napake ident e) "ime" = Some (VNiz ident) /\
     slovar_get (zapis_napake ident e) "napaka" = Some (VNiz e)) /\
  (forall rezultat svet2,
     klasificiraj ident (snd (batch_analiziraj pred svet)) = (Vrnjeno rezultat, svet2) ->
     batch_analiziraj (pred ++ ident :: po) svet =
       ((fst (batch_analiziraj pred svet)
           ++ rezultat :: fst (batch_analiziraj po svet2))%list,
        snd (batch_analiziraj po svet2))) /\
  length (fst (batch_analiziraj (pred ++ ident :: po) svet)) = length (pred ++ ident :: po).
Proof.
  split; [|split].
  - intros e svet2 H. split; [|split; reflexivity].
    rewrite batch_analiziraj_app, batch_analiziraj_cons, H. reflexivity.
  - intros r svet2 H.
    rewrite batch_analiziraj_app, batch_analiziraj_cons, H. reflexivity.
  - apply batch_analiziraj_dolzina.
Qed.

(** ** C10: only the registry gives certainty *)

(** C10. On the dynamic path (no registry match for the name or the coin
    id) the fraud probability is at most 0.95 and the known-scam flag stays
    false; so a probability of 1.0 or a set flag implies that one of the
    two registry lookups succeeded. *)
Theorem C10_dinamicna_pot (podatki : Podatki) (ime_kovanca : string) :
  (UpravljalecBazePrevar.je_znana_prevara baza ime_kovanca = None ->
   UpravljalecBazePrevar.je_znana_prevara baza (coin_id podatki) = None ->
   verjetnost_prevare (analiziraj_prevare podatki ime_kovanca) <= 0.95 /\
   je_znana_prevara (analiziraj_prevare podatki ime_kovanca) = false) /\
  (verjetnost_prevare (analiziraj_prevare podatki ime_kovanca) == 1.0 \/
   je_znana_prevara (analiziraj_prevare podatki ime_kovanca) = true ->
   UpravljalecBazePrevar.je_znana_prevara baza ime_kovanca <> None \/
   UpravljalecBazePrevar.je_znana_prevara baza (coin_id podatki) <> None).
Proof.
  split.
  - intros H1 H2. rewrite (analiziraj_prevare_dinamicna _ _ H1 H2).
    split; [apply dinamicna_verjetnost_meje | reflexivity].
  - intro H.
    destruct (UpravljalecBazePrevar.je_znana_prevara baza ime_kovanca) eqn:E1;
      [left; discriminate|].
    destruct (UpravljalecBazePrevar.je_znana_prevara baza (coin_id podatki)) eqn:E2;
      [right; discriminate|].
    exfalso. rewrite (analiziraj_prevare_dinamicna _ _ E1 E2) in H.
    destruct H as [H|H]; [|discriminate H].
    pose proof (dinamicna_verjetnost_meje podatki) as Hv. lra.
Qed.

(** ** C2: the report for a known scam *)

(** A hit found only after the fetch, by the project's name or coin id,
    ends in the same fixed report. *)
Lemma klasificiraj_zadetek_po_imenu identifikator svet podatki svet' :
  UpravljalecBazePrevar.je_znana_prevara baza identifikator = None ->
  pridobi_podatke_kovanca identifikator svet = (Vrnjeno (Some podatki), svet') ->
  je_znana_prevara
    (analiziraj_prevare podatki (get (name (basic_info podatki)) identifikator)) = true ->
  exists rezultat,
    klasificiraj identifikator svet = (Vrnjeno rezultat, svet') /\
    slovar_get rezultat "je_potrjena_prevara" = Some (VBool true) /\
    slovar_get rezultat "stopnja_tveganja" = Some (VNiz "CRITICAL").
Proof.
  intros Hb Hp Hz. unfold klasificiraj. rewrite Hb, Hp. cbv zeta. rewrite Hz.
  unfold analiziraj_prevare in *.
  destruct (UpravljalecBazePrevar.je_znana_prevara baza
              (get (name (basic_info podatki)) identifikator)) as [pp|].
  - eexists. unfold _ustvari_porocilo_prevare. simpl. repeat split.
  - destruct (UpravljalecBazePrevar.je_znana_prevara baza (coin_id podatki)) as [pp|].
    + eexists. unfold _ustvari_porocilo_prevare. simpl. repeat split.
    + discriminate Hz.
Qed.

(** C2 (amended). For every identifier that matches the registry the
    classification returns, without consulting the data provider, the
    fixed report for confirmed scams: its confirmed-scam flag is true, its
    risk tier field is the literal string CRITICAL and its category
    KNOWN_SCAM. The indicator record built for the hit has probability 1.0
    and the known-scam flag set, and the tier function maps it to the
    critical tier, whose rendered value is "Critical Risk - Likely Scam". *)
Theorem C2_znana_prevara (identifikator : string) (svet : Svet)
                         (podatki_prevare : ZapisPrevare) :
  UpravljalecBazePrevar.je_znana_prevara baza identifikator = Some podatki_prevare ->
  exists rezultat : Slovar,
    klasificiraj identifikator svet = (Vrnjeno rezultat, svet) /\
    slovar_get rezultat "je_potrjena_prevara" = Some (VBool true) /\
    slovar_get rezultat "stopnja_tveganja" = Some (VNiz "CRITICAL") /\
    slovar_get rezultat "kategorija" = Some (VNiz "KNOWN_SCAM") /\
    verjetnost_prevare (indikatorji_znane_prevare podatki_prevare) = 1.0 /\
    je_znana_prevara (indikatorji_znane_prevare podatki_prevare) = true /\
    (forall ocena,
       _doloci_stopnjo ocena (indikatorji_znane_prevare podatki_prevare) = KRITICNO) /\
    StopnjaTveganja_value KRITICNO = "Critical Risk - Likely Scam".
Proof.
  intro H. rewrite (klasificiraj_zadetek _ svet _ H).
  unfold _ustvari_porocilo_prevare. simpl.
  eexists. split; [reflexivity|].
  repeat split.
Qed.

(** ** C3: the dynamic heuristic *)

Lemma stevilo_najdenih_cons vzorec vzorci s :
  stevilo_najdenih (vzorec :: vzorci) s =
  ((if vsebuje vzorec s then 1 else 0) + stevilo_najdenih vzorci s)%Z.
Proof.
  unfold stevilo_najdenih. simpl. destruct (vsebuje vzorec s); simpl length; lia.
Qed.

Lemma stevilo_najdenih_nenegativno vzorci s : (0 <= stevilo_najdenih vzorci s)%Z.
Proof. unfold stevilo_najdenih. lia. Qed.

Lemma stevilo_najdenih_In vzorec vzorci s :
  In vzorec vzorci -> vsebuje vzorec s = true -> (1 <= stevilo_najdenih vzorci s)%Z.
Proof.
  intros Hin Hv. unfold stevilo_najdenih.
  assert (Hf : In vzorec (filter (fun v => vsebuje v s) vzorci))
    by (apply filter_In; auto).
  destruct (filter (fun v => vsebuje v s) vzorci); [destruct Hf | simpl length; lia].
Qed.

Lemma fold_korak_imena_vsota ime vzorci st :
  tocke_prevare (fold_left (korak_imena ime) vzorci st) =
  (tocke_prevare st + 5 * stevilo_najdenih vzorci ime)%Z.
Proof.
  revert st. induction vzorci as [|v r IH]; intro st.
  - unfold stevilo_najdenih. simpl. lia.
  - simpl fold_left. rewrite IH, stevilo_najdenih_cons.
    unfold korak_imena. destruct (vsebuje v ime); cbn [tocke_prevare]; lia.
Qed.

Lemma fold_korak_fraze_vsota besedilo fraze st :
  tocke_prevare (fold_left (korak_fraze besedilo) fraze st) =
  (tocke_prevare st + 10 * stevilo_najdenih fraze besedilo)%Z.
Proof.
  revert st. induction fraze as [|v r IH]; intro st.
  - unfold stevilo_najdenih. simpl. lia.
  - simpl fold_left. rewrite IH, stevilo_najdenih_cons.
    unfold korak_fraze. destruct (vsebuje v besedilo); cbn [tocke_prevare]; lia.
Qed.

(** The accumulated total is the sum of the five independent terms. *)
Lemma zberi_tocke_popravljene podatki :
  tocke_prevare (zberi_tocke podatki) = tocke_popravljene podatki.
Proof.
  unfold zberi_tocke, tocke_popravljene. cbv zeta.
  set (st0 := {| tocke_prevare := 0; st_opozorila := []; st_rdeci_zastavice := [] |}).
  set (ime := lower (get (name (basic_info podatki)) "")).
  set (st1 := fold_left (korak_imena ime) sumljiva_imena st0).
  set (st2 := fold_left (korak_fraze (besedilo_prevare podatki)) rdece_fraze st1).
  assert (H2 : tocke_prevare st2 =
               (5 * stevilo_najdenih sumljiva_imena ime
                + 10 * stevilo_najdenih rdece_fraze (besedilo_prevare podatki))%Z).
  { unfold st2, st1. rewrite fold_korak_fraze_vsota, fold_korak_imena_vsota.
    simpl. lia. }
  rewrite !Z.gtb_ltb.
  destruct (200 <? _dobi_rang podatki)%Z, (100 <? _dobi_rang podatki)%Z;
  destruct (0 <? _dobi_trzno_kap podatki);
  destruct (_dobi_trzno_kap podatki <? 1000000);
  destruct (_dobi_trzno_kap podatki <? 10000000);
  destruct (ath_sprememba_prevare podatki <? -99);
  destruct (ath_sprememba_prevare podatki <? -95);
  destruct (_dobi_volumen podatki <? 1000);
  destruct (_dobi_volumen podatki <? 10000);
  cbn [andb tocke_prevare dodaj_tocke dodaj_tocke_in_zastavo]; lia.
Qed.

Lemma tocke_scenarija podatki :
  _dobi_rang podatki = 5000%Z ->
  _dobi_trzno_kap podatki == 50000 ->
  _dobi_volumen podatki == 200 ->
  vsebuje "guaranteed return" (besedilo_prevare podatki) = true ->
  ath_sprememba_prevare podatki == -99.5 ->
  (70 <= tocke_popravljene podatki)%Z.
Proof.
  intros Hr Hk Hv Ho Ha. unfold tocke_popravljene. cbv zeta. rewrite Hr.
  pose proof (stevilo_najdenih_nenegativno sumljiva_imena
                (lower (get (name (basic_info podatki)) ""))) as Hi.
  assert (Hf : (1 <= stevilo_najdenih rdece_fraze (besedilo_prevare podatki))%Z).
  { apply stevilo_najdenih_In with (vzorec := "guaranteed return"); [|exact Ho].
    simpl. auto. }
  assert (E1 : (0 <? _dobi_trzno_kap podatki) = true) by (apply Qlt_bool_iff; lra).
  assert (E2 : (_dobi_trzno_kap podatki <? 1000000) = true) by (apply Qlt_bool_iff; lra).
  assert (E3 : (ath_sprememba_prevare podatki <? -99) = true) by (apply Qlt_bool_iff; lra).
  assert (E4 : (_dobi_volumen podatki <? 1000) = true) by (apply Qlt_bool_iff; lra).
  rewrite E1, E2, E3, E4. cbn [andb Z.ltb Z.compare Pos.compare Pos.compare_cont]. lia.
Qed.

(** C3 (amended). On the dynamic path the heuristic accumulates +5 per
    hype token in the name, +10 per suspicious phrase in the description,
    for rank > 200 +15 if 0 < market cap < 1M else +8 if 0 < market cap <
    10M, for rank > 100 +25 if the ATH change is below -99 else +15 if
    below -95, and for rank > 100, only when the market cap is positive,
    +20 if volume < 1000 else +10 if volume < 10000; the probability is
    min(points/100, 0.95). With a positive market cap this is the total of
    the specification. A payload with rank 5000, market cap 50000, volume
    200, a description containing "guaranteed return" and ATH change -99.5
    gets probability at least 0.6 and scam type RUG_PULL. *)
Theorem C3_dinamicna_hevristika (podatki : Podatki) :
  tocke_prevare (zberi_tocke podatki) = tocke_popravljene podatki /\
  verjetnost_prevare (dinamicna_analiza podatki) =
    min_ (inject_Z (tocke_popravljene podatki) / 100) 0.95 /\
  (0 < _dobi_trzno_kap podatki ->
   tocke_popravljene podatki = tocke_po_specifikaciji podatki) /\
  (_dobi_rang podatki = 5000%Z ->
   _dobi_trzno_kap podatki == 50000 ->
   _dobi_volumen podatki == 200 ->
   vsebuje "guaranteed return" (besedilo_prevare podatki) = true ->
   ath_sprememba_prevare podatki == -99.5 ->
   0.6 <= verjetnost_prevare (dinamicna_analiza podatki) /\
   tip_prevare (dinamicna_analiza podatki) = RUG_PULL) /\
  (forall ime_kovanca,
     UpravljalecBazePrevar.je_znana_prevara baza ime_kovanca = None ->
     UpravljalecBazePrevar.je_znana_prevara baza (coin_id podatki) = None ->
     analiziraj_prevare podatki ime_kovanca = dinamicna_analiza podatki).
Proof.
  assert (Hv : verjetnost_prevare (dinamicna_analiza podatki) =
               min_ (inject_Z (tocke_popravljene podatki) / 100) 0.95).
  { unfold dinamicna_analiza. simpl. rewrite zberi_tocke_popravljene. reflexivity. }
  split; [apply zberi_tocke_popravljene|].
  split; [exact Hv|].
  split; [|split].
  - intro Hk. apply Qlt_bool_iff in Hk.
    unfold tocke_popravljene, tocke_po_specifikaciji. cbv zeta. rewrite Hk. reflexivity.
  - intros Hr Hk Hvol Ho Ha.
    pose proof (tocke_scenarija podatki Hr Hk Hvol Ho Ha) as Ht.
    assert (Hq : 0.7 <= inject_Z (tocke_popravljene podatki) / 100).
    { apply Qle_shift_div_l; [lra|].
      apply Qle_trans with (inject_Z 70); [vm_compute; discriminate|].
      rewrite <- Zle_Qle. exact Ht. }
    assert (Hp : 0.7 <= verjetnost_prevare (dinamicna_analiza podatki)).
    { rewrite Hv. destruct (min_izbira (inject_Z (tocke_popravljene podatki) / 100) 0.95)
        as [E|E]; rewrite E; lra. }
    split; [lra|].
    unfold dinamicna_analiza in *. simpl in *.
    assert (E1 : (0.6 <? min_ (inject_Z (tocke_prevare (zberi_tocke podatki)) / 100) 0.95)
                 = true) by (apply Qlt_bool_iff; lra).
    assert (E2 : (ath_sprememba_prevare podatki <? -99) = true)
      by (apply Qlt_bool_iff; lra).
    assert (E3 : (_dobi_volumen podatki <? 10000) = true) by (apply Qlt_bool_iff; lra).
    rewrite E1, E2, E3. reflexivity.
  - intros ime H1 H2. apply analiziraj_prevare_dinamicna; assumption.
Qed.

(** ** C5: the age inferred from the rank *)

Lemma starost_let_tehnicne_po_rangu podatki :
  _izracunaj_starost (genesis_date (basic_info podatki)) == 0 ->
  starost_let_tehnicne podatki == starost_po_rangu (_dobi_rang podatki).
Proof.
  intro H. apply Qeq_bool_iff in H. unfold starost_let_tehnicne, starost_po_rangu.
  cbv zeta. rewrite H. po_vejah; reflexivity.
Qed.

Lemma starost_enaka_do_200 podatki :
  _izracunaj_starost (genesis_date (basic_info podatki)) == 0 ->
  (_dobi_rang podatki <= 200)%Z ->
  starost_let_ekonomske podatki = starost_let_tehnicne podatki /\
  starost_let_socialne podatki = starost_let_tehnicne podatki.
Proof.
  intros H Hr. apply Qeq_bool_iff in H.
  unfold starost_let_tehnicne, starost_let_ekonomske, starost_let_socialne.
  cbv zeta. rewrite H.
  po_vejah_z_enacbami; v_prop; try (split; reflexivity); lia.
Qed.

Lemma starost_rang_15 podatki :
  _izracunaj_starost (genesis_date (basic_info podatki)) == 0 ->
  _dobi_rang podatki = 15%Z ->
  starost_let_tehnicne podatki = 6.0 /\
  starost_let_ekonomske podatki = 6.0 /\
  starost_let_socialne podatki = 6.0.
Proof.
  intros H Hr. apply Qeq_bool_iff in H.
  unfold starost_let_tehnicne, starost_let_ekonomske, starost_let_socialne.
  cbv zeta. rewrite H, Hr. repeat split; reflexivity.
Qed.

(** C5. Without a genesis date and with a rank above 200 the technical
    analyzer infers an age of 1 year, as the band table says, while the
    economic and the social analyzer infer 2 years: the three analyzers do
    not use the same age. *)
Theorem C5_starost_nad_200 (podatki : Podatki) :
  _izracunaj_starost (genesis_date (basic_info podatki)) == 0 ->
  (200 < _dobi_rang podatki)%Z ->
  starost_let_tehnicne podatki = 1.0 /\
  starost_let_ekonomske podatki = 2.0 /\
  starost_let_socialne podatki = 2.0 /\
  ~ starost_let_ekonomske podatki == starost_po_rangu (_dobi_rang podatki).
Proof.
  intros H Hr. apply Qeq_bool_iff in H.
  unfold starost_let_tehnicne, starost_let_ekonomske, starost_let_socialne,
         starost_po_rangu.
  cbv zeta. rewrite H.
  po_vejah_z_enacbami; v_prop; try lia.
  repeat split. intro Hne. vm_compute in Hne. discriminate Hne.
Qed.

(* ------------------------------------------------------------------ *)
(** * Further properties of the code *)

(** Drop from the context everything the goal does not mention. *)
Ltac brez_okolja := repeat match goal with H : _ |- _ => clear H end.

(** ** The registry *)

Lemma poisci_kljuc_In (b : UpravljalecBazePrevar.t) kljuc v :
  UpravljalecBazePrevar.poisci_kljuc b kljuc = Some v -> In (kljuc, v) b.
Proof using Type.
  induction b as [|[k x] r IH]; simpl; [discriminate|].
  destruct (String.eqb k kljuc) eqn:E.
  - apply String.eqb_eq in E. intro H. inversion H. subst. left. reflexivity.
  - intro H. right. auto.
Qed.


Lemma poisci_variante_In (b : UpravljalecBazePrevar.t) kljuci v :
  UpravljalecBazePrevar.poisci_variante b kljuci = Some v ->
  exists kljuc, In kljuc kljuci /\ In (kljuc, v) b.
Proof using Type.
  induction kljuci as [|k r IH]; simpl; [discriminate|].
  destruct (UpravljalecBazePrevar.poisci_kljuc b k) eqn:E.
  - intro H. inversion H. subst. exists k. split; [auto | apply poisci_kljuc_In; exact E].
  - intro H. destruct (IH H) as [k' [H1 H2]]. exists k'. auto.
Qed.


Lemma poisci_po_imenu_In (b : UpravljalecBazePrevar.t) id_kovanca v :
  UpravljalecBazePrevar.poisci_po_imenu b id_kovanca = Some v ->
  exists kljuc, In (kljuc, v) b /\
    (lower (get (zp_name v) "") = lower id_kovanca \/
     lower (get (zp_symbol v) "") = lower id_kovanca).
Proof using Type.
  induction b as [|[k x] r IH]; simpl; [discriminate|].
  destruct (String.eqb (lower (get (zp_name x) "")) (lower id_kovanca)
            || String.eqb (lower (get (zp_symbol x) "")) (lower id_kovanca)) eqn:E.
  - intro H. inversion H. subst. exists k. split; [auto|].
    apply orb_true_iff in E. destruct E as [E|E]; apply String.eqb_eq in E; auto.
  - intro H. destruct (IH H) as [k' [H1 H2]]. exists k'. auto.
Qed.


(** X1. A hit of the registry lookup is always a record stored in the
    registry, under one of the three spellings of the identifier or with
    a name or symbol equal to the identifier up to case. *)
Theorem je_znana_prevara_iz_baze (b : UpravljalecBazePrevar.t) (id_kovanca : string)
                                 (v : ZapisPrevare) :
  UpravljalecBazePrevar.je_znana_prevara b id_kovanca = Some v ->
  exists kljuc,
    In (kljuc, v) b /\
    (In kljuc [normaliziran id_kovanca; lower id_kovanca; id_kovanca] \/
     lower (get (zp_name v) "") = lower id_kovanca \/
     lower (get (zp_symbol v) "") = lower id_kovanca).
Proof using Type.
  unfold UpravljalecBazePrevar.je_znana_prevara. cbv zeta.
  fold (normaliziran id_kovanca).
  destruct (UpravljalecBazePrevar.poisci_variante b _) eqn:E.
  - intro H. inversion H. subst.
    destruct (poisci_variante_In _ _ _ E) as [k [H1 H2]]. exists k. auto.
  - intro H. destruct (poisci_po_imenu_In _ _ _ H) as [k [H1 H2]]. exists k. auto.
Qed.


Lemma poisci_kljuc_nastavi_isti (b : UpravljalecBazePrevar.t) kljuc v :
  UpravljalecBazePrevar.poisci_kljuc (slovar_nastavi b kljuc v) kljuc = Some v.
Proof using Type.
  induction b as [|[k x] r IH]; simpl.
  - rewrite String.eqb_refl. reflexivity.
  - destruct (String.eqb k kljuc) eqn:E; simpl; rewrite E; [reflexivity | exact IH].
Qed.

Lemma poisci_kljuc_nastavi_drug (b : UpravljalecBazePrevar.t) kljuc drug v :
  drug <> kljuc ->
  UpravljalecBazePrevar.poisci_kljuc (slovar_nastavi b kljuc v) drug =
  UpravljalecBazePrevar.poisci_kljuc b drug.
Proof using Type.
  intro Hn. induction b as [|[k x] r IH]; simpl.
  - destruct (String.eqb kljuc drug) eqn:E; [|reflexivity].
    apply String.eqb_eq in E. congruence.
  - destruct (String.eqb k kljuc) eqn:E; simpl.
    + apply String.eqb_eq in E. subst.
      destruct (String.eqb kljuc drug) eqn:E2; [|reflexivity].
      apply String.eqb_eq in E2. congruence.
    + destruct (String.eqb k drug); [reflexivity | exact IH].
Qed.

(** X3. After [dodaj_prevaro] the identifier is found again: the lookup
    returns the stored record when the identifier's normalised spelling is
    its lower-case spelling or is not a key of the registry, and returns
    the older record kept under the normalised key otherwise. Lookups of
    other keys are not affected. *)
Theorem dodaj_prevaro_nato_je_znana (b : UpravljalecBazePrevar.t) (id_kovanca : string)
                                    (podatki_prevare : ZapisPrevare) :
  (normaliziran id_kovanca = lower id_kovanca \/
   UpravljalecBazePrevar.poisci_kljuc b (normaliziran id_kovanca) = None ->
   UpravljalecBazePrevar.je_znana_prevara (dodaj_prevaro b id_kovanca podatki_prevare)
     id_kovanca = Some podatki_prevare) /\
  (forall starejsi,
     normaliziran id_kovanca <> lower id_kovanca ->
     UpravljalecBazePrevar.poisci_kljuc b (normaliziran id_kovanca) = Some starejsi ->
     UpravljalecBazePrevar.je_znana_prevara (dodaj_prevaro b id_kovanca podatki_prevare)
       id_kovanca = Some starejsi) /\
  (forall drug,
     drug <> lower id_kovanca ->
     UpravljalecBazePrevar.poisci_kljuc (dodaj_prevaro b id_kovanca podatki_prevare) drug =
     UpravljalecBazePrevar.poisci_kljuc b drug).
Proof using Type.
  unfold dodaj_prevaro, UpravljalecBazePrevar.je_znana_prevara. cbv zeta.
  fold (normaliziran id_kovanca).
  split; [|split].
  - intros [H|H]; simpl.
    + rewrite H, poisci_kljuc_nastavi_isti. reflexivity.
    + destruct (string_dec (normaliziran id_kovanca) (lower id_kovanca)) as [E|E].
      * rewrite E, poisci_kljuc_nastavi_isti. reflexivity.
      * rewrite (poisci_kljuc_nastavi_drug _ _ _ _ E), H, poisci_kljuc_nastavi_isti.
        reflexivity.
  - intros starejsi Hn H. simpl.
    rewrite (poisci_kljuc_nastavi_drug _ _ _ _ Hn), H. reflexivity.
  - intros drug Hn. apply poisci_kljuc_nastavi_drug. exact Hn.
Qed.

(** ** The scam type of a registry hit *)

Lemma velika_crka_ni_mala (c : ascii) : je_mala_crka (velika_crka c) = false.
Proof using Type. destruct c as [[] [] [] [] [] [] [] []]; reflexivity. Qed.

Lemma drugi_znak_oznake (s : string) (c : ascii) :
  drugi_znak (replace "_" " " (upper s)) = Some c -> je_mala_crka c = false.
Proof using Type.
  destruct s as [|a [|b r]]; simpl; try discriminate.
  intro H. inversion H. subst. clear H.
  pose proof (velika_crka_ni_mala b) as Hb.
  destruct (Ascii.eqb (velika_crka b) "_"); [reflexivity | exact Hb].
Qed.

Lemma drugi_znak_vrednosti (t : TipPrevare) :
  exists c, drugi_znak (TipPrevare_value t) = Some c /\ je_mala_crka c = true.
Proof using Type. destruct t; eexists; split; reflexivity. Qed.

Lemma oznaka_ni_vrednost (s : string) :
  TipPrevare_iz_vrednosti (replace "_" " " (upper s)) = None.
Proof using Type.
  unfold TipPrevare_iz_vrednosti.
  destruct (find _ vsi_tipi) as [t|] eqn:E; [|reflexivity].
  apply find_some in E. destruct E as [_ E]. apply String.eqb_eq in E.
  destruct (drugi_znak_vrednosti t) as [c [H1 H2]].
  rewrite E in H1. apply drugi_znak_oznake in H1. congruence.
Qed.

(** X4. The fraud analysis never recognises the scam type of a registry
    record: whenever the known-scam flag is set, whatever the record's
    [scam_type] label, the type is the member NEZNANO, because the label is
    upper-cased before it is compared with the mixed-case enum values. *)
Theorem znana_prevara_brez_tipa (podatki : Podatki) (ime_kovanca : string) :
  je_znana_prevara (analiziraj_prevare podatki ime_kovanca) = true ->
  tip_prevare (analiziraj_prevare podatki ime_kovanca) = NEZNANO.
Proof using Type.
  unfold analiziraj_prevare.
  destruct (UpravljalecBazePrevar.je_znana_prevara baza ime_kovanca) as [pp|].
  - intros _. simpl. rewrite oznaka_ni_vrednost. reflexivity.
  - destruct (UpravljalecBazePrevar.je_znana_prevara baza (coin_id podatki)) as [pp|].
    + reflexivity.
    + simpl. discriminate.
Qed.

(** ** Axis scores are weighted averages *)

(** X5. Each axis score is ten times a weighted average of its
    sub-scores: when all sub-scores of a metric record lie between [a] and
    [b], the axis score lies between [10 a] and [10 b]. *)
Theorem os_je_utezeno_povprecje (a b : Q) :
  (forall m, Forall (fun x => a <= x <= b) (map snd (v_slovar_teh m)) ->
             10 * a <= izracunaj_oceno_teh m <= 10 * b) /\
  (forall m, Forall (fun x => a <= x <= b) (map snd (v_slovar_eko m)) ->
             10 * a <= izracunaj_oceno_eko m <= 10 * b) /\
  (forall m, Forall (fun x => a <= x <= b) (map snd (v_slovar_soc m)) ->
             10 * a <= izracunaj_oceno_soc m <= 10 * b).
Proof using Type.
  split; [|split]; intros m H;
    unfold v_slovar_teh, v_slovar_eko, v_slovar_soc,
           izracunaj_oceno_teh, izracunaj_oceno_eko, izracunaj_oceno_soc in *;
    simpl in H; iz_Forall; lra.
Qed.

(** ** The range of the final score *)

Ltac obseg := cbv zeta; unfold max_; po_vejah; split; lra.

Lemma ocena_kode_obseg povezave : 4 <= ocena_kode povezave <= 8.5.
Proof using Type. unfold ocena_kode. obseg. Qed.
Lemma ocena_arhitekture_obseg razvojni rang starost :
  4 <= ocena_arhitekture razvojni rang starost <= 9.5.
Proof using Type. unfold ocena_arhitekture. obseg. Qed.
Lemma ocena_decentralizacije_obseg rang starost :
  5 <= ocena_decentralizacije rang starost <= 9.5.
Proof using Type. unfold ocena_decentralizacije. obseg. Qed.
Lemma ocena_varnosti_obseg rang : 4 <= ocena_varnosti rang <= 9.5.
Proof using Type. unfold ocena_varnosti. obseg. Qed.
Lemma ocena_revizije_obseg rang starost : 5 <= ocena_revizije rang starost <= 9.5.
Proof using Type. unfold ocena_revizije. obseg. Qed.
Lemma ocena_pogodbe_obseg kategorije rang starost :
  6 <= ocena_pogodbe kategorije rang starost <= 8.
Proof using Type. unfold ocena_pogodbe. obseg. Qed.
Lemma ocena_distribucije_obseg volumen trzna_kap rang starost :
  5 <= ocena_distribucije volumen trzna_kap rang starost <= 9.5.
Proof using Type. unfold ocena_distribucije. obseg. Qed.
Lemma ocena_inflacije_obseg trzni trzni_info : 5 <= ocena_inflacije trzni trzni_info <= 9.
Proof using Type. unfold ocena_inflacije. obseg. Qed.
Lemma ocena_vestinga_obseg starost : 6 <= ocena_vestinga starost <= 9.5.
Proof using Type. unfold ocena_vestinga. obseg. Qed.
Lemma ocena_koncentracije_obseg trzni trzni_info rang starost :
  5 <= ocena_koncentracije trzni trzni_info rang starost <= 9.
Proof using Type. unfold ocena_koncentracije. obseg. Qed.
Lemma ocena_likvidnosti_obseg volumen : 4 <= ocena_likvidnosti volumen <= 9.5.
Proof using Type. unfold ocena_likvidnosti. obseg. Qed.
Lemma ocena_manipulacije_obseg trzni trzni_info :
  5 <= ocena_manipulacije trzni trzni_info <= 9.
Proof using Type. unfold ocena_manipulacije. obseg. Qed.
Lemma ocena_vzdrznosti_obseg rang starost : 7 <= ocena_vzdrznosti rang starost <= 9.5.
Proof using Type. unfold ocena_vzdrznosti. obseg. Qed.
Lemma ocena_transparentnosti_obseg povezave rang starost :
  4 <= ocena_transparentnosti povezave rang starost <= 9.
Proof using Type. unfold ocena_transparentnosti. obseg. Qed.
Lemma ocena_izkusenj_obseg rang starost : 6 <= ocena_izkusenj rang starost <= 9.5.
Proof using Type. unfold ocena_izkusenj. obseg. Qed.
Lemma ocena_angaziranosti_obseg skupnost rang :
  6 <= ocena_angaziranosti skupnost rang <= 9.5.
Proof using Type. unfold ocena_angaziranosti. obseg. Qed.
Lemma ocena_dokumentacije_obseg osnovni : 5 <= ocena_dokumentacije osnovni <= 9.
Proof using Type. unfold ocena_dokumentacije. obseg. Qed.
Lemma ocena_marketinga_obseg osnovni : 5 <= ocena_marketinga osnovni <= 9.
Proof using Type. unfold ocena_marketinga. obseg. Qed.
Lemma ocena_prisotnosti_obseg skupnost rang :
  6.5 <= ocena_prisotnosti skupnost rang <= 9.5.
Proof using Type. unfold ocena_prisotnosti. obseg. Qed.
Lemma ocena_zdravja_obseg skupnost rang : 6.5 <= ocena_zdravja skupnost rang <= 9.
Proof using Type. unfold ocena_zdravja. obseg. Qed.

Lemma tehnicna_os_obseg podatki :
  45.5 <= izracunaj_oceno_teh (analiziraj_tehnicne podatki) <= 92.
Proof using Type.
  unfold izracunaj_oceno_teh, analiziraj_tehnicne. simpl.
  pose proof (ocena_kode_obseg (links (basic_info podatki))).
  pose proof (ocena_arhitekture_obseg (developer_data (basic_info podatki))
                (_dobi_rang podatki) (starost_let_tehnicne podatki)).
  pose proof (ocena_decentralizacije_obseg (_dobi_rang podatki)
                (starost_let_tehnicne podatki)).
  pose proof (ocena_varnosti_obseg (_dobi_rang podatki)).
  pose proof (ocena_revizije_obseg (_dobi_rang podatki) (starost_let_tehnicne podatki)).
  pose proof (ocena_pogodbe_obseg (categories (basic_info podatki)) (_dobi_rang podatki)
                (starost_let_tehnicne podatki)).
  lra.
Qed.

Lemma ekonomska_os_obseg podatki :
  51.6 <= izracunaj_oceno_eko (analiziraj_ekonomske podatki) <= 92.8.
Proof using Type.
  unfold izracunaj_oceno_eko, analiziraj_ekonomske. simpl.
  pose proof (ocena_distribucije_obseg (_dobi_volumen podatki) (_dobi_trzno_kap podatki)
                (_dobi_rang podatki) (starost_let_ekonomske podatki)).
  pose proof (ocena_inflacije_obseg (market_data podatki)
                (bi_market_data (basic_info podatki))).
  pose proof (ocena_vestinga_obseg (starost_let_ekonomske podatki)).
  pose proof (ocena_koncentracije_obseg (market_data podatki)
                (bi_market_data (basic_info podatki)) (_dobi_rang podatki)
                (starost_let_ekonomske podatki)).
  pose proof (ocena_likvidnosti_obseg (_dobi_volumen podatki)).
  pose proof (ocena_manipulacije_obseg (market_data podatki)
                (bi_market_data (basic_info podatki))).
  pose proof (ocena_vzdrznosti_obseg (_dobi_rang podatki) (starost_let_ekonomske podatki)).
  lra.
Qed.

Lemma socialna_os_obseg podatki :
  53.65 <= izracunaj_oceno_soc (analiziraj_socialne podatki) <= 92.05.
Proof using Type.
  unfold izracunaj_oceno_soc, analiziraj_socialne. simpl.
  pose proof (ocena_transparentnosti_obseg (links (basic_info podatki))
                (_dobi_rang podatki) (starost_let_socialne podatki)).
  pose proof (ocena_izkusenj_obseg (_dobi_rang podatki) (starost_let_socialne podatki)).
  pose proof (ocena_dokumentacije_obseg (basic_info podatki)).
  pose proof (ocena_angaziranosti_obseg (community_data (basic_info podatki))
                (_dobi_rang podatki)).
  pose proof (ocena_marketinga_obseg (basic_info podatki)).
  pose proof (ocena_prisotnosti_obseg (community_data (basic_info podatki))
                (_dobi_rang podatki)).
  pose proof (ocena_zdravja_obseg (community_data (basic_info podatki))
                (_dobi_rang podatki)).
  lra.
Qed.

(** The final score as a product: the penalty factor is 1 when the
    probability is 0. *)
Lemma koncna_ocena_produkt podatki indikatorji :
  0 <= verjetnost_prevare indikatorji ->
  koncna_ocena podatki indikatorji ==
  (izracunaj_oceno_teh (analiziraj_tehnicne podatki) * 0.40
   + izracunaj_oceno_eko (analiziraj_ekonomske podatki) * 0.35
   + izracunaj_oceno_soc (analiziraj_socialne podatki) * 0.25)
  * (1 - verjetnost_prevare indikatorji * 0.5).
Proof using Type.
  intro Hv. unfold koncna_ocena, UTEZ_TEHNICNE, UTEZ_EKONOMSKE, UTEZ_SOCIALNE. cbv zeta.
  destruct (verjetnost_prevare indikatorji >? 0) eqn:E; v_prop; [reflexivity|].
  assert (Hz : verjetnost_prevare indikatorji == 0) by lra.
  rewrite Hz. ring.
Qed.

Lemma koncna_ocena_obseg podatki indikatorji :
  0 <= verjetnost_prevare indikatorji <= 0.95 ->
  26 < koncna_ocena podatki indikatorji <= 92.2925.
Proof using Type.
  intros [H0 H1]. rewrite (koncna_ocena_produkt podatki indikatorji H0).
  pose proof (tehnicna_os_obseg podatki) as Ht.
  pose proof (ekonomska_os_obseg podatki) as He.
  pose proof (socialna_os_obseg podatki) as Hs.
  set (raw := izracunaj_oceno_teh _ * 0.40 + izracunaj_oceno_eko _ * 0.35
              + izracunaj_oceno_soc _ * 0.25).
  assert (Hr : 49.6725 <= raw <= 92.2925) by (unfold raw; lra).
  set (f := 1 - verjetnost_prevare indikatorji * 0.5).
  assert (Hf : 0.525 <= f <= 1) by (unfold f; lra).
  split.
  - apply Qlt_le_trans with (49.6725 * 0.525); [reflexivity|].
    apply Qle_trans with (raw * 0.525).
    + apply Qmult_le_compat_r; lra.
    + rewrite !(Qmult_comm raw). apply Qmult_le_compat_r; lra.
  - apply Qle_trans with (raw * 1); [|lra].
    rewrite !(Qmult_comm raw). apply Qmult_le_compat_r; lra.
Qed.

Lemma analiziraj_prevare_neznana podatki ime_kovanca :
  je_znana_prevara (analiziraj_prevare podatki ime_kovanca) = false ->
  analiziraj_prevare podatki ime_kovanca = dinamicna_analiza podatki.
Proof using Type.
  unfold analiziraj_prevare.
  destruct (UpravljalecBazePrevar.je_znana_prevara baza ime_kovanca); [discriminate|].
  destruct (UpravljalecBazePrevar.je_znana_prevara baza (coin_id podatki));
    [discriminate | reflexivity].
Qed.

Lemma doloci_crko_A_plus ocena : ocena < 93 -> _doloci_crko ocena <> "A+".
Proof using Type.
  intro H. unfold _doloci_crko.
  po_vejah_z_enacbami; v_prop; try discriminate; lra.
Qed.

(** X6. The final score of a computed classification (no registry hit)
    always lies above 26 and at most at 92.2925. Hence the grade A+ is
    never given, and the risk tier is critical exactly when the fraud
    probability exceeds 0.8: the score band below 25 is never reached. *)
Theorem koncna_ocena_izracunane_klasifikacije (podatki : Podatki) (ime_kovanca : string) :
  je_znana_prevara (analiziraj_prevare podatki ime_kovanca) = false ->
  26 < koncna_ocena podatki (analiziraj_prevare podatki ime_kovanca) <= 92.2925 /\
  _doloci_crko (koncna_ocena podatki (analiziraj_prevare podatki ime_kovanca)) <> "A+" /\
  (_doloci_stopnjo (koncna_ocena podatki (analiziraj_prevare podatki ime_kovanca))
                   (analiziraj_prevare podatki ime_kovanca) = KRITICNO <->
   0.8 < verjetnost_prevare (analiziraj_prevare podatki ime_kovanca)).
Proof using Type.
  intro Hz. rewrite (analiziraj_prevare_neznana _ _ Hz).
  pose proof (dinamicna_verjetnost_meje podatki) as Hv.
  pose proof (koncna_ocena_obseg podatki (dinamicna_analiza podatki) Hv) as Hk.
  split; [exact Hk|]. split; [apply doloci_crko_A_plus; lra|].
  unfold _doloci_stopnjo.
  replace (je_znana_prevara (dinamicna_analiza podatki)) with false by reflexivity.
  rewrite orb_false_l.
  destruct (verjetnost_prevare (dinamicna_analiza podatki) >? 0.8) eqn:E; v_prop.
  - split; [intros _; exact E | reflexivity].
  - split; [|intro; lra].
    po_vejah_z_enacbami; v_prop; try discriminate. lra.
Qed.

(** ** Grade and tier *)

Lemma stopnja_sledi_crki ocena indikatorji :
  je_znana_prevara indikatorji = false ->
  verjetnost_prevare indikatorji <= 0.8 ->
  25 <= ocena ->
  _doloci_stopnjo ocena indikatorji = stopnja_crke (_doloci_crko ocena).
Proof using Type.
  intros Hz Hv Ho. unfold _doloci_stopnjo. rewrite Hz.
  apply Qlt_bool_niff in Hv. rewrite Hv. simpl orb. cbv iota.
  unfold _doloci_crko.
  po_vejah_z_enacbami; v_prop; try reflexivity; lra.
Qed.

(** X7. In a computed classification without the fraud override
    (probability at most 0.8) the letter grade determines the risk tier:
    A+ and A are very low risk, A- to B low, B- to C moderate, C- to D
    high, D- and F very high. *)
Theorem stopnja_tveganja_po_crki (podatki : Podatki) (ime_kovanca : string) :
  je_znana_prevara (analiziraj_prevare podatki ime_kovanca) = false ->
  verjetnost_prevare (analiziraj_prevare podatki ime_kovanca) <= 0.8 ->
  _doloci_stopnjo (koncna_ocena podatki (analiziraj_prevare podatki ime_kovanca))
                  (analiziraj_prevare podatki ime_kovanca) =
  stopnja_crke
    (_doloci_crko (koncna_ocena podatki (analiziraj_prevare podatki ime_kovanca))).
Proof using Type.
  intros Hz Hv. apply stopnja_sledi_crki; [exact Hz | exact Hv |].
  rewrite (analiziraj_prevare_neznana _ _ Hz).
  pose proof (koncna_ocena_obseg podatki (dinamicna_analiza podatki)
                (dinamicna_verjetnost_meje podatki)). lra.
Qed.

(** ** Strengths and weaknesses *)

Lemma presodi_mrtva n x visoko nizko p s ps :
  nizko <= x -> slabosti_v_redu n ps -> slabosti_v_redu n (presodi x visoko nizko p s ps).
Proof using Type.
  intros Hx H. unfold presodi.
  destruct (x >=? visoko); [exact H|].
  destruct (x <? nizko) eqn:E; v_prop; [lra | exact H].
Qed.

Lemma slabosti_v_redu_dodaj n ps s prednosti :
  In s dosegljive_slabosti -> slabosti_v_redu n ps ->
  slabosti_v_redu (S n) (prednosti, (snd ps ++ [s])%list).
Proof using Type.
  intros Hs [H1 H2]. split; cbn [snd].
  - intros x Hx. apply in_app_or in Hx.
    destruct Hx as [Hx|[Hx|[]]]; [exact (H1 x Hx) | subst; exact Hs].
  - rewrite length_app. simpl. lia.
Qed.

Lemma slabosti_v_redu_vec n ps prednosti :
  slabosti_v_redu n ps -> slabosti_v_redu (S n) (prednosti, snd ps).
Proof using Type. intros [H1 H2]. split; cbn [snd]; [exact H1 | lia]. Qed.

Lemma presodi_ziva n x visoko nizko p s ps :
  In s dosegljive_slabosti -> slabosti_v_redu n ps ->
  slabosti_v_redu (S n) (presodi x visoko nizko p s ps).
Proof using Type.
  intros Hs H. unfold presodi.
  destruct (x >=? visoko); [apply slabosti_v_redu_vec; exact H|].
  destruct (x <? nizko).
  - apply slabosti_v_redu_dodaj; assumption.
  - destruct ps. apply (slabosti_v_redu_vec n (l, l0)). exact H.
Qed.

Ltac spodnja_meja :=
  simpl;
  match goal with
  | |- _ <= ocena_decentralizacije ?r ?a =>
      pose proof (ocena_decentralizacije_obseg r a); lra
  | |- _ <= ocena_vzdrznosti ?r ?a => pose proof (ocena_vzdrznosti_obseg r a); lra
  | |- _ <= ocena_koncentracije ?t ?i ?r ?a =>
      pose proof (ocena_koncentracije_obseg t i r a); lra
  | |- _ <= ocena_manipulacije ?t ?i => pose proof (ocena_manipulacije_obseg t i); lra
  | |- _ <= ocena_angaziranosti ?s ?r => pose proof (ocena_angaziranosti_obseg s r); lra
  | |- _ <= ocena_dokumentacije ?o => pose proof (ocena_dokumentacije_obseg o); lra
  end.

(** X8. For the metrics the analyzers compute, whatever the fraud
    indicators, the list of weaknesses holds at most six entries, so it is
    never cut, and only these can occur: limited code availability, weak
    development activity, weak security mechanisms, low liquidity,
    untransparent team, and one of the two fraud warnings. The weaknesses
    for decentralisation, tokenomics, ownership concentration, volatility,
    community size and documentation are never reported. The list of
    strengths holds at most seven entries. *)
Theorem slabosti_izracunanih_metrik (podatki : Podatki) (indikatorji : IndikatorjiPrevare) :
  (forall x,
     In x (snd (_analiziraj_prednosti_slabosti (analiziraj_tehnicne podatki)
                  (analiziraj_ekonomske podatki) (analiziraj_socialne podatki)
                  indikatorji)) ->
     In x dosegljive_slabosti) /\
  (length (snd (_analiziraj_prednosti_slabosti (analiziraj_tehnicne podatki)
                  (analiziraj_ekonomske podatki) (analiziraj_socialne podatki)
                  indikatorji)) <= 6)%nat /\
  (length (fst (_analiziraj_prednosti_slabosti (analiziraj_tehnicne podatki)
                  (analiziraj_ekonomske podatki) (analiziraj_socialne podatki)
                  indikatorji)) <= 7)%nat.
Proof using Type.
  brez_okolja.
  unfold _analiziraj_prednosti_slabosti. cbv zeta.
  match goal with
  | |- context [firstn 7 (snd ?ps)] =>
      assert (H : slabosti_v_redu 6 ps); [|set (konec := ps) in *]
  end.
  { assert (H5 : forall ps : list string * list string, slabosti_v_redu 5 ps ->
       slabosti_v_redu 6
         (if verjetnost_prevare indikatorji >? 0.5
          then (fst ps, (snd ps ++ ["Visoka verjetnost prevare"])%list)
          else if verjetnost_prevare indikatorji >? 0.3
               then (fst ps, (snd ps ++ ["Nekateri indikatorji prevare"])%list)
               else if verjetnost_prevare indikatorji <? 0.1
                    then ((fst ps ++ ["Nizka verjetnost prevare"])%list, snd ps)
                    else ps)).
    { intros ps Hps.
      destruct (verjetnost_prevare indikatorji >? 0.5);
        [apply slabosti_v_redu_dodaj; [simpl; tauto | exact Hps]|].
      destruct (verjetnost_prevare indikatorji >? 0.3);
        [apply slabosti_v_redu_dodaj; [simpl; tauto | exact Hps]|].
      destruct (verjetnost_prevare indikatorji <? 0.1);
        [apply slabosti_v_redu_vec; exact Hps|].
      destruct ps. apply (slabosti_v_redu_vec 5 (l, l0)). exact Hps. }
    apply H5.
    apply presodi_mrtva; [spodnja_meja|].
    apply presodi_ziva; [simpl; tauto|].
    apply presodi_mrtva; [spodnja_meja|].
    apply presodi_mrtva; [spodnja_meja|].
    apply presodi_mrtva; [spodnja_meja|].
    apply presodi_mrtva; [spodnja_meja|].
    apply presodi_ziva; [simpl; tauto|].
    apply presodi_ziva; [simpl; tauto|].
    apply presodi_mrtva; [spodnja_meja|].
    apply presodi_ziva; [simpl; tauto|].
    apply presodi_ziva; [simpl; tauto|].
    split; simpl; [tauto | lia]. }
  destruct H as [H1 H2]. cbn [fst snd].
  rewrite (firstn_all2 (n := 7) (snd konec)) by lia.
  split; [exact H1|]. split; [exact H2|].
  rewrite length_firstn. lia.
Qed.

(** ** A better rank never hurts *)

Ltac protislovje :=
  v_prop;
  first
    [ lra
    | lia
    | match goal with
      | H : (_ && _) = false |- _ =>
          apply andb_false_iff in H; destruct H; v_prop; solve [lra | lia]
      end ].

Ltac monotona := cbv zeta; unfold max_; po_vejah_z_enacbami; protislovje.

Lemma ocena_arhitekture_rang razvojni r1 r2 a1 a2 :
  (r1 <= r2)%Z -> a2 <= a1 ->
  ocena_arhitekture razvojni r2 a2 <= ocena_arhitekture razvojni r1 a1.
Proof using Type. intros Hr Ha. unfold ocena_arhitekture. monotona. Qed.

Lemma ocena_decentralizacije_rang r1 r2 a1 a2 :
  (r1 <= r2)%Z -> a2 <= a1 ->
  ocena_decentralizacije r2 a2 <= ocena_decentralizacije r1 a1.
Proof using Type. intros Hr Ha. unfold ocena_decentralizacije. monotona. Qed.

Lemma ocena_varnosti_rang r1 r2 :
  (r1 <= r2)%Z -> ocena_varnosti r2 <= ocena_varnosti r1.
Proof using Type. intros Hr. unfold ocena_varnosti. monotona. Qed.

Lemma ocena_revizije_rang r1 r2 a1 a2 :
  (r1 <= r2)%Z -> a2 <= a1 -> ocena_revizije r2 a2 <= ocena_revizije r1 a1.
Proof using Type. intros Hr Ha. unfold ocena_revizije. monotona. Qed.

Lemma ocena_pogodbe_rang kategorije r1 r2 a1 a2 :
  (r1 <= r2)%Z -> a2 <= a1 ->
  ocena_pogodbe kategorije r2 a2 <= ocena_pogodbe kategorije r1 a1.
Proof using Type. intros Hr Ha. unfold ocena_pogodbe. monotona. Qed.

Lemma ocena_distribucije_rang volumen trzna_kap r1 r2 a1 a2 :
  (r1 <= r2)%Z -> a2 <= a1 ->
  ocena_distribucije volumen trzna_kap r2 a2 <= ocena_distribucije volumen trzna_kap r1 a1.
Proof using Type.
  intros Hr Ha. unfold ocena_distribucije. cbv zeta.
  set (osnova := if _ >? 15 then 9.5 else _).
  assert (Ho : 5 <= osnova <= 9.5) by (unfold osnova; po_vejah; split; lra).
  clearbody osnova. monotona.
Qed.

Lemma ocena_vestinga_starost a1 a2 :
  a2 <= a1 -> ocena_vestinga a2 <= ocena_vestinga a1.
Proof using Type. intros Ha. unfold ocena_vestinga. monotona. Qed.

Lemma ocena_koncentracije_rang trzni trzni_info r1 r2 a1 a2 :
  (r1 <= r2)%Z -> a2 <= a1 ->
  ocena_koncentracije trzni trzni_info r2 a2 <= ocena_koncentracije trzni trzni_info r1 a1.
Proof using Type.
  intros Hr Ha. unfold ocena_koncentracije. cbv zeta.
  set (osnova := if _ >? -20 then 9.0 else _).
  assert (Ho : 5 <= osnova <= 9) by (unfold osnova; po_vejah; split; lra).
  clearbody osnova. monotona.
Qed.

Lemma ocena_vzdrznosti_rang r1 r2 a1 a2 :
  (r1 <= r2)%Z -> a2 <= a1 -> ocena_vzdrznosti r2 a2 <= ocena_vzdrznosti r1 a1.
Proof using Type. intros Hr Ha. unfold ocena_vzdrznosti. monotona. Qed.

Lemma ocena_transparentnosti_rang povezave r1 r2 a1 a2 :
  (r1 <= r2)%Z -> a2 <= a1 ->
  ocena_transparentnosti povezave r2 a2 <= ocena_transparentnosti povezave r1 a1.
Proof using Type.
  intros Hr Ha. unfold ocena_transparentnosti. cbv zeta.
  set (osnova := if (_ >=? 4)%Z then 9.0 else _).
  assert (Ho : 4 <= osnova <= 9) by (unfold osnova; po_vejah; split; lra).
  clearbody osnova. monotona.
Qed.

Lemma ocena_izkusenj_rang r1 r2 a1 a2 :
  (r1 <= r2)%Z -> a2 <= a1 -> ocena_izkusenj r2 a2 <= ocena_izkusenj r1 a1.
Proof using Type. intros Hr Ha. unfold ocena_izkusenj. monotona. Qed.

Lemma ocena_angaziranosti_rang skupnost r1 r2 :
  (r1 <= r2)%Z -> ocena_angaziranosti skupnost r2 <= ocena_angaziranosti skupnost r1.
Proof using Type. intros Hr. unfold ocena_angaziranosti. monotona. Qed.

Lemma ocena_prisotnosti_rang skupnost r1 r2 :
  (r1 <= r2)%Z -> ocena_prisotnosti skupnost r2 <= ocena_prisotnosti skupnost r1.
Proof using Type. intros Hr. unfold ocena_prisotnosti. monotona. Qed.

Lemma ocena_zdravja_rang skupnost r1 r2 :
  (r1 <= r2)%Z -> ocena_zdravja skupnost r2 <= ocena_zdravja skupnost r1.
Proof using Type. intros Hr. unfold ocena_zdravja. monotona. Qed.

Lemma dobi_rang_z_rangom podatki r : (0 < r)%Z -> _dobi_rang (z_rangom podatki r) = r.
Proof using Type.
  intro H. unfold _dobi_rang, z_rangom, ali_privzeto_Z, ali_Z, ali, ali_privzeto, resnicno_Z.
  simpl. destruct (r =? 0)%Z eqn:E; [apply Z.eqb_eq in E; lia|]. simpl. rewrite E. reflexivity.
Qed.

Lemma starost_let_tehnicne_rang podatki r1 r2 :
  (0 < r1 <= r2)%Z ->
  starost_let_tehnicne (z_rangom podatki r2) <= starost_let_tehnicne (z_rangom podatki r1).
Proof using Type.
  intros [H0 Hr]. unfold starost_let_tehnicne. cbv zeta.
  rewrite !dobi_rang_z_rangom by lia.
  change (basic_info (z_rangom podatki r2)) with (basic_info podatki).
  change (basic_info (z_rangom podatki r1)) with (basic_info podatki).
  destruct (Qeq_bool _ 0); [|apply Qle_refl]. monotona.
Qed.

Lemma starost_let_ekonomske_rang podatki r1 r2 :
  (0 < r1 <= r2)%Z ->
  starost_let_ekonomske (z_rangom podatki r2) <= starost_let_ekonomske (z_rangom podatki r1).
Proof using Type.
  intros [H0 Hr]. unfold starost_let_ekonomske. cbv zeta.
  rewrite !dobi_rang_z_rangom by lia.
  change (basic_info (z_rangom podatki r2)) with (basic_info podatki).
  change (basic_info (z_rangom podatki r1)) with (basic_info podatki).
  destruct (Qeq_bool _ 0); [|apply Qle_refl]. monotona.
Qed.

Lemma starost_let_socialne_rang podatki r1 r2 :
  (0 < r1 <= r2)%Z ->
  starost_let_socialne (z_rangom podatki r2) <= starost_let_socialne (z_rangom podatki r1).
Proof using Type.
  intros [H0 Hr]. unfold starost_let_socialne. cbv zeta.
  rewrite !dobi_rang_z_rangom by lia.
  change (basic_info (z_rangom podatki r2)) with (basic_info podatki).
  change (basic_info (z_rangom podatki r1)) with (basic_info podatki).
  destruct (Qeq_bool _ 0); [|apply Qle_refl]. monotona.
Qed.

Lemma tehnicna_os_rang podatki r1 r2 :
  (0 < r1 <= r2)%Z ->
  izracunaj_oceno_teh (analiziraj_tehnicne (z_rangom podatki r2)) <=
  izracunaj_oceno_teh (analiziraj_tehnicne (z_rangom podatki r1)).
Proof using Type.
  intro H. pose proof (starost_let_tehnicne_rang podatki r1 r2 H) as Ha.
  destruct H as [H0 Hr].
  unfold izracunaj_oceno_teh, analiziraj_tehnicne. cbv zeta.
  cbn [dostopnost_kode kvaliteta_arhitekture decentralizacija varnostni_mehanizmi
       status_revizije tveganje_pogodbe].
  rewrite !dobi_rang_z_rangom by lia.
  change (basic_info (z_rangom podatki r2)) with (basic_info podatki).
  change (basic_info (z_rangom podatki r1)) with (basic_info podatki).
  set (a1 := starost_let_tehnicne (z_rangom podatki r1)) in *.
  set (a2 := starost_let_tehnicne (z_rangom podatki r2)) in *.
  pose proof (ocena_arhitekture_rang (developer_data (basic_info podatki)) r1 r2 a1 a2 Hr Ha).
  pose proof (ocena_decentralizacije_rang r1 r2 a1 a2 Hr Ha).
  pose proof (ocena_varnosti_rang r1 r2 Hr).
  pose proof (ocena_revizije_rang r1 r2 a1 a2 Hr Ha).
  pose proof (ocena_pogodbe_rang (categories (basic_info podatki)) r1 r2 a1 a2 Hr Ha).
  lra.
Qed.

Lemma ekonomska_os_rang podatki r1 r2 :
  (0 < r1 <= r2)%Z ->
  izracunaj_oceno_eko (analiziraj_ekonomske (z_rangom podatki r2)) <=
  izracunaj_oceno_eko (analiziraj_ekonomske (z_rangom podatki r1)).
Proof using Type.
  intro H. pose proof (starost_let_ekonomske_rang podatki r1 r2 H) as Ha.
  destruct H as [H0 Hr].
  unfold izracunaj_oceno_eko, analiziraj_ekonomske. cbv zeta.
  cbn [pravicnost_distribucije mehanizem_inflacije vesting_urnik koncentracija_lastnistva
       globina_likvidnosti indikatorji_manipulacije vzdrznost_tokenomike].
  rewrite !dobi_rang_z_rangom by lia.
  change (basic_info (z_rangom podatki r2)) with (basic_info podatki).
  change (basic_info (z_rangom podatki r1)) with (basic_info podatki).
  change (_dobi_volumen (z_rangom podatki r2)) with (_dobi_volumen podatki).
  change (_dobi_volumen (z_rangom podatki r1)) with (_dobi_volumen podatki).
  change (_dobi_trzno_kap (z_rangom podatki r2)) with (_dobi_trzno_kap podatki).
  change (_dobi_trzno_kap (z_rangom podatki r1)) with (_dobi_trzno_kap podatki).
  change (ocena_inflacije (market_data (z_rangom podatki r2)))
    with (ocena_inflacije (market_data podatki)).
  change (ocena_inflacije (market_data (z_rangom podatki r1)))
    with (ocena_inflacije (market_data podatki)).
  change (ocena_manipulacije (market_data (z_rangom podatki r2)))
    with (ocena_manipulacije (market_data podatki)).
  change (ocena_manipulacije (market_data (z_rangom podatki r1)))
    with (ocena_manipulacije (market_data podatki)).
  change (ocena_koncentracije (market_data (z_rangom podatki r2)))
    with (ocena_koncentracije (market_data podatki)).
  change (ocena_koncentracije (market_data (z_rangom podatki r1)))
    with (ocena_koncentracije (market_data podatki)).
  set (a1 := starost_let_ekonomske (z_rangom podatki r1)) in *.
  set (a2 := starost_let_ekonomske (z_rangom podatki r2)) in *.
  pose proof (ocena_distribucije_rang (_dobi_volumen podatki) (_dobi_trzno_kap podatki)
                r1 r2 a1 a2 Hr Ha).
  pose proof (ocena_vestinga_starost a1 a2 Ha).
  pose proof (ocena_koncentracije_rang (market_data podatki)
                (bi_market_data (basic_info podatki)) r1 r2 a1 a2 Hr Ha).
  pose proof (ocena_vzdrznosti_rang r1 r2 a1 a2 Hr Ha).
  lra.
Qed.

Lemma socialna_os_rang podatki r1 r2 :
  (0 < r1 <= r2)%Z ->
  izracunaj_oceno_soc (analiziraj_socialne (z_rangom podatki r2)) <=
  izracunaj_oceno_soc (analiziraj_socialne (z_rangom podatki r1)).
Proof using Type.
  intro H. pose proof (starost_let_socialne_rang podatki r1 r2 H) as Ha.
  destruct H as [H0 Hr].
  unfold izracunaj_oceno_soc, analiziraj_socialne. cbv zeta.
  cbn [transparentnost_ekipe izkusenost_ekipe kvaliteta_dokumentacije
       angaziranost_skupnosti pristop_marketinga prisotnost_na_omrezjih zdravje_skupnosti].
  rewrite !dobi_rang_z_rangom by lia.
  change (basic_info (z_rangom podatki r2)) with (basic_info podatki).
  change (basic_info (z_rangom podatki r1)) with (basic_info podatki).
  set (a1 := starost_let_socialne (z_rangom podatki r1)) in *.
  set (a2 := starost_let_socialne (z_rangom podatki r2)) in *.
  pose proof (ocena_transparentnosti_rang (links (basic_info podatki)) r1 r2 a1 a2 Hr Ha).
  pose proof (ocena_izkusenj_rang r1 r2 a1 a2 Hr Ha).
  pose proof (ocena_angaziranosti_rang (community_data (basic_info podatki)) r1 r2 Hr).
  pose proof (ocena_prisotnosti_rang (community_data (basic_info podatki)) r1 r2 Hr).
  pose proof (ocena_zdravja_rang (community_data (basic_info podatki)) r1 r2 Hr).
  lra.
Qed.

(** X9. With everything else in the payload unchanged, a better
    (smaller) market-cap rank never lowers the technical, the economic or
    the social axis score. *)
Theorem osi_ne_padejo_z_boljsim_rangom (podatki : Podatki) (r1 r2 : Z) :
  (0 < r1 <= r2)%Z ->
  izracunaj_oceno_teh (analiziraj_tehnicne (z_rangom podatki r2)) <=
    izracunaj_oceno_teh (analiziraj_tehnicne (z_rangom podatki r1)) /\
  izracunaj_oceno_eko (analiziraj_ekonomske (z_rangom podatki r2)) <=
    izracunaj_oceno_eko (analiziraj_ekonomske (z_rangom podatki r1)) /\
  izracunaj_oceno_soc (analiziraj_socialne (z_rangom podatki r2)) <=
    izracunaj_oceno_soc (analiziraj_socialne (z_rangom podatki r1)).
Proof using Type.
  intro H. split; [|split].
  - apply tehnicna_os_rang; exact H.
  - apply ekonomska_os_rang; exact H.
  - apply socialna_os_rang; exact H.
Qed.

Lemma tocke_popravljene_rang podatki r1 r2 :
  (0 < r1 <= r2)%Z ->
  (tocke_popravljene (z_rangom podatki r1) <= tocke_popravljene (z_rangom podatki r2))%Z.
Proof using Type.
  intros [H0 Hr]. unfold tocke_popravljene. cbv zeta.
  rewrite !dobi_rang_z_rangom by lia.
  change (basic_info (z_rangom podatki r2)) with (basic_info podatki).
  change (basic_info (z_rangom podatki r1)) with (basic_info podatki).
  change (besedilo_prevare (z_rangom podatki r2)) with (besedilo_prevare podatki).
  change (besedilo_prevare (z_rangom podatki r1)) with (besedilo_prevare podatki).
  change (_dobi_volumen (z_rangom podatki r2)) with (_dobi_volumen podatki).
  change (_dobi_volumen (z_rangom podatki r1)) with (_dobi_volumen podatki).
  change (_dobi_trzno_kap (z_rangom podatki r2)) with (_dobi_trzno_kap podatki).
  change (_dobi_trzno_kap (z_rangom podatki r1)) with (_dobi_trzno_kap podatki).
  change (ath_sprememba_prevare (z_rangom podatki r2)) with (ath_sprememba_prevare podatki).
  change (ath_sprememba_prevare (z_rangom podatki r1)) with (ath_sprememba_prevare podatki).
  destruct (200 <? r1)%Z eqn:A1; destruct (200 <? r2)%Z eqn:A2;
  destruct (100 <? r1)%Z eqn:B1; destruct (100 <? r2)%Z eqn:B2;
    v_prop; try lia; po_vejah; lia.
Qed.

Lemma min_monotona a b c : a <= b -> min_ a c <= min_ b c.
Proof using Type.
  intro H. unfold min_.
  destruct (c <? a) eqn:E1; destruct (c <? b) eqn:E2; v_prop; lra.
Qed.

Lemma verjetnost_rang podatki r1 r2 :
  (0 < r1 <= r2)%Z ->
  verjetnost_prevare (dinamicna_analiza (z_rangom podatki r1)) <=
  verjetnost_prevare (dinamicna_analiza (z_rangom podatki r2)).
Proof using Type.
  intro H. unfold dinamicna_analiza. cbn [verjetnost_prevare].
  rewrite !zberi_tocke_popravljene.
  apply min_monotona.
  pose proof (tocke_popravljene_rang podatki r1 r2 H) as Ht.
  rewrite Zle_Qle in Ht.
  apply Qmult_le_compat_r; [exact Ht | discriminate].
Qed.

(** X10. With everything else in the payload unchanged, a better
    (smaller) rank never raises the fraud probability of the dynamic
    heuristic. *)
Theorem verjetnost_ne_raste_z_boljsim_rangom (podatki : Podatki) (r1 r2 : Z) :
  (0 < r1 <= r2)%Z ->
  (tocke_prevare (zberi_tocke (z_rangom podatki r1)) <=
   tocke_prevare (zberi_tocke (z_rangom podatki r2)))%Z /\
  verjetnost_prevare (dinamicna_analiza (z_rangom podatki r1)) <=
  verjetnost_prevare (dinamicna_analiza (z_rangom podatki r2)).
Proof using Type.
  intro H. split.
  - rewrite !zberi_tocke_popravljene. apply tocke_popravljene_rang. exact H.
  - apply verjetnost_rang. exact H.
Qed.

(** X11. With everything else in the payload unchanged, a better
    (smaller) rank never lowers the final score of a computed
    classification. *)
Theorem koncna_ocena_ne_pade_z_boljsim_rangom (podatki : Podatki) (r1 r2 : Z) :
  (0 < r1 <= r2)%Z ->
  koncna_ocena (z_rangom podatki r2) (dinamicna_analiza (z_rangom podatki r2)) <=
  koncna_ocena (z_rangom podatki r1) (dinamicna_analiza (z_rangom podatki r1)).
Proof using Type.
  intro H.
  pose proof (dinamicna_verjetnost_meje (z_rangom podatki r1)) as Hv1.
  pose proof (dinamicna_verjetnost_meje (z_rangom podatki r2)) as Hv2.
  rewrite !koncna_ocena_produkt by lra.
  pose proof (verjetnost_rang podatki r1 r2 H) as Hv.
  pose proof (tehnicna_os_rang podatki r1 r2 H) as Ht.
  pose proof (ekonomska_os_rang podatki r1 r2 H) as He.
  pose proof (socialna_os_rang podatki r1 r2 H) as Hs.
  pose proof (tehnicna_os_obseg (z_rangom podatki r2)) as Bt.
  pose proof (ekonomska_os_obseg (z_rangom podatki r2)) as Be.
  pose proof (socialna_os_obseg (z_rangom podatki r2)) as Bs.
  set (raw1 := izracunaj_oceno_teh (analiziraj_tehnicne (z_rangom podatki r1)) * 0.40 + _ + _).
  set (raw2 := izracunaj_oceno_teh (analiziraj_tehnicne (z_rangom podatki r2)) * 0.40 + _ + _).
  set (f1 := 1 - verjetnost_prevare (dinamicna_analiza (z_rangom podatki r1)) * 0.5).
  set (f2 := 1 - verjetnost_prevare (dinamicna_analiza (z_rangom podatki r2)) * 0.5).
  assert (Hraw : 0 <= raw2 <= raw1) by (unfold raw1, raw2; lra).
  assert (Hf : 0 <= f2 <= f1) by (unfold f1, f2; lra).
  apply Qle_trans with (raw2 * f1).
  - rewrite !(Qmult_comm raw2). apply Qmult_le_compat_r; lra.
  - apply Qmult_le_compat_r; lra.
Qed.

(** ** When a classification fails *)



(** ** The HTTP client *)

Section LastnostiKlienta.

Variable _max_ponovitev : nat.
Variable zahteva_podrobnosti : string -> Svet -> Odziv PodrobnostiJSON * Svet.
Variable zahteva_iskanje : string -> Svet -> Odziv (list Kovanec) * Svet.
Variable zahteva_trg : string -> Svet -> Odziv (list TrzniPodatki) * Svet.

Lemma zanka_zahteve_poraba (A : Type) (zahteva : Svet -> Odziv A * Svet) n svet :
  exists k, (k <= n)%nat /\
    snd (zanka_zahteve _max_ponovitev zahteva n svet) = po_zahtevah zahteva k svet /\
    (forall e, fst (zanka_zahteve _max_ponovitev zahteva n svet) = Izjema e -> k = n).
Proof using Type.
  revert svet. induction n as [|n IH]; intro svet.
  - exists 0%nat. simpl. auto.
  - simpl. destruct (zahteva svet) as [o s1] eqn:E.
    assert (Hs : s1 = snd (zahteva svet)) by (rewrite E; reflexivity).
    assert (Hrec : exists k, (k <= S n)%nat /\
              snd (zanka_zahteve _max_ponovitev zahteva n s1) = po_zahtevah zahteva k svet /\
              (forall e, fst (zanka_zahteve _max_ponovitev zahteva n s1) = Izjema e ->
                         k = S n)).
    { destruct (IH s1) as [k [H1 [H2 H3]]]. exists (S k). simpl. rewrite <- Hs.
      split; [lia|]. split; [exact H2|]. intros e He. rewrite (H3 e He). reflexivity. }
    assert (Hend : forall r : Izid (option A), (forall e, r <> Izjema e) ->
              exists k, (k <= S n)%nat /\ snd (r, s1) = po_zahtevah zahteva k svet /\
                        (forall e, fst (r, s1) = Izjema e -> k = S n)).
    { intros r Hr. exists 1%nat. simpl. rewrite <- Hs.
      split; [lia|]. split; [reflexivity|]. intros e He. destruct (Hr e He). }
    destruct o as [| |telo|e|e].
    + exact Hrec.
    + apply Hend. discriminate.
    + apply Hend. discriminate.
    + destruct n; [|exact Hrec].
      exists 1%nat. simpl. rewrite <- Hs. auto.
    + destruct n; [|exact Hrec].
      exists 1%nat. simpl. rewrite <- Hs. auto.
Qed.

(** X13. One call of [_izvedi_zahtevo] sends at most [_max_ponovitev]
    requests, and it raises only after it has sent exactly that many. *)
Theorem izvedi_zahtevo_poraba (A : Type) (zahteva : Svet -> Odziv A * Svet) (svet : Svet) :
  exists k, (k <= _max_ponovitev)%nat /\
    snd (_izvedi_zahtevo _max_ponovitev zahteva svet) = po_zahtevah zahteva k svet /\
    (forall e, fst (_izvedi_zahtevo _max_ponovitev zahteva svet) = Izjema e ->
               k = _max_ponovitev).
Proof using Type. unfold _izvedi_zahtevo. apply zanka_zahteve_poraba. Qed.

Lemma zanka_zahteve_odlocilni (A : Type) (zahteva : Svet -> Odziv A * Svet) k :
  forall n svet,
    (k < n)%nat ->
    (forall j, (j < k)%nat -> ponovljiv (fst (zahteva (po_zahtevah zahteva j svet))) = true) ->
    (forall telo, fst (zahteva (po_zahtevah zahteva k svet)) = StatusOk telo ->
       zanka_zahteve _max_ponovitev zahteva n svet =
       (Vrnjeno (Some telo), po_zahtevah zahteva (S k) svet)) /\
    (fst (zahteva (po_zahtevah zahteva k svet)) = Status404 ->
       zanka_zahteve _max_ponovitev zahteva n svet =
       (Vrnjeno None, po_zahtevah zahteva (S k) svet)).
Proof using Type.
  induction k as [|k IH]; intros n svet Hk Hp.
  - destruct n as [|n]; [lia|]. simpl.
    destruct (zahteva svet) as [o s1]. simpl.
    split; [intros telo H | intro H]; subst; reflexivity.
  - destruct n as [|n]; [lia|].
    assert (H0 : ponovljiv (fst (zahteva svet)) = true) by (apply (Hp 0%nat); lia).
    assert (Hrest : forall j, (j < k)%nat ->
              ponovljiv (fst (zahteva (po_zahtevah zahteva j (snd (zahteva svet))))) = true)
      by (intros j Hj; apply (Hp (S j)); lia).
    destruct (IH n (snd (zahteva svet)) ltac:(lia) Hrest) as [IH1 IH2].
    change (po_zahtevah zahteva (S k) svet)
      with (po_zahtevah zahteva k (snd (zahteva svet))).
    change (po_zahtevah zahteva (S (S k)) svet)
      with (po_zahtevah zahteva (S k) (snd (zahteva svet))).
    simpl zanka_zahteve.
    destruct (zahteva svet) as [o s1]. simpl in *.
    destruct n as [|n]; [lia|].
    destruct o; try discriminate H0; split; assumption.
Qed.

(** X14. Answers 429 and failed requests are retried while attempts are
    left: if the first [k] answers are of that kind and answer [k+1], still
    within the attempts allowed, is a success, the call returns its body;
    if it is a 404, the call returns None. In both cases exactly [k+1]
    requests were sent. *)
Theorem izvedi_zahtevo_odlocilni_odgovor (A : Type) (zahteva : Svet -> Odziv A * Svet)
                                         (k : nat) (svet : Svet) :
  (k < _max_ponovitev)%nat ->
  (forall j, (j < k)%nat -> ponovljiv (fst (zahteva (po_zahtevah zahteva j svet))) = true) ->
  (forall telo, fst (zahteva (po_zahtevah zahteva k svet)) = StatusOk telo ->
     _izvedi_zahtevo _max_ponovitev zahteva svet =
     (Vrnjeno (Some telo), po_zahtevah zahteva (S k) svet)) /\
  (fst (zahteva (po_zahtevah zahteva k svet)) = Status404 ->
     _izvedi_zahtevo _max_ponovitev zahteva svet =
     (Vrnjeno None, po_zahtevah zahteva (S k) svet)).
Proof using Type. intros Hk Hp. unfold _izvedi_zahtevo. apply zanka_zahteve_odlocilni; assumption. Qed.

(** X15. The search picks a coin of the answer: nothing when the list
    is empty; the first coin whose symbol, name or id equals the query up
    to case, when there is one; and otherwise the first coin of the list,
    whatever it is. *)
Theorem izberi_kovanec_pravila (poizvedba : string) (kovanci : list Kovanec) :
  (izberi_kovanec poizvedba kovanci = None <-> kovanci = []) /\
  (forall pred kovanec po,
     kovanci = (pred ++ kovanec :: po)%list ->
     (forall drug, In drug pred -> tocno_ujemanje poizvedba drug = false) ->
     tocno_ujemanje poizvedba kovanec = true ->
     izberi_kovanec poizvedba kovanci = Some (k_id kovanec)) /\
  (forall prvi ostali,
     kovanci = prvi :: ostali ->
     (forall drug, In drug kovanci -> tocno_ujemanje poizvedba drug = false) ->
     izberi_kovanec poizvedba kovanci = Some (k_id prvi)).
Proof using Type.
  brez_okolja.
  split; [|split].
  - unfold izberi_kovanec. destruct kovanci as [|k r]; [tauto|].
    destruct (find _ (k :: r)); split; discriminate.
  - intros pred kovanec po E Hp Hk. subst.
    assert (Hf : find (tocno_ujemanje poizvedba) (pred ++ kovanec :: po) = Some kovanec).
    { induction pred as [|x r IH]; simpl.
      - rewrite Hk. reflexivity.
      - rewrite (Hp x (or_introl eq_refl)). apply IH.
        intros d Hd. apply Hp. right. exact Hd. }
    unfold izberi_kovanec. rewrite Hf. destruct pred; reflexivity.
  - intros prvi ostali E Hn. subst. unfold izberi_kovanec.
    destruct (find (tocno_ujemanje poizvedba) (prvi :: ostali)) as [k|] eqn:Ef;
      [|reflexivity].
    apply find_some in Ef. destruct Ef as [Hin Hk]. rewrite (Hn k Hin) in Hk. discriminate.
Qed.

Lemma sestavi_podatke_rang identifikator id_kovanca podatki_kovanca svet podatki svet' :
  sestavi_podatke _max_ponovitev zahteva_trg identifikator id_kovanca podatki_kovanca svet
    = (Vrnjeno podatki, svet') ->
  exists r, r <> 0%Z /\
    ali_Z (md_market_cap_rank (market_data podatki))
          (bi_market_cap_rank (bi_market_data (basic_info podatki))) = Some r /\
    coin_id podatki = id_kovanca.
Proof using Type.
  unfold sestavi_podatke.
  destruct podatki_kovanca as [[|e o]|]; try (unfold vrzi; discriminate).
  unfold vezi.
  destruct (_dobi_trzne_podatke _max_ponovitev zahteva_trg id_kovanca svet) as [[t|e1] s1];
    [|discriminate].
  cbv zeta.
  destruct (ali_Z (md_market_cap_rank t) (bi_market_cap_rank (bi_market_data o)))
    as [r|] eqn:E; [|unfold vrzi; discriminate].
  destruct (resnicno_Z r) eqn:Er; [|unfold vrzi; discriminate].
  unfold vrni. intro H. inversion H. subst. simpl.
  exists r. split; [|split; [exact E | reflexivity]].
  unfold resnicno_Z in Er. apply negb_true_iff in Er. apply Z.eqb_neq in Er. exact Er.
Qed.

Lemma rang_iz_ali podatki r :
  r <> 0%Z ->
  ali_Z (md_market_cap_rank (market_data podatki))
        (bi_market_cap_rank (bi_market_data (basic_info podatki))) = Some r ->
  _dobi_rang podatki = r /\ rang_kategorije podatki = r.
Proof using Type.
  intros Hr E. unfold _dobi_rang, rang_kategorije. cbv zeta. rewrite E.
  unfold ali_privzeto_Z, ali_privzeto, resnicno_Z.
  destruct (r =? 0)%Z eqn:Ez; [apply Z.eqb_eq in Ez; contradiction|].
  simpl. auto.
Qed.

Lemma klient_vrne_rang (identifikator : string) (svet : Svet)
                                     (podatki : Podatki) (svet' : Svet) :
  CoinGeckoKlient_pridobi_podatke_kovanca _max_ponovitev zahteva_podrobnosti
    zahteva_iskanje zahteva_trg identifikator svet = (Vrnjeno podatki, svet') ->
  exists r, r <> 0%Z /\
    ali_Z (md_market_cap_rank (market_data podatki))
          (bi_market_cap_rank (bi_market_data (basic_info podatki))) = Some r /\
    _dobi_rang podatki = r /\ rang_kategorije podatki = r.
Proof using Type.
  unfold CoinGeckoKlient_pridobi_podatke_kovanca. cbv zeta. unfold vezi at 1.
  destruct (_dobi_podrobnosti _ _ _ svet) as [[pk|e] s1]; [|discriminate].
  assert (Hkonec : forall idk pk0 s0,
            sestavi_podatke _max_ponovitev zahteva_trg identifikator idk pk0 s0
              = (Vrnjeno podatki, svet') ->
            exists r, r <> 0%Z /\
              ali_Z (md_market_cap_rank (market_data podatki))
                    (bi_market_cap_rank (bi_market_data (basic_info podatki))) = Some r /\
              _dobi_rang podatki = r /\ rang_kategorije podatki = r).
  { intros idk pk0 s0 H. destruct (sestavi_podatke_rang _ _ _ _ _ _ H) as [r [H1 [H2 _]]].
    exists r. split; [exact H1|]. split; [exact H2|]. apply rang_iz_ali; assumption. }
  destruct (ni_podatkov pk || ima_kljuc_error pk); [|apply Hkonec].
  unfold vezi at 1.
  destruct (poisci_kovanec _ _ _ s1) as [[[idk|]|e] s2]; try (unfold vrzi; discriminate).
  destruct (negb (neprazen idk)); [unfold vrzi; discriminate|].
  unfold vezi at 1.
  destruct (_dobi_podrobnosti _ _ _ s2) as [[pk2|e] s3]; [|discriminate].
  apply Hkonec.
Qed.


(** X16. A payload returned by the client always carries a market-cap
    rank different from zero, in the markets row or in the coin's own market
    data: the analyzers' default rank 9999 and the category's default rank
    10000 are never used for it, and both read the same rank. *)
Theorem pridobi_podatke_kovanca_rang (identifikator : string) (svet : Svet)
                                     (podatki : Podatki) (svet' : Svet) :
  CoinGeckoKlient_pridobi_podatke_kovanca _max_ponovitev zahteva_podrobnosti
    zahteva_iskanje zahteva_trg identifikator svet = (Vrnjeno podatki, svet') ->
  exists r, r <> 0%Z /\
    ali_Z (md_market_cap_rank (market_data podatki))
          (bi_market_cap_rank (bi_market_data (basic_info podatki))) = Some r /\
    _dobi_rang podatki = r /\ rang_kategorije podatki = r.
Proof using Type. apply klient_vrne_rang. Qed.

End LastnostiKlienta.

(** ** The risk multiplier of the registry *)

Lemma kljuc_leb_total a b : kljuc_leb a b = true \/ kljuc_leb b a = true.
Proof using Type.
  destruct a as [x|], b as [y|]; simpl; auto.
  destruct (x <=? y) eqn:E; [auto|]. right. v_prop. apply Qle_bool_iff. lra.
Qed.

Lemma kljuc_leb_trans a b c :
  kljuc_leb a b = true -> kljuc_leb b c = true -> kljuc_leb a c = true.
Proof using Type.
  destruct a as [x|], b as [y|], c as [z|]; simpl; try congruence.
  intros H1 H2. v_prop. apply Qle_bool_iff. lra.
Qed.

Lemma vstavi_razred_In x l y : In y (vstavi_razred x l) <-> y = x \/ In y l.
Proof using Type.
  induction l as [|a r IH]; simpl.
  - split; intros [H|H]; auto.
  - destruct (kljuc_leb (kljuc_razreda (snd x)) (kljuc_razreda (snd a))); simpl.
    + split; intros [H|H]; auto.
    + rewrite IH. split; intros [H|[H|H]]; auto.
Qed.

Lemma sorted_razredi_In pragovi y : In y (sorted_razredi pragovi) <-> In y pragovi.
Proof using Type.
  brez_okolja.
  unfold sorted_razredi. induction pragovi as [|a r IH]; simpl; [tauto|].
  rewrite vstavi_razred_In, IH. split; intros [H|H]; auto.
Qed.

Lemma vstavi_razred_urejeno x l :
  StronglySorted (fun a b => kljuc_leb (kljuc_razreda (snd a)) (kljuc_razreda (snd b)) = true) l ->
  StronglySorted (fun a b => kljuc_leb (kljuc_razreda (snd a)) (kljuc_razreda (snd b)) = true)
    (vstavi_razred x l).
Proof using Type.
  intro H. induction H as [|a r Hr IH Ha]; simpl.
  - constructor; constructor.
  - destruct (kljuc_leb (kljuc_razreda (snd x)) (kljuc_razreda (snd a))) eqn:E.
    + constructor; [constructor; assumption|].
      constructor; [exact E|].
      rewrite Forall_forall in *. intros y Hy.
      apply kljuc_leb_trans with (kljuc_razreda (snd a)); auto.
    + constructor; [exact IH|].
      rewrite Forall_forall in *. intros y Hy. apply vstavi_razred_In in Hy.
      destruct Hy as [Hy|Hy]; [|auto].
      subst. destruct (kljuc_leb_total (kljuc_razreda (snd a)) (kljuc_razreda (snd x)));
        congruence.
Qed.

Lemma sorted_razredi_urejeno pragovi :
  StronglySorted (fun a b => kljuc_leb (kljuc_razreda (snd a)) (kljuc_razreda (snd b)) = true)
    (sorted_razredi pragovi).
Proof using Type.
  unfold sorted_razredi. induction pragovi as [|a r IH]; simpl.
  - constructor.
  - apply vstavi_razred_urejeno. exact IH.
Qed.

Lemma find_najmanjsi (f : string * RazredKapitalizacije -> bool) l x :
  StronglySorted (fun a b => kljuc_leb (kljuc_razreda (snd a)) (kljuc_razreda (snd b)) = true) l ->
  find f l = Some x ->
  forall y, In y l -> f y = true ->
    kljuc_leb (kljuc_razreda (snd x)) (kljuc_razreda (snd y)) = true.
Proof using Type.
  intro H. induction H as [|a r Hr IH Ha]; simpl; [discriminate|].
  destruct (f a) eqn:E.
  - intro Hx. inversion Hx. subst. intros y [Hy|Hy] _.
    + subst. destruct (kljuc_leb_total (kljuc_razreda (snd y)) (kljuc_razreda (snd y))); auto.
    + rewrite Forall_forall in Ha. auto.
  - intros Hx y [Hy|Hy] Hf; [subst; congruence | auto].
Qed.

(** X17. [dobi_mnozitelj_tveganja] returns 1.2 when the market cap is
    zero or no thresholds are configured. Otherwise it returns 1.0 when no
    class admits the market cap, and else the multiplier (1.0 if missing) of
    a configured class that admits it and whose sort key, its [max_usd]
    with zero and None counted as infinite, is least among the admitting
    classes. *)
Theorem dobi_mnozitelj_tveganja_pravila (pragovi : list (string * RazredKapitalizacije))
                                        (trzna_kap : Q) :
  (trzna_kap == 0 \/ pragovi = [] -> dobi_mnozitelj_tveganja pragovi trzna_kap = 1.2) /\
  (~ trzna_kap == 0 -> pragovi <> [] ->
   ((forall razred, In razred pragovi -> razred_sprejme trzna_kap (snd razred) = false) ->
    dobi_mnozitelj_tveganja pragovi trzna_kap = 1.0) /\
   ((exists razred, In razred pragovi /\ razred_sprejme trzna_kap (snd razred) = true) ->
    exists izbran,
      In izbran pragovi /\
      razred_sprejme trzna_kap (snd izbran) = true /\
      dobi_mnozitelj_tveganja pragovi trzna_kap = get (risk_multiplier (snd izbran)) 1.0 /\
      forall razred, In razred pragovi -> razred_sprejme trzna_kap (snd razred) = true ->
        kljuc_leb (kljuc_razreda (snd izbran)) (kljuc_razreda (snd razred)) = true)).
Proof using Type.
  unfold dobi_mnozitelj_tveganja. split.
  - intros [H|H].
    + apply Qeq_bool_iff in H. unfold resnicno_Q. rewrite H. reflexivity.
    + subst. rewrite orb_true_r. reflexivity.
  - intros Hk Hp.
    assert (E1 : resnicno_Q trzna_kap = true).
    { unfold resnicno_Q. destruct (Qeq_bool trzna_kap 0) eqn:E; [|reflexivity].
      apply Qeq_bool_iff in E. contradiction. }
    assert (E2 : neprazen_seznam pragovi = true) by (destruct pragovi; [congruence|reflexivity]).
    rewrite E1, E2. simpl.
    destruct (find (fun x => razred_sprejme trzna_kap (snd x)) (sorted_razredi pragovi))
      as [[ime info]|] eqn:Ef.
    + pose proof (find_najmanjsi _ _ _ (sorted_razredi_urejeno pragovi) Ef) as Hmin.
      apply find_some in Ef. destruct Ef as [Hin Hs]. apply (proj1 (sorted_razredi_In _ _)) in Hin.
      split.
      * intro Hn. rewrite (Hn _ Hin) in Hs. discriminate.
      * intros _. exists (ime, info). split; [exact Hin|]. split; [exact Hs|].
        split; [reflexivity|].
        intros razred Hr Hsr. apply Hmin; [apply (proj2 (sorted_razredi_In _ _)); exact Hr | exact Hsr].
    + split; [reflexivity|].
      intros [razred [Hr Hsr]]. exfalso.
      pose proof (find_none _ _ Ef razred
                    (proj2 (sorted_razredi_In _ _) Hr)) as Hf.
      simpl in Hf. congruence.
Qed.

(** ** Warnings and red flags carry points *)

Lemma fold_korak_imena_sporocila ime vzorci st :
  (5 * Z.of_nat (length (st_opozorila st)) + 10 * Z.of_nat (length (st_rdeci_zastavice st))
   <= tocke_prevare st)%Z ->
  (5 * Z.of_nat (length (st_opozorila (fold_left (korak_imena ime) vzorci st)))
   + 10 * Z.of_nat (length (st_rdeci_zastavice (fold_left (korak_imena ime) vzorci st)))
   <= tocke_prevare (fold_left (korak_imena ime) vzorci st))%Z.
Proof using Type.
  revert st. induction vzorci as [|v r IH]; intros st H; simpl; [exact H|].
  apply IH. unfold korak_imena. destruct (vsebuje v ime); [|exact H].
  cbn [tocke_prevare st_opozorila st_rdeci_zastavice]. rewrite length_app. simpl length. lia.
Qed.

Lemma fold_korak_fraze_sporocila besedilo fraze st :
  (5 * Z.of_nat (length (st_opozorila st)) + 10 * Z.of_nat (length (st_rdeci_zastavice st))
   <= tocke_prevare st)%Z ->
  (5 * Z.of_nat (length (st_opozorila (fold_left (korak_fraze besedilo) fraze st)))
   + 10 * Z.of_nat (length (st_rdeci_zastavice (fold_left (korak_fraze besedilo) fraze st)))
   <= tocke_prevare (fold_left (korak_fraze besedilo) fraze st))%Z.
Proof using Type.
  revert st. induction fraze as [|v r IH]; intros st H; simpl; [exact H|].
  apply IH. unfold korak_fraze. destruct (vsebuje v besedilo); [|exact H].
  cbn [tocke_prevare st_opozorila st_rdeci_zastavice]. rewrite length_app. simpl length. lia.
Qed.

Lemma zberi_tocke_sporocila podatki :
  (5 * Z.of_nat (length (st_opozorila (zberi_tocke podatki)))
   + 10 * Z.of_nat (length (st_rdeci_zastavice (zberi_tocke podatki)))
   <= tocke_prevare (zberi_tocke podatki))%Z.
Proof using Type.
  unfold zberi_tocke. cbv zeta.
  set (st0 := {| tocke_prevare := 0; st_opozorila := []; st_rdeci_zastavice := [] |}).
  set (st1 := fold_left _ sumljiva_imena st0).
  set (st2 := fold_left _ rdece_fraze st1).
  assert (H2 : (5 * Z.of_nat (length (st_opozorila st2))
                + 10 * Z.of_nat (length (st_rdeci_zastavice st2)) <= tocke_prevare st2)%Z).
  { apply fold_korak_fraze_sporocila. apply fold_korak_imena_sporocila. simpl. lia. }
  clearbody st2.
  po_vejah;
    cbn [tocke_prevare st_opozorila st_rdeci_zastavice dodaj_tocke dodaj_tocke_in_zastavo];
    rewrite ?length_app; simpl length; lia.
Qed.

(** X18. In the dynamic heuristic every warning stands for at least 5
    points and every red flag for at least 10: the point total is at least
    5 times the number of warnings plus 10 times the number of red flags.
    So an indicator record that lists a warning or a red flag has a fraud
    probability of at least 0.05. *)
Theorem sporocila_nosijo_tocke (podatki : Podatki) :
  (5 * Z.of_nat (length (opozorila (dinamicna_analiza podatki)))
   + 10 * Z.of_nat (length (rdeci_zastavice (dinamicna_analiza podatki)))
   <= tocke_prevare (zberi_tocke podatki))%Z /\
  (opozorila (dinamicna_analiza podatki) <> [] \/
   rdeci_zastavice (dinamicna_analiza podatki) <> [] ->
   0.05 <= verjetnost_prevare (dinamicna_analiza podatki)).
Proof using Type.
  pose proof (zberi_tocke_sporocila podatki) as H.
  unfold dinamicna_analiza. cbn [opozorila rdeci_zastavice verjetnost_prevare].
  split; [exact H|].
  intro Hn.
  assert (Ht : (5 <= tocke_prevare (zberi_tocke podatki))%Z).
  { destruct Hn as [Hn|Hn].
    - destruct (st_opozorila (zberi_tocke podatki)); [congruence|]. simpl length in H. lia.
    - destruct (st_rdeci_zastavice (zberi_tocke podatki)); [congruence|].
      simpl length in H. lia. }
  assert (Hq : 0.05 <= inject_Z (tocke_prevare (zberi_tocke podatki)) / 100).
  { apply Qle_shift_div_l; [lra|].
    apply Qle_trans with (inject_Z 5); [vm_compute; discriminate|].
    rewrite <- Zle_Qle. exact Ht. }
  destruct (min_izbira (inject_Z (tocke_prevare (zberi_tocke podatki)) / 100) 0.95)
    as [E|E]; rewrite E; lra.
Qed.

(** ** Reported data can score below missing data *)

(** X20. For a project ranked in the top 100, a small reported community
    scores below no reported community at all: between 10001 and 100000
    followers in total give a lower engagement score than none; for rank
    at most 30, a Twitter or Reddit following in the lowest two bands
    gives a lower presence score than none; and between 101 and 1000 active
    Reddit accounts give a lower community-health score than none. *)
Theorem majhna_skupnost_pod_manjkajoco (skupnost : SkupnostPodatki) (rang : Z) :
  let twitter := ali_privzeto_Z (twitter_followers skupnost) 0%Z in
  let reddit := ali_privzeto_Z (reddit_subscribers skupnost) 0%Z in
  let telegram := ali_privzeto_Z (telegram_channel_user_count skupnost) 0%Z in
  let aktivni := ali_privzeto_Q (reddit_accounts_active_48h skupnost) 0 in
  let brez := community_data prazni_osnovni in
  ((rang <= 100)%Z -> (10000 < twitter + reddit + telegram <= 100000)%Z ->
   ocena_angaziranosti skupnost rang < ocena_angaziranosti brez rang) /\
  ((rang <= 30)%Z -> (twitter <= 100000)%Z -> (reddit <= 20000)%Z ->
   (10000 < twitter)%Z \/ (5000 < reddit)%Z ->
   ocena_prisotnosti skupnost rang < ocena_prisotnosti brez rang) /\
  ((rang <= 100)%Z -> 100 < aktivni <= 1000 ->
   ocena_zdravja skupnost rang < ocena_zdravja brez rang).
Proof using Type.
  cbv zeta. split; [|split].
  - intros Hr Ht. unfold ocena_angaziranosti. cbv zeta.
    set (tw := ali_privzeto_Z (twitter_followers skupnost) 0%Z) in *.
    set (rd := ali_privzeto_Z (reddit_subscribers skupnost) 0%Z) in *.
    set (tg := ali_privzeto_Z (telegram_channel_user_count skupnost) 0%Z) in *.
    simpl (ali_privzeto_Z (_ (community_data prazni_osnovni)) 0%Z).
    rewrite !Z.gtb_ltb. simpl (_ <? 0 + 0 + 0)%Z. cbv iota.
    po_vejah_z_enacbami; v_prop; try lia; reflexivity.
  - intros Hr Ht Hd Hn. unfold ocena_prisotnosti. cbv zeta.
    set (tw := ali_privzeto_Z (twitter_followers skupnost) 0%Z) in *.
    set (rd := ali_privzeto_Z (reddit_subscribers skupnost) 0%Z) in *.
    simpl (ali_privzeto_Z (_ (community_data prazni_osnovni)) 0%Z).
    rewrite !Z.gtb_ltb. simpl (_ <? 0)%Z. simpl andb. simpl orb. cbv iota.
    destruct (1000000 <? tw)%Z eqn:E1; destruct (100000 <? rd)%Z eqn:E2;
    destruct (500000 <? tw)%Z eqn:E3; destruct (200000 <? tw)%Z eqn:E4;
    destruct (50000 <? rd)%Z eqn:E5; destruct (100000 <? tw)%Z eqn:E6;
    destruct (20000 <? rd)%Z eqn:E7; destruct (50000 <? tw)%Z eqn:E8;
    destruct (10000 <? rd)%Z eqn:E9; destruct (10000 <? tw)%Z eqn:E10;
    destruct (5000 <? rd)%Z eqn:E11; destruct (rang <=? 30)%Z eqn:E12;
    v_prop; try lia; reflexivity.
  - intros Hr Ha. unfold ocena_zdravja. cbv zeta.
    set (ak := ali_privzeto_Q (reddit_accounts_active_48h skupnost) 0) in *.
    simpl (ali_privzeto_Q (_ (community_data prazni_osnovni)) 0).
    replace (0 >? 10000) with false by reflexivity.
    replace (0 >? 5000) with false by reflexivity.
    replace (0 >? 2000) with false by reflexivity.
    replace (0 >? 1000) with false by reflexivity.
    replace (0 >? 500) with false by reflexivity.
    replace (0 >? 100) with false by reflexivity.
    po_vejah_z_enacbami; v_prop; try lia; try lra; reflexivity.
Qed.

(** X21. For a project ranked in the top 200, a little reported
    development activity (up to 100 stars and up to 20 commits in four
    weeks, not both zero) gives the architecture score 5.0, below the score
    of at least 6.5 that the same project gets when no developer data is
    reported. *)
Theorem malo_razvoja_pod_manjkajocim (razvojni : RazvojniPodatki) (rang : Z) (starost_let : Q) :
  let zvezdice := ali_privzeto_Z (stars razvojni) 0%Z in
  let commiti := ali_privzeto_Z (commit_count_4_weeks razvojni) 0%Z in
  (rang <= 200)%Z ->
  (0 <= zvezdice <= 100)%Z -> (0 <= commiti <= 20)%Z -> (0 < zvezdice + commiti)%Z ->
  ocena_arhitekture razvojni rang starost_let = 5.0 /\
  6.5 <= ocena_arhitekture (developer_data prazni_osnovni) rang starost_let.
Proof using Type.
  cbv zeta. intros Hr Hz Hc Hn. split.
  - unfold ocena_arhitekture. cbv zeta.
    set (zv := ali_privzeto_Z (stars razvojni) 0%Z) in *.
    set (cm := ali_privzeto_Z (commit_count_4_weeks razvojni) 0%Z) in *.
    rewrite !Z.gtb_ltb.
    destruct (50000 <? zv)%Z eqn:E1; destruct (30000 <? zv)%Z eqn:E2;
    destruct (15000 <? zv)%Z eqn:E3; destruct (5000 <? zv)%Z eqn:E4;
    destruct (1000 <? zv)%Z eqn:E5; destruct (500 <? zv)%Z eqn:E6;
    destruct (100 <? zv)%Z eqn:E7; destruct (0 <? zv)%Z eqn:E8;
    destruct (50 <? cm)%Z eqn:E9; destruct (20 <? cm)%Z eqn:E10;
    destruct (0 <? cm)%Z eqn:E11;
    v_prop; try lia; simpl; po_vejah; reflexivity.
  - unfold ocena_arhitekture. cbv zeta.
    simpl (ali_privzeto_Z (_ (developer_data prazni_osnovni)) 0%Z).
    simpl ((0 >? _)%Z). simpl andb. simpl orb. cbv iota.
    po_vejah_z_enacbami; v_prop; try lia; lra.
Qed.

End Klasifikacija.

(* ------------------------------------------------------------------ *)
(** * The theorems at concrete inputs *)

(** C1 at the bitcoin payload: no registry hit, the provider answers, the
    final score is 90.3525 and the report shows it rounded. *)
Lemma C1_koncna_ocena_primer :
  exists rezultat koncna,
    klasificiraj ura_primer baza_primer ponudnik_primer cas_primer "bitcoin" 0%nat
      = (Vrnjeno rezultat, 1%nat) /\
    slovar_get rezultat "koncna_ocena" = Some (VStevilo (round koncna 2)) /\
    koncna == 90.3525.
Proof.
  destruct (C1_koncna_ocena ura_primer baza_primer nat ponudnik_primer cas_primer
              "bitcoin" 0%nat podatki_bitcoin 1%nat eq_refl eq_refl eq_refl)
    as [r [k [H1 [H2 [H3 _]]]]].
  exists r, k. split; [exact H1|]. split; [exact H2|].
  rewrite H3. vm_compute. reflexivity.
Defined.

(** C2 at the registry entry "safemoon". *)
Lemma C2_znana_prevara_primer :
  exists rezultat,
    klasificiraj ura_primer baza_primer ponudnik_primer cas_primer "safemoon" 0%nat
      = (Vrnjeno rezultat, 0%nat) /\
    slovar_get rezultat "stopnja_tveganja" = Some (VNiz "CRITICAL").
Proof.
  destruct (C2_znana_prevara ura_primer baza_primer nat ponudnik_primer cas_primer
              "safemoon" 0%nat _ eq_refl) as [r [H1 [_ [H2 _]]]].
  exists r. split; [exact H1 | exact H2].
Defined.

(** C2 as stated fails at "safemoon": the identifier is in the registry,
    yet the risk tier field of the result is not the rendered value of the
    critical tier and the result has no probability field. *)
Lemma C2_protiprimer :
  UpravljalecBazePrevar.je_znana_prevara baza_primer "safemoon" <> None /\
  exists rezultat,
    fst (klasificiraj ura_primer baza_primer ponudnik_primer cas_primer "safemoon" 0%nat)
      = Vrnjeno rezultat /\
    slovar_get rezultat "stopnja_tveganja"
      <> Some (VNiz (StopnjaTveganja_value KRITICNO)) /\
    slovar_get rezultat "verjetnost_prevare" = None.
Proof.
  split; [discriminate|].
  eexists. split; [reflexivity|]. split; [discriminate | reflexivity].
Qed.

(** C3 at the payload of scenario C. *)
Lemma C3_dinamicna_hevristika_primer :
  0.6 <= verjetnost_prevare (dinamicna_analiza podatki_scenarij_C) /\
  tip_prevare (dinamicna_analiza podatki_scenarij_C) = RUG_PULL.
Proof.
  apply (proj1 (proj2 (proj2 (proj2
           (C3_dinamicna_hevristika baza_primer podatki_scenarij_C)))));
    reflexivity.
Defined.

(** C3 as stated fails for rank 5000 with no market cap and no volume
    reported: the rules of the specification give 8 + 20 points and
    probability 0.28, the code gives no points and probability 0. *)
Lemma C3_protiprimer :
  tocke_po_specifikaciji podatki_brez_kapitalizacije = 28%Z /\
  tocke_prevare (zberi_tocke podatki_brez_kapitalizacije) = 0%Z /\
  verjetnost_prevare (dinamicna_analiza podatki_brez_kapitalizacije) == 0 /\
  ~ verjetnost_prevare (dinamicna_analiza podatki_brez_kapitalizacije)
    == min_ (inject_Z (tocke_po_specifikaciji podatki_brez_kapitalizacije) / 100) 0.95.
Proof.
  repeat split. intro H. vm_compute in H. discriminate H.
Qed.

(** C4 at a high score with probability 0.9, and at score 60 with
    probability 0. *)
Lemma C4_stopnja_tveganja_primer :
  _doloci_stopnjo 90
    {| je_znana_prevara := false; tip_prevare := PUMP_AND_DUMP;
       verjetnost_prevare := 0.9; rdeci_zastavice := []; opozorila := [];
       podatki_znane_prevare := None |} = KRITICNO /\
  _doloci_stopnjo 60 IndikatorjiPrevare_privzeto = SREDNJE.
Proof.
  split.
  - apply (proj1 (C4_stopnja_tveganja ura_primer nat cas_primer 90 _)).
    right. reflexivity.
  - apply (proj1 (proj2 (proj2 (proj1 (proj2
             (C4_stopnja_tveganja ura_primer nat cas_primer 60
                IndikatorjiPrevare_privzeto)) eq_refl ltac:(discriminate))))).
    split; [discriminate | reflexivity].
Defined.

(** C5 at rank 300 without a genesis date. *)
Lemma C5_starost_nad_200_primer :
  starost_let_tehnicne ura_primer podatki_rang_300 = 1.0 /\
  starost_let_ekonomske ura_primer podatki_rang_300 = 2.0 /\
  starost_let_socialne ura_primer podatki_rang_300 = 2.0 /\
  ~ starost_let_ekonomske ura_primer podatki_rang_300
    == starost_po_rangu (_dobi_rang podatki_rang_300).
Proof.
  apply (C5_starost_nad_200 ura_primer podatki_rang_300); reflexivity.
Defined.

(** C7 at the bitcoin payload: a layer-1 label decides, whatever the score. *)
Lemma C7_kategorija_primer : _doloci_kategorijo podatki_bitcoin 10 = LAYER_1.
Proof.
  apply (proj1 (C7_kategorija ura_primer nat cas_primer podatki_bitcoin 10)).
  exists "Layer 1 (L1)", "layer 1". simpl. auto.
Defined.

(** C8 at volumes 50 thousand and 3 billion. *)
Lemma C8_likvidnost_monotona_primer :
  globina_likvidnosti (analiziraj_ekonomske ura_primer podatki_volumen_50_tisoc) <=
  globina_likvidnosti (analiziraj_ekonomske ura_primer podatki_volumen_3_milijarde).
Proof.
  apply (C8_likvidnost_monotona ura_primer). reflexivity.
Defined.

(** C9 at a batch whose second identifier is unknown to the provider. *)
Lemma C9_batch_napake_primer :
  batch_analiziraj ura_primer baza_primer ponudnik_primer cas_primer
    (["bitcoin"] ++ "neznan" :: ["safemoon"]) 0%nat =
  ((fst (batch_analiziraj ura_primer baza_primer ponudnik_primer cas_primer
           ["bitcoin"] 0%nat)
      ++ zapis_napake "neznan" "Kovanec 'neznan' ni najden"
      :: fst (batch_analiziraj ura_primer baza_primer ponudnik_primer cas_primer
                ["safemoon"] 2%nat))%list,
   snd (batch_analiziraj ura_primer baza_primer ponudnik_primer cas_primer
          ["safemoon"] 2%nat)).
Proof.
  apply (proj1 (C9_batch_napake ura_primer baza_primer nat ponudnik_primer cas_primer
                  ["bitcoin"] ["safemoon"] "neznan" 0%nat)).
  vm_compute. reflexivity.
Defined.

(** C10 at the payload of scenario C, which is in no registry. *)
Lemma C10_dinamicna_pot_primer :
  verjetnost_prevare (analiziraj_prevare baza_primer podatki_scenarij_C "Yield Vault")
    <= 0.95 /\
  je_znana_prevara (analiziraj_prevare baza_primer podatki_scenarij_C "Yield Vault")
    = false.
Proof.
  apply (proj1 (C10_dinamicna_pot baza_primer podatki_scenarij_C "Yield Vault"));
    reflexivity.
Defined.

(** Scenario D of the specification: rank 15 without a genesis date. *)
Example starost_rang_15_primer :
  starost_let_tehnicne ura_primer podatki_rang_15 = 6.0 /\
  starost_let_ekonomske ura_primer podatki_rang_15 = 6.0 /\
  starost_let_socialne ura_primer podatki_rang_15 = 6.0.
Proof. apply starost_rang_15; reflexivity. Qed.

(** Scenario A of the specification: an established rank-1 project is
    graded A, is of very low risk and counts as layer 1. *)
Example klasificiraj_bitcoin :
  exists rezultat,
    fst (klasificiraj ura_primer baza_primer ponudnik_primer cas_primer "bitcoin" 0%nat)
      = Vrnjeno rezultat /\
    slovar_get rezultat "ocena_crka" = Some (VNiz "A") /\
    slovar_get rezultat "stopnja_tveganja" = Some (VNiz "Very Low Risk") /\
    slovar_get rezultat "kategorija" = Some (VNiz "Layer 1 - Own Blockchain").
Proof. eexists. vm_compute. repeat split. Qed.

(* ------------------------------------------------------------------ *)
(** * The classifier on top of the HTTP client *)

Arguments Izjema {A} sporocilo.
Arguments Status429 {A}.
Arguments Status404 {A}.

Section KlasifikatorSKlientom.

Variable dni_od_geneze : string -> option Z.
Variable baza : UpravljalecBazePrevar.t.
Variable Svet : Type.
Variable cas : Svet -> string.
Variable _max_ponovitev : nat.
Variable zahteva_podrobnosti : string -> Svet -> Odziv PodrobnostiJSON * Svet.
Variable zahteva_iskanje : string -> Svet -> Odziv (list Kovanec) * Svet.
Variable zahteva_trg : string -> Svet -> Odziv (list TrzniPodatki) * Svet.


End KlasifikatorSKlientom.

(* ------------------------------------------------------------------ *)
(** * The further properties at concrete inputs *)

(** X1 at the symbol "SFM". *)
Lemma je_znana_prevara_iz_baze_primer :
  exists kljuc v,
    In (kljuc, v) baza_primer /\
    (In kljuc [normaliziran "SFM"; lower "SFM"; "SFM"] \/
     lower (get (zp_name v) "") = lower "SFM" \/
     lower (get (zp_symbol v) "") = lower "SFM").
Proof.
  destruct (je_znana_prevara_iz_baze baza_primer "SFM" _ eq_refl) as [k H].
  exists k. eexists. exact H.
Defined.


(** X3 for an identifier with a space in it. *)
Lemma dodaj_prevaro_nato_je_znana_primer :
  UpravljalecBazePrevar.je_znana_prevara
    (dodaj_prevaro baza_primer "Squid Game" zapis_primer) "Squid Game" = Some zapis_primer.
Proof.
  apply (proj1 (dodaj_prevaro_nato_je_znana baza_primer "Squid Game" zapis_primer)).
  right. reflexivity.
Defined.

(** X4 at a payload whose name is in the registry as a rug pull. *)
Lemma znana_prevara_brez_tipa_primer :
  tip_prevare (analiziraj_prevare baza_primer podatki_scenarij_C "SafeMoon") = NEZNANO.
Proof. apply znana_prevara_brez_tipa. reflexivity. Defined.

(** X5 at the technical metrics of the bitcoin payload, all between 8
    and 9.5. *)
Lemma os_je_utezeno_povprecje_primer :
  10 * 8 <= izracunaj_oceno_teh (analiziraj_tehnicne ura_primer podatki_bitcoin) <= 10 * 9.5.
Proof.
  apply (proj1 (os_je_utezeno_povprecje 8 9.5)).
  vm_compute. repeat constructor; discriminate.
Defined.

(** X6 at the bitcoin payload. *)
Lemma koncna_ocena_izracunane_klasifikacije_primer :
  26 < koncna_ocena ura_primer podatki_bitcoin
         (analiziraj_prevare baza_primer podatki_bitcoin "Bitcoin") <= 92.2925.
Proof.
  apply (koncna_ocena_izracunane_klasifikacije ura_primer baza_primer podatki_bitcoin
           "Bitcoin" eq_refl).
Defined.

(** X7 at the bitcoin payload. *)
Lemma stopnja_tveganja_po_crki_primer :
  _doloci_stopnjo
    (koncna_ocena ura_primer podatki_bitcoin
       (analiziraj_prevare baza_primer podatki_bitcoin "Bitcoin"))
    (analiziraj_prevare baza_primer podatki_bitcoin "Bitcoin") =
  stopnja_crke
    (_doloci_crko (koncna_ocena ura_primer podatki_bitcoin
                     (analiziraj_prevare baza_primer podatki_bitcoin "Bitcoin"))).
Proof.
  apply (stopnja_tveganja_po_crki ura_primer baza_primer podatki_bitcoin "Bitcoin" eq_refl).
  vm_compute. discriminate.
Defined.

(** X8 at the payload of scenario C. *)
Lemma slabosti_izracunanih_metrik_primer :
  In "Nizka likvidnost" dosegljive_slabosti.
Proof.
  apply (proj1 (slabosti_izracunanih_metrik ura_primer podatki_scenarij_C
                  (dinamicna_analiza podatki_scenarij_C))).
  vm_compute. tauto.
Defined.

(** X9 at the bitcoin payload with ranks 1 and 50. *)
Lemma osi_ne_padejo_z_boljsim_rangom_primer :
  izracunaj_oceno_teh (analiziraj_tehnicne ura_primer (z_rangom podatki_bitcoin 50)) <=
  izracunaj_oceno_teh (analiziraj_tehnicne ura_primer (z_rangom podatki_bitcoin 1)).
Proof.
  apply (proj1 (osi_ne_padejo_z_boljsim_rangom ura_primer podatki_bitcoin 1 50
                  ltac:(lia))).
Defined.

(** X10 at the payload of scenario C with ranks 150 and 5000. *)
Lemma verjetnost_ne_raste_z_boljsim_rangom_primer :
  verjetnost_prevare (dinamicna_analiza (z_rangom podatki_scenarij_C 150)) <=
  verjetnost_prevare (dinamicna_analiza (z_rangom podatki_scenarij_C 5000)).
Proof.
  apply (proj2 (verjetnost_ne_raste_z_boljsim_rangom podatki_scenarij_C 150 5000
                  ltac:(lia))).
Defined.

(** X11 at the payload of scenario C with ranks 150 and 5000. *)
Lemma koncna_ocena_ne_pade_z_boljsim_rangom_primer :
  koncna_ocena ura_primer (z_rangom podatki_scenarij_C 5000)
    (dinamicna_analiza (z_rangom podatki_scenarij_C 5000)) <=
  koncna_ocena ura_primer (z_rangom podatki_scenarij_C 150)
    (dinamicna_analiza (z_rangom podatki_scenarij_C 150)).
Proof.
  apply (koncna_ocena_ne_pade_z_boljsim_rangom ura_primer podatki_scenarij_C 150 5000).
  lia.
Defined.


(** X13 for an endpoint that needs three requests, with three allowed. *)
Lemma izvedi_zahtevo_poraba_primer :
  exists k, (k <= 3)%nat /\
    snd (_izvedi_zahtevo 3 zahteva_nestabilna 0%nat) = po_zahtevah zahteva_nestabilna k 0%nat.
Proof.
  destruct (izvedi_zahtevo_poraba nat 3 string zahteva_nestabilna 0%nat) as [k [H1 [H2 _]]].
  exists k. split; assumption.
Defined.

(** X14 for the same endpoint: two answers 429, then the body. *)
Lemma izvedi_zahtevo_odlocilni_odgovor_primer :
  _izvedi_zahtevo 3 zahteva_nestabilna 0%nat = (Vrnjeno (Some "telo"), 3%nat).
Proof.
  apply (proj1 (izvedi_zahtevo_odlocilni_odgovor nat 3 string zahteva_nestabilna 2 0%nat
                  ltac:(lia)
                  ltac:(intros [|[|j]] Hj; [reflexivity | reflexivity | lia]))).
  reflexivity.
Defined.

(** X15 for the query "BTC": the second coin matches by its symbol. *)
Lemma izberi_kovanec_pravila_primer :
  izberi_kovanec "BTC" kovanci_primer = Some "bitcoin".
Proof.
  apply (proj1 (proj2 (izberi_kovanec_pravila "BTC" kovanci_primer))
           [{| k_id := "bitcoin-cash"; k_symbol := Some "bch";
               k_name := Some "Bitcoin Cash" |}]
           {| k_id := "bitcoin"; k_symbol := Some "btc"; k_name := Some "Bitcoin" |}
           []).
  - reflexivity.
  - intros drug [H|[]]. subst. reflexivity.
  - reflexivity.
Defined.

(** X16 for the identifier "BTC", found through the search. *)
Lemma pridobi_podatke_kovanca_rang_primer :
  exists r, r <> 0%Z /\
    ali_Z (md_market_cap_rank (market_data podatki_bitcoin))
          (bi_market_cap_rank (bi_market_data (basic_info podatki_bitcoin))) = Some r /\
    _dobi_rang podatki_bitcoin = r /\ rang_kategorije podatki_bitcoin = r.
Proof.
  apply (pridobi_podatke_kovanca_rang nat 3 zahteva_podrobnosti_primer
           zahteva_iskanje_primer zahteva_trg_primer "BTC" 0%nat podatki_bitcoin 4%nat).
  reflexivity.
Defined.

(** X17 for a market cap of 50 million: the class "small" is chosen. *)
Lemma dobi_mnozitelj_tveganja_pravila_primer :
  exists izbran,
    In izbran pragovi_primer /\
    razred_sprejme 50000000 (snd izbran) = true /\
    dobi_mnozitelj_tveganja pragovi_primer 50000000 = get (risk_multiplier (snd izbran)) 1.0 /\
    forall razred, In razred pragovi_primer -> razred_sprejme 50000000 (snd razred) = true ->
      kljuc_leb (kljuc_razreda (snd izbran)) (kljuc_razreda (snd razred)) = true.
Proof.
  apply (proj2 (proj2 (dobi_mnozitelj_tveganja_pravila pragovi_primer 50000000)
                  ltac:(discriminate) ltac:(discriminate))).
  exists ("large", {| max_usd := None; risk_multiplier := Some 1 |}).
  split; [simpl; tauto | reflexivity].
Defined.

(** X18 at the payload of scenario C, which lists three red flags. *)
Lemma sporocila_nosijo_tocke_primer :
  0.05 <= verjetnost_prevare (dinamicna_analiza podatki_scenarij_C).
Proof.
  apply (proj2 (sporocila_nosijo_tocke podatki_scenarij_C)).
  right. discriminate.
Defined.


(** X20 for rank 5 and twenty thousand Twitter followers. *)
Lemma majhna_skupnost_pod_manjkajoco_primer :
  ocena_angaziranosti
    {| twitter_followers := Some 20000%Z; reddit_subscribers := None;
       telegram_channel_user_count := None; reddit_accounts_active_48h := None |} 5 <
  ocena_angaziranosti (community_data prazni_osnovni) 5.
Proof.
  apply (proj1 (majhna_skupnost_pod_manjkajoco
                  {| twitter_followers := Some 20000%Z; reddit_subscribers := None;
                     telegram_channel_user_count := None;
                     reddit_accounts_active_48h := None |} 5)).
  - lia.
  - vm_compute. split; [reflexivity | discriminate].
Defined.

(** X21 for rank 5, age 8 and forty stars. *)
Lemma malo_razvoja_pod_manjkajocim_primer :
  ocena_arhitekture {| stars := Some 40%Z; forks := None; commit_count_4_weeks := None |}
    5 8 = 5.0 /\
  6.5 <= ocena_arhitekture (developer_data prazni_osnovni) 5 8.
Proof.
  apply (malo_razvoja_pod_manjkajocim
           {| stars := Some 40%Z; forks := None; commit_count_4_weeks := None |} 5 8).
  - lia.
  - vm_compute. split; discriminate.
  - vm_compute. split; discriminate.
  - vm_compute. reflexivity.
Defined.
